(** * Aplikasi Pendataan Mahasiswa (index.py)

    A shallow embedding of the storage statements, the session guard and the
    request handlers of index.py, and the properties of its authorisation
    rules and delete cascades.

    Layout: rows and tables, the SQL statements the program issues, the
    handler monad (connection, session, flashed messages, engine faults),
    the handlers themselves, then the theorems. *)

From Stdlib Require Import ZArith List String Bool Lia Floats.
Import ListNotations.
Open Scope string_scope.
Open Scope list_scope.
Open Scope Z_scope.

(** ** Rows

    One record per table of [init_db]; the fields are the columns of the
    CREATE TABLE statements.  Integer columns hold [Z], TEXT columns hold
    strings, the REAL column of [nilai] holds a binary64 float: a column
    holds the value the program binds to the statement.  The program never
    binds NULL.  Two floats are not kept as they are bound - SQLite stores
    a NaN as NULL and the negative zero as 0.0 - and an integer outside 64
    bits cannot be bound at all: these values are outside the model, and
    the theorems on what a request stores ask for [sqlite_real] and
    [sqlite_integer] where a value comes from a URL or a form. *)

Record users_row := {
  users_id : Z;
  users_username : string;
  users_password_hash : string;
  users_role : string;
  users_full_name : string }.

Record mahasiswa_row := {
  mahasiswa_id : Z;
  mahasiswa_nim : string;
  mahasiswa_alamat : string;
  mahasiswa_phone : string }.

Record dosen_row := {
  dosen_id : Z;
  dosen_nidn : string }.

Record mata_kuliah_row := {
  mata_kuliah_id : Z;
  mata_kuliah_kode : string;
  mata_kuliah_nama : string;
  mata_kuliah_sks : Z }.

Record kelas_row := {
  kelas_id : Z;
  kelas_nama : string;
  kelas_mata_kuliah_id : Z;
  kelas_dosen_id : Z }.

Record jadwal_row := {
  jadwal_id : Z;
  jadwal_kelas_id : Z;
  jadwal_hari : string;
  jadwal_jam : string }.

Record enroll_row := {
  enroll_id : Z;
  enroll_mahasiswa_id : Z;
  enroll_kelas_id : Z }.

Record nilai_row := {
  nilai_id : Z;
  nilai_enroll_id : Z;
  nilai_angka : float }.

(** The counters SQLite keeps for the AUTOINCREMENT tables: the largest
    rowid ever handed out, per table. *)
Record sqlite_sequence := {
  seq_users : Z;
  seq_mata_kuliah : Z;
  seq_kelas : Z;
  seq_jadwal : Z;
  seq_enroll : Z;
  seq_nilai : Z }.

(** A database: every table as the list of its rows in rowid order, the
    order in which a scan without ORDER BY returns them. *)
Record database := {
  users : list users_row;
  mahasiswa : list mahasiswa_row;
  dosen : list dosen_row;
  mata_kuliah : list mata_kuliah_row;
  kelas : list kelas_row;
  jadwal : list jadwal_row;
  enroll : list enroll_row;
  nilai : list nilai_row;
  sequence : sqlite_sequence }.

Definition empty_sequence : sqlite_sequence :=
  {| seq_users := 0; seq_mata_kuliah := 0; seq_kelas := 0;
     seq_jadwal := 0; seq_enroll := 0; seq_nilai := 0 |}.

(** The database right after the CREATE TABLE statements. *)
Definition empty_database : database :=
  {| users := []; mahasiswa := []; dosen := []; mata_kuliah := [];
     kelas := []; jadwal := []; enroll := []; nilai := [];
     sequence := empty_sequence |}.

(** Replacing one table (and, for an AUTOINCREMENT table, its counter);
    everything else is carried over. *)

Definition set_users (t : list users_row) (s : Z) (db : database) : database :=
  {| users := t;
     mahasiswa := mahasiswa db;
     dosen := dosen db;
     mata_kuliah := mata_kuliah db;
     kelas := kelas db;
     jadwal := jadwal db;
     enroll := enroll db;
     nilai := nilai db;
     sequence :=
       {| seq_users := s;
          seq_mata_kuliah := seq_mata_kuliah (sequence db);
          seq_kelas := seq_kelas (sequence db);
          seq_jadwal := seq_jadwal (sequence db);
          seq_enroll := seq_enroll (sequence db);
          seq_nilai := seq_nilai (sequence db) |} |}.

Definition set_mahasiswa (t : list mahasiswa_row) (db : database) : database :=
  {| users := users db;
     mahasiswa := t;
     dosen := dosen db;
     mata_kuliah := mata_kuliah db;
     kelas := kelas db;
     jadwal := jadwal db;
     enroll := enroll db;
     nilai := nilai db;
     sequence := sequence db |}.

Definition set_dosen (t : list dosen_row) (db : database) : database :=
  {| users := users db;
     mahasiswa := mahasiswa db;
     dosen := t;
     mata_kuliah := mata_kuliah db;
     kelas := kelas db;
     jadwal := jadwal db;
     enroll := enroll db;
     nilai := nilai db;
     sequence := sequence db |}.

Definition set_mata_kuliah (t : list mata_kuliah_row) (s : Z) (db : database) : database :=
  {| users := users db;
     mahasiswa := mahasiswa db;
     dosen := dosen db;
     mata_kuliah := t;
     kelas := kelas db;
     jadwal := jadwal db;
     enroll := enroll db;
     nilai := nilai db;
     sequence :=
       {| seq_users := seq_users (sequence db);
          seq_mata_kuliah := s;
          seq_kelas := seq_kelas (sequence db);
          seq_jadwal := seq_jadwal (sequence db);
          seq_enroll := seq_enroll (sequence db);
          seq_nilai := seq_nilai (sequence db) |} |}.

Definition set_kelas (t : list kelas_row) (s : Z) (db : database) : database :=
  {| users := users db;
     mahasiswa := mahasiswa db;
     dosen := dosen db;
     mata_kuliah := mata_kuliah db;
     kelas := t;
     jadwal := jadwal db;
     enroll := enroll db;
     nilai := nilai db;
     sequence :=
       {| seq_users := seq_users (sequence db);
          seq_mata_kuliah := seq_mata_kuliah (sequence db);
          seq_kelas := s;
          seq_jadwal := seq_jadwal (sequence db);
          seq_enroll := seq_enroll (sequence db);
          seq_nilai := seq_nilai (sequence db) |} |}.

Definition set_jadwal (t : list jadwal_row) (s : Z) (db : database) : database :=
  {| users := users db;
     mahasiswa := mahasiswa db;
     dosen := dosen db;
     mata_kuliah := mata_kuliah db;
     kelas := kelas db;
     jadwal := t;
     enroll := enroll db;
     nilai := nilai db;
     sequence :=
       {| seq_users := seq_users (sequence db);
          seq_mata_kuliah := seq_mata_kuliah (sequence db);
          seq_kelas := seq_kelas (sequence db);
          seq_jadwal := s;
          seq_enroll := seq_enroll (sequence db);
          seq_nilai := seq_nilai (sequence db) |} |}.

Definition set_enroll (t : list enroll_row) (s : Z) (db : database) : database :=
  {| users := users db;
     mahasiswa := mahasiswa db;
     dosen := dosen db;
     mata_kuliah := mata_kuliah db;
     kelas := kelas db;
     jadwal := jadwal db;
     enroll := t;
     nilai := nilai db;
     sequence :=
       {| seq_users := seq_users (sequence db);
          seq_mata_kuliah := seq_mata_kuliah (sequence db);
          seq_kelas := seq_kelas (sequence db);
          seq_jadwal := seq_jadwal (sequence db);
          seq_enroll := s;
          seq_nilai := seq_nilai (sequence db) |} |}.

Definition set_nilai (t : list nilai_row) (s : Z) (db : database) : database :=
  {| users := users db;
     mahasiswa := mahasiswa db;
     dosen := dosen db;
     mata_kuliah := mata_kuliah db;
     kelas := kelas db;
     jadwal := jadwal db;
     enroll := enroll db;
     nilai := t;
     sequence :=
       {| seq_users := seq_users (sequence db);
          seq_mata_kuliah := seq_mata_kuliah (sequence db);
          seq_kelas := seq_kelas (sequence db);
          seq_jadwal := seq_jadwal (sequence db);
          seq_enroll := seq_enroll (sequence db);
          seq_nilai := s |} |}.

(** ** Statements

    The write statements the modelled code sends to SQLite, one constructor
    per SQL text, with the bound parameters as arguments. *)

Inductive statement :=
| INSERT_users (username password_hash role full_name : string)
    (* INSERT INTO users (username, password_hash, role, full_name) VALUES (?,?,?,?) *)
| INSERT_mahasiswa (id : Z) (nim alamat phone : string)
    (* INSERT INTO mahasiswa (id, nim, alamat, phone) VALUES (?,?,?,?) *)
| INSERT_dosen (id : Z) (nidn : string)
    (* INSERT INTO dosen (id, nidn) VALUES (?,?) *)
| INSERT_mata_kuliah (kode nama : string) (sks : Z)
    (* INSERT INTO mata_kuliah (kode, nama, sks) VALUES (?,?,?) *)
| INSERT_kelas (nama : string) (mk_id dsn_id : Z)
    (* INSERT INTO kelas (nama, mata_kuliah_id, dosen_id) VALUES (?,?,?) *)
| INSERT_jadwal (kls_id : Z) (hari jam : string)
    (* INSERT INTO jadwal (kelas_id, hari, jam) VALUES (?,?,?) *)
| INSERT_enroll (mhs_id kls_id : Z)
    (* INSERT INTO enroll (mahasiswa_id, kelas_id) VALUES (?,?) *)
| INSERT_nilai (enr_id : Z) (angka : float)
    (* INSERT INTO nilai (enroll_id, nilai_angka) VALUES (?,?) *)
| UPDATE_nilai (angka : float) (enr_id : Z)
    (* UPDATE nilai SET nilai_angka=? WHERE enroll_id=? *)
| DELETE_nilai_of_mahasiswa (mhs_id : Z)
    (* DELETE FROM nilai WHERE enroll_id IN
         (SELECT id FROM enroll WHERE mahasiswa_id=?) *)
| DELETE_enroll_of_mahasiswa (mhs_id : Z)
    (* DELETE FROM enroll WHERE mahasiswa_id=? *)
| DELETE_mahasiswa (id : Z)
    (* DELETE FROM mahasiswa WHERE id=? *)
| DELETE_users (id : Z)
    (* DELETE FROM users WHERE id=? *)
| DELETE_nilai_of_enroll (enr_id : Z)
    (* DELETE FROM nilai WHERE enroll_id=? *)
| DELETE_enroll (id : Z)
    (* DELETE FROM enroll WHERE id=? *).

(** Python exceptions that the modelled code can meet. *)
Inductive exn :=
| KeyError              (* session['user_id'] on a session without it *)
| TypeError             (* subscripting the None of an empty fetchone() *)
| ValueError            (* int() or float() on a malformed string *)
| BadRequestKeyError    (* request.form[k] on a missing field *)
| IntegrityError (msg : string)
                        (* sqlite3: UNIQUE or PRIMARY KEY violated *)
| OperationalError (msg : string)
                        (* sqlite3: the engine could not run the statement *).

Section Rowid.
  Context {A : Type} (key : A -> Z).

(** Largest rowid in a table (0 when it is empty). *)
Definition max_rowid (rows : list A) : Z :=
  fold_right (fun r m => Z.max (key r) m) 0 rows.

(** AUTOINCREMENT: one more than the largest rowid ever used, which is
    the larger of the table's counter and of the rowids now present. *)
Definition next_rowid (seq : Z) (rows : list A) : Z :=
  Z.max seq (max_rowid rows) + 1.

Definition has_rowid (id : Z) (rows : list A) : bool :=
  existsb (fun r => key r =? id) rows.

(** A row with an explicit rowid goes to its place in rowid order. *)
Fixpoint insert_row (r : A) (rows : list A) : list A :=
  match rows with
  | [] => [r]
  | x :: xs => if key r <? key x then r :: rows else x :: insert_row r xs
  end.

(** DELETE ... WHERE id=? *)
Definition delete_rowid (id : Z) (rows : list A) : list A :=
  filter (fun r => negb (key r =? id)) rows.
End Rowid.

(** SELECT id FROM enroll WHERE mahasiswa_id=? *)
Definition enroll_ids_of_mahasiswa (mhs_id : Z) (db : database) : list Z :=
  map enroll_id (filter (fun e => enroll_mahasiswa_id e =? mhs_id) (enroll db)).

(** x IN (ids) *)
Definition mem_Z (x : Z) (ids : list Z) : bool := existsb (Z.eqb x) ids.

(** SET nilai_angka=? on one row *)
Definition with_angka (angka : float) (n : nilai_row) : nilai_row :=
  {| nilai_id := nilai_id n; nilai_enroll_id := nilai_enroll_id n;
     nilai_angka := angka |}.

(** [exec s db]: the database after statement [s] and the cursor's
    lastrowid, or the exception SQLite raises on a violated constraint.
    The lastrowid is given after an INSERT, the one place where the program
    reads it; after an UPDATE or a DELETE, where Python leaves 0 or the
    rowid of an earlier INSERT, it is [None].  Foreign keys are declared in the schema but the
    program never turns their enforcement on (no PRAGMA foreign_keys), so
    no statement fails on them. *)
Definition exec (s : statement) (db : database)
  : exn + (database * option Z) :=
  match s with
  | INSERT_users username password_hash role full_name =>
      if existsb (fun u => users_username u =? username)%string (users db)
      then inl (IntegrityError "UNIQUE constraint failed: users.username")
      else
        let id := next_rowid users_id (seq_users (sequence db)) (users db) in
        inr (set_users
               (users db ++
                  [{| users_id := id; users_username := username;
                      users_password_hash := password_hash;
                      users_role := role; users_full_name := full_name |}])
               id db, Some id)
  | INSERT_mahasiswa id nim alamat phone =>
      if has_rowid mahasiswa_id id (mahasiswa db)
      then inl (IntegrityError "UNIQUE constraint failed: mahasiswa.id")
      else
        inr (set_mahasiswa
               (insert_row mahasiswa_id
                  {| mahasiswa_id := id; mahasiswa_nim := nim;
                     mahasiswa_alamat := alamat; mahasiswa_phone := phone |}
                  (mahasiswa db)) db, Some id)
  | INSERT_dosen id nidn =>
      if has_rowid dosen_id id (dosen db)
      then inl (IntegrityError "UNIQUE constraint failed: dosen.id")
      else
        inr (set_dosen
               (insert_row dosen_id {| dosen_id := id; dosen_nidn := nidn |}
                  (dosen db)) db, Some id)
  | INSERT_mata_kuliah kode nama sks =>
      let id := next_rowid mata_kuliah_id (seq_mata_kuliah (sequence db))
                  (mata_kuliah db) in
      inr (set_mata_kuliah
             (mata_kuliah db ++
                [{| mata_kuliah_id := id; mata_kuliah_kode := kode;
                    mata_kuliah_nama := nama; mata_kuliah_sks := sks |}])
             id db, Some id)
  | INSERT_kelas nama mk_id dsn_id =>
      let id := next_rowid kelas_id (seq_kelas (sequence db)) (kelas db) in
      inr (set_kelas
             (kelas db ++
                [{| kelas_id := id; kelas_nama := nama;
                    kelas_mata_kuliah_id := mk_id; kelas_dosen_id := dsn_id |}])
             id db, Some id)
  | INSERT_jadwal kls_id hari jam =>
      let id := next_rowid jadwal_id (seq_jadwal (sequence db)) (jadwal db) in
      inr (set_jadwal
             (jadwal db ++
                [{| jadwal_id := id; jadwal_kelas_id := kls_id;
                    jadwal_hari := hari; jadwal_jam := jam |}])
             id db, Some id)
  | INSERT_enroll mhs_id kls_id =>
      let id := next_rowid enroll_id (seq_enroll (sequence db)) (enroll db) in
      inr (set_enroll
             (enroll db ++
                [{| enroll_id := id; enroll_mahasiswa_id := mhs_id;
                    enroll_kelas_id := kls_id |}])
             id db, Some id)
  | INSERT_nilai enr_id angka =>
      let id := next_rowid nilai_id (seq_nilai (sequence db)) (nilai db) in
      inr (set_nilai
             (nilai db ++
                [{| nilai_id := id; nilai_enroll_id := enr_id;
                    nilai_angka := angka |}])
             id db, Some id)
  | UPDATE_nilai angka enr_id =>
      inr (set_nilai
             (map (fun n =>
                     if nilai_enroll_id n =? enr_id then with_angka angka n
                     else n) (nilai db))
             (seq_nilai (sequence db)) db, None)
  | DELETE_nilai_of_mahasiswa mhs_id =>
      inr (set_nilai
             (filter (fun n =>
                        negb (mem_Z (nilai_enroll_id n)
                                (enroll_ids_of_mahasiswa mhs_id db)))
                (nilai db))
             (seq_nilai (sequence db)) db, None)
  | DELETE_enroll_of_mahasiswa mhs_id =>
      inr (set_enroll
             (filter (fun e => negb (enroll_mahasiswa_id e =? mhs_id))
                (enroll db))
             (seq_enroll (sequence db)) db, None)
  | DELETE_mahasiswa id =>
      inr (set_mahasiswa (delete_rowid mahasiswa_id id (mahasiswa db)) db, None)
  | DELETE_users id =>
      inr (set_users (delete_rowid users_id id (users db))
             (seq_users (sequence db)) db, None)
  | DELETE_nilai_of_enroll enr_id =>
      inr (set_nilai
             (filter (fun n => negb (nilai_enroll_id n =? enr_id)) (nilai db))
             (seq_nilai (sequence db)) db, None)
  | DELETE_enroll id =>
      inr (set_enroll (delete_rowid enroll_id id (enroll db))
             (seq_enroll (sequence db)) db, None)
  end.

(** ** Run-time capabilities

    Python's [int] and [float] on a form field ([None] stands for the
    ValueError of a malformed string) and werkzeug's password hashing.
    The salt a digest carries is internal to the capability.  [app_debug]
    is Flask's debug mode: on when index.py is run as a program
    ([app.run(debug=True)]), off when a server imports [app]. *)
Class Runtime := {
  py_int : string -> option Z;
  py_float : string -> option float;
  generate_password_hash : string -> string;
  check_password_hash : string -> string -> bool;
  app_debug : bool }.

(** ** Requests, responses, session *)

Inductive http_method := GET | POST.

Record Request := {
  method : http_method;
  form : list (string * string) }.

Inductive endpoint :=
| ep_index
| ep_login
| ep_manage_mahasiswa
| ep_view_kelas (kls_id : Z)
| ep_dosen_dashboard
| ep_dosen_view_kelas (kls_id : Z).

Inductive page :=
| page_login          (* the login form *)
| page_set_nilai      (* the "Set Nilai" form *).

(** What a request ends in: a redirect, a rendered page together with the
    flashed messages it shows, or the error response Flask builds from an
    exception the view did not catch. *)
Inductive response :=
| Redirect (target : endpoint)
| Rendered (body : page) (messages : list string)
| BadRequest
| InternalServerError (e : exn).

(** The Flask session: the three keys [login] stores. *)
Record Session := {
  user_id : option Z;
  role : option string;
  full_name : option string }.

Definition empty_session : Session :=
  {| user_id := None; role := None; full_name := None |}.

(** ** The world a view runs in

    - [file]: what is committed to mahasiswa.db;
    - [g_database]: the connection of the current request ([g._database])
      as the database it sees, uncommitted changes included;
    - [session], [flashes]: the session cookie and its flashed messages;
    - [faults]: for each coming call of [Connection.execute], whether the
      engine raises ([Some msg]: an OperationalError with that message);
      past the end of the list every call goes through;
    - [journal]: the write statements the engine has run, oldest first. *)
Record world := {
  file : database;
  g_database : option database;
  session : Session;
  flashes : list string;
  faults : list (option string);
  journal : list statement }.

Definition with_file (d : database) (w : world) : world :=
  {| file := d; g_database := g_database w; session := session w;
     flashes := flashes w; faults := faults w; journal := journal w |}.

Definition with_g (c : option database) (w : world) : world :=
  {| file := file w; g_database := c; session := session w;
     flashes := flashes w; faults := faults w; journal := journal w |}.

Definition with_session (s : Session) (w : world) : world :=
  {| file := file w; g_database := g_database w; session := s;
     flashes := flashes w; faults := faults w; journal := journal w |}.

Definition with_flashes (l : list string) (w : world) : world :=
  {| file := file w; g_database := g_database w; session := session w;
     flashes := l; faults := faults w; journal := journal w |}.

Definition with_faults (l : list (option string)) (w : world) : world :=
  {| file := file w; g_database := g_database w; session := session w;
     flashes := flashes w; faults := l; journal := journal w |}.

Definition with_journal (l : list statement) (w : world) : world :=
  {| file := file w; g_database := g_database w; session := session w;
     flashes := flashes w; faults := faults w; journal := l |}.

(** ** The view monad: state, and exceptions that keep the state reached. *)

Definition M (A : Type) : Type := world -> (exn + A) * world.

Definition ret {A} (a : A) : M A := fun w => (inr a, w).

Definition bind {A B} (m : M A) (k : A -> M B) : M B :=
  fun w =>
    match m w with
    | (inl e, w') => (inl e, w')
    | (inr a, w') => k a w'
    end.

Definition raise {A} (e : exn) : M A := fun w => (inl e, w).

(** try: body / except Exception as e: handler e *)
Definition try_except {A} (body : M A) (handler : exn -> M A) : M A :=
  fun w =>
    match body w with
    | (inl e, w') => handler e w'
    | (inr a, w') => (inr a, w')
    end.

Declare Scope view_scope.
Delimit Scope view_scope with view.
Notation "x <- m ;; k" := (bind m (fun x => k))
  (at level 61, m at next level, right associativity) : view_scope.
Notation "m ;; k" := (bind m (fun _ => k))
  (at level 61, right associativity) : view_scope.
Open Scope view_scope.

(** str(e): the message of an sqlite3 error; no other exception reaches
    [str] in the modelled views. *)
Definition str (e : exn) : string :=
  match e with
  | IntegrityError msg | OperationalError msg => msg
  | _ => ""
  end.

(** *** Database helpers *)

(** get_db(): the request's connection, opened on first use. *)
Definition get_db : M database :=
  fun w =>
    match g_database w with
    | Some db => (inr db, w)
    | None => (inr (file w), with_g (Some (file w)) w)
    end.

(** close_connection: closing drops whatever was not committed. *)
Definition close_connection (w : world) : world := with_g None w.

(** The engine's say on the next [execute] call. *)
Definition engine : M unit :=
  fun w =>
    match faults w with
    | Some msg :: rest => (inl (OperationalError msg), with_faults rest w)
    | None :: rest => (inr tt, with_faults rest w)
    | [] => (inr tt, w)
    end.

(** db.execute(query, args) for a write: on success the connection sees the
    new rows; a statement that raises changes nothing.  As for [query_db],
    the arguments are taken to be values sqlite3 can bind. *)
Definition connection_execute (db : database) (s : statement)
  : M (option Z) :=
  engine ;;
  match exec s db with
  | inl e => raise e
  | inr (db', lastrowid) =>
      fun w =>
        (inr lastrowid,
         with_journal (journal w ++ [s]) (with_g (Some db') w))
  end.

(** db.commit(): the file takes what the connection sees. *)
Definition connection_commit : M unit :=
  fun w =>
    match g_database w with
    | Some db => (inr tt, with_file db w)
    | None => (inr tt, w)
    end.

(** query_db(query, args): the rows a SELECT returns, the SELECT being
    given as a function of the database.  The arguments are taken to be
    values sqlite3 can bind: for an integer outside 64 bits it raises
    OverflowError before the statement runs ([sqlite_integer]). *)
Definition query_db {A} (query : database -> list A) : M (list A) :=
  db <- get_db ;;
  engine ;;
  ret (query db).

(** query_db(query, args, one=True): rv[0] if rv else None *)
Definition query_db_one {A} (query : database -> list A) : M (option A) :=
  rv <- query_db query ;;
  ret (hd_error rv).

Definition execute_db (s : statement) : M (option Z) :=
  db <- get_db ;;
  lastrowid <- connection_execute db s ;;
  connection_commit ;;
  ret lastrowid.

(** *** Flask helpers *)

Definition flash (msg : string) : M unit :=
  fun w => (inr tt, with_flashes (flashes w ++ [msg]) w).

Definition redirect (target : endpoint) : M response :=
  ret (Redirect target).

(** render_template_string(base_html, body=...): the base template shows
    the flashed messages, which takes them out of the session. *)
Definition render_template_string (body : page) : M response :=
  fun w => (inr (Rendered body (flashes w)), with_flashes [] w).

(** The value a form carries under key [k], if any. *)
Definition form_field (request : Request) (k : string) : option string :=
  option_map snd (find (fun kv => (fst kv =? k)%string) (form request)).

(** request.form[k] *)
Definition request_form (request : Request) (k : string) : M string :=
  match form_field request k with
  | Some v => ret v
  | None => raise BadRequestKeyError
  end.

(** session['user_id'] *)
Definition session_user_id : M Z :=
  fun w =>
    match user_id (session w) with
    | Some uid => (inr uid, w)
    | None => (inl KeyError, w)
    end.

(** Flask around a view: a fresh [g], the view, the teardown, and an error
    response for an exception nobody caught: 500, but for a missing form
    field 400 - unless the application is in debug mode, where Flask traps
    that error too (TRAP_BAD_REQUEST_ERRORS is unset) and the answer is
    500.  Routing (matching URL and method to the view) is Flask's and is
    left out: a view is what runs once a request reached it. *)
Definition dispatch_request {RT : Runtime} (view : M response) (w : world)
  : response * world :=
  let '(r, w') := view (with_g None w) in
  (match r with
   | inr resp => resp
   | inl BadRequestKeyError =>
       if app_debug then InternalServerError BadRequestKeyError
       else BadRequest
   | inl e => InternalServerError e
   end,
   close_connection w').

(** ** Views *)

(** Python truthiness of the decorator's [role] argument. *)
Definition truthy (r : option string) : bool :=
  match r with
  | Some s => negb (s =? "")%string
  | None => false
  end.

(** a == b on values that are None or a string *)
Definition eq_opt_string (a b : option string) : bool :=
  match a, b with
  | Some x, Some y => (x =? y)%string
  | None, None => true
  | _, _ => false
  end.

(** '%s' % role *)
Definition percent_s (r : option string) : string :=
  match r with
  | Some s => s
  | None => "None"
  end.

Definition login_required (required : option string) (f : M response)
  : M response :=
  fun w =>
    match user_id (session w) with
    | None => redirect ep_login w
    | Some _ =>
        if truthy required && negb (eq_opt_string (role (session w)) required)
        then
          (flash ("Akses ditolak: hak akses diperlukan: "
                    ++ percent_s required)%string ;;
           redirect ep_index) w
        else f w
    end.

(** SELECT * FROM users WHERE username=? *)
Definition users_by_username (username : string) (db : database)
  : list users_row :=
  filter (fun u => (users_username u =? username)%string) (users db).

(** SELECT e.*, k.dosen_id FROM enroll e JOIN kelas k ON e.kelas_id=k.id
    WHERE e.id=? : each matching enrollment with the dosen_id of each
    class it joins. *)
Definition enroll_join_kelas (enr_id : Z) (db : database)
  : list (enroll_row * Z) :=
  flat_map
    (fun e =>
       if enroll_id e =? enr_id
       then map (fun k => (e, kelas_dosen_id k))
              (filter (fun k => enroll_kelas_id e =? kelas_id k) (kelas db))
       else [])
    (enroll db).

(** SELECT * FROM nilai WHERE enroll_id=? *)
Definition nilai_by_enroll (enr_id : Z) (db : database) : list nilai_row :=
  filter (fun n => nilai_enroll_id n =? enr_id) (nilai db).

Definition msg_login_gagal : string :=
  "Login gagal: username atau password salah".

Section Views.
  Context {RT : Runtime}.

(** int(s), float(s) *)
Definition int_ (s : string) : M Z :=
  match py_int s with
  | Some n => ret n
  | None => raise ValueError
  end.

Definition float_ (s : string) : M float :=
  match py_float s with
  | Some x => ret x
  | None => raise ValueError
  end.

Definition login (request : Request) : M response :=
  early <-
    match method request with
    | POST =>
        username <- request_form request "username" ;;
        password <- request_form request "password" ;;
        user <- query_db_one (users_by_username username) ;;
        match user with
        | Some u =>
            if check_password_hash (users_password_hash u) password
            then
              (fun w =>
                 (inr tt,
                  with_session
                    {| user_id := Some (users_id u);
                       role := Some (users_role u);
                       full_name := Some (users_full_name u) |} w)) ;;
              flash "Login berhasil" ;;
              r <- redirect ep_index ;;
              ret (Some r)
            else
              flash msg_login_gagal ;;
              ret None
        | None =>
            flash msg_login_gagal ;;
            ret None
        end
    | GET => ret None
    end ;;
  match early with
  | Some r => ret r
  | None => render_template_string page_login
  end.

(** session.clear() drops the flashed messages with the rest. *)
Definition logout : M response :=
  (fun w => (inr tt, with_flashes [] (with_session empty_session w))) ;;
  flash "Anda telah logout" ;;
  redirect ep_index.

Definition delete_mahasiswa (mhs_id : Z) : M response :=
  login_required (Some "admin")
    (try_except
       (execute_db (DELETE_nilai_of_mahasiswa mhs_id) ;;
        execute_db (DELETE_enroll_of_mahasiswa mhs_id) ;;
        execute_db (DELETE_mahasiswa mhs_id) ;;
        execute_db (DELETE_users mhs_id) ;;
        flash "Mahasiswa dihapus")
       (fun e => flash ("Gagal hapus: " ++ str e)%string) ;;
     redirect ep_manage_mahasiswa).

Definition enroll_mahasiswa (kls_id : Z) (request : Request) : M response :=
  login_required (Some "admin")
    (s <- request_form request "mahasiswa_id" ;;
     mhs_id <- int_ s ;;
     execute_db (INSERT_enroll mhs_id kls_id) ;;
     flash "Mahasiswa di-enroll ke kelas" ;;
     redirect (ep_view_kelas kls_id)).

Definition unenroll (kls_id enr_id : Z) : M response :=
  login_required (Some "admin")
    (execute_db (DELETE_nilai_of_enroll enr_id) ;;
     execute_db (DELETE_enroll enr_id) ;;
     flash "Mahasiswa dikeluarkan dari kelas" ;;
     redirect (ep_view_kelas kls_id)).

Definition dosen_set_nilai (enr_id : Z) (request : Request) : M response :=
  login_required (Some "dosen")
    (e <- query_db_one (enroll_join_kelas enr_id) ;;
     match e with
     | Some (row, dsn_id) =>
         uid <- session_user_id ;;
         if negb (dsn_id =? uid)
         then flash "Akses ditolak" ;; redirect ep_dosen_dashboard
         else
           match method request with
           | POST =>
               s <- request_form request "nilai" ;;
               angka <- float_ s ;;
               existing <- query_db_one (nilai_by_enroll enr_id) ;;
               match existing with
               | Some _ => execute_db (UPDATE_nilai angka enr_id)
               | None => execute_db (INSERT_nilai enr_id angka)
               end ;;
               flash "Nilai tersimpan" ;;
               redirect (ep_dosen_view_kelas (enroll_kelas_id row))
           | GET => render_template_string page_set_nilai
           end
     | None => flash "Akses ditolak" ;; redirect ep_dosen_dashboard
     end).
End Views.

(** ** init_db

    The seeding runs on a cursor of its own connection, with one commit at
    the end.  The file system is the content of mahasiswa.db when the file
    exists. *)

Definition cursor (A : Type) : Type := database -> exn + (A * database).

Definition cursor_bind {A B} (m : cursor A) (k : A -> cursor B) : cursor B :=
  fun db =>
    match m db with
    | inl e => inl e
    | inr (a, db') => k a db'
    end.

(** c.execute(...) for a write; the result is c.lastrowid *)
Definition c_execute (s : statement) : cursor (option Z) :=
  fun db =>
    match exec s db with
    | inl e => inl e
    | inr (db', lastrowid) => inr (lastrowid, db')
    end.

(** c.execute("SELECT id FROM users WHERE username=?", ...).fetchone()[0] *)
Definition c_user_id (username : string) : cursor Z :=
  fun db =>
    match users_by_username username db with
    | u :: _ => inr (users_id u, db)
    | [] => inl TypeError
    end.

(** c.lastrowid after an INSERT *)
Definition the_rowid (lastrowid : option Z) : cursor Z :=
  fun db =>
    match lastrowid with
    | Some id => inr (id, db)
    | None => inl TypeError
    end.

Declare Scope cursor_scope.
Delimit Scope cursor_scope with cursor.
Notation "x <- m ;; k" := (cursor_bind m (fun x => k))
  (at level 61, m at next level, right associativity) : cursor_scope.
Notation "m ;; k" := (cursor_bind m (fun _ => k))
  (at level 61, right associativity) : cursor_scope.

Section Init.
  Context {RT : Runtime}.

Definition seed : cursor unit :=
  (let admin_pw := generate_password_hash "admin123" in
   let dosen_pw := generate_password_hash "dosen123" in
   let mhs_pw := generate_password_hash "mahasiswa123" in
   c_execute (INSERT_users "admin" admin_pw "admin" "Administrator") ;;
   c_execute (INSERT_users "dosen1" dosen_pw "dosen" "Dr. Dosen Satu") ;;
   c_execute (INSERT_users "mahasiswa1" mhs_pw "mahasiswa" "Budi Mahasiswa") ;;
   admin_id <- c_user_id "admin" ;;
   dsn_id <- c_user_id "dosen1" ;;
   mhs_id <- c_user_id "mahasiswa1" ;;
   c_execute (INSERT_dosen dsn_id "NIDN12345") ;;
   c_execute (INSERT_mahasiswa mhs_id "20231001" "Jl. Merdeka 1"
                "081234567890") ;;
   r <- c_execute (INSERT_mata_kuliah "JARKOM101" "Jaringan Komputer" 3) ;;
   mk_id <- the_rowid r ;;
   r <- c_execute (INSERT_kelas "Jarkom - Pagi" mk_id dsn_id) ;;
   kls_id <- the_rowid r ;;
   c_execute (INSERT_jadwal kls_id "Senin" "08:00-10:00") ;;
   r <- c_execute (INSERT_enroll mhs_id kls_id) ;;
   enr_id <- the_rowid r ;;
   c_execute (INSERT_nilai enr_id 85%float) ;;
   (fun db => inr (tt, db)))%cursor.

(** [init_db fs]: nothing when the file is there; otherwise the tables
    are created and seeded, and the commit writes the file. *)
Definition init_db (fs : option database) : exn + option database :=
  match fs with
  | Some _ => inr fs
  | None =>
      match seed empty_database with
      | inl e => inl e
      | inr (_, db) => inr (Some db)
      end
  end.
End Init.

(** ** A run-time instance to execute the model with

    Decimal digits for [int]; for [float] the integers that [int] reads;
    a digest that is the plaintext behind a fixed prefix; debug mode on,
    as index.py starts the application.  It reads a string of decimal
    digits below 2^53 as Python does, and is used to run the model on such
    strings only. *)

Definition digit_of (c : Ascii.ascii) : option Z :=
  let n := Z.of_nat (Ascii.nat_of_ascii c) in
  if (48 <=? n) && (n <=? 57) then Some (n - 48) else None.

Fixpoint digits (acc : Z) (s : string) : option Z :=
  match s with
  | EmptyString => Some acc
  | String c rest =>
      match digit_of c with
      | Some d => digits (10 * acc + d) rest
      | None => None
      end
  end.

Definition decimal (s : string) : option Z :=
  match s with
  | EmptyString => None
  | _ => digits 0 s
  end.

Definition float_of_Z (n : Z) : float :=
  PrimFloat.of_uint63 (Uint63.of_Z n).

#[export] Instance simple_runtime : Runtime := {|
  py_int := decimal;
  py_float := fun s => option_map float_of_Z (decimal s);
  generate_password_hash := fun p => ("plain$" ++ p)%string;
  check_password_hash := fun h p => (h =? "plain$" ++ p)%string;
  app_debug := true |}.

(** ** Vocabulary of the properties *)

(** An integer SQLite stores, and sqlite3 binds: 64 bits, signed. *)
Definition sqlite_integer (n : Z) : Prop := - 2 ^ 63 <= n < 2 ^ 63.

(** A float SQLite stores as it is bound: not a NaN, which it stores as
    NULL, and not the negative zero, which it stores as 0.0. *)
Definition sqlite_real (x : float) : Prop :=
  match PrimFloat.classify x with
  | FloatClass.NaN | FloatClass.NZero => False
  | _ => True
  end.

(** Running a view for each request of a list, one after the other. *)
Definition run_requests {RT : Runtime} (view : Request -> M response)
  (requests : list Request) (w : world) : world :=
  fold_left (fun w r => snd (dispatch_request (view r) w)) requests w.

(** The effect on the database of statements that all go through. *)
Definition run_statements (l : list statement) (db : database) : database :=
  fold_left
    (fun db s => match exec s db with inr (db', _) => db' | inl _ => db end)
    l db.

(** Primary keys: no two rows of a table share their id. *)
Definition primary_keys (db : database) : Prop :=
  NoDup (map users_id (users db))
  /\ NoDup (map mahasiswa_id (mahasiswa db))
  /\ NoDup (map dosen_id (dosen db))
  /\ NoDup (map mata_kuliah_id (mata_kuliah db))
  /\ NoDup (map kelas_id (kelas db))
  /\ NoDup (map jadwal_id (jadwal db))
  /\ NoDup (map enroll_id (enroll db))
  /\ NoDup (map nilai_id (nilai db)).

(** Enrollment [enr_id] exists and the class it is in is taught by [uid]. *)
Definition owns (db : database) (uid enr_id : Z) : Prop :=
  exists e k,
    In e (enroll db) /\ enroll_id e = enr_id
    /\ In k (kelas db) /\ kelas_id k = enroll_kelas_id e
    /\ kelas_dosen_id k = uid.

(** A signed-in session of the given role. *)
Definition signed_in (r : string) (s : Session) : Prop :=
  user_id s <> None /\ role s = Some r.

(** The grade a set-grade request submits: a POST whose nilai field reads
    as a number. *)
Definition submitted_grade {RT : Runtime} (request : Request)
  : option float :=
  match method request with
  | POST =>
      match form_field request "nilai" with
      | Some s => py_float s
      | None => None
      end
  | GET => None
  end.

(** A POST whose nilai field is there and does not read as a number. *)
Definition malformed_grade {RT : Runtime} (request : Request) : Prop :=
  method request = POST
  /\ exists s, form_field request "nilai" = Some s /\ py_float s = None.

(** The grade row [n] hangs off an enrollment of student [mhs_id]. *)
Definition grade_of_mahasiswa (db : database) (mhs_id : Z) (n : nilai_row)
  : bool :=
  existsb
    (fun e => (enroll_id e =? nilai_enroll_id n)
              && (enroll_mahasiswa_id e =? mhs_id))
    (enroll db).

(** At most one grade row per enrollment. *)
Definition one_grade_per_enroll (db : database) : Prop :=
  forall enr_id, (List.length (nilai_by_enroll enr_id db) <= 1)%nat.

(** The statement a grade write sends for enrollment [enr_id]: an UPDATE
    when the enrollment has a grade row, an INSERT when it has none. *)
Definition upsert_nilai (db : database) (enr_id : Z) (angka : float)
  : statement :=
  match nilai_by_enroll enr_id db with
  | _ :: _ => UPDATE_nilai angka enr_id
  | [] => INSERT_nilai enr_id angka
  end.

(** The two cascades, as the statements they send. *)
Definition cascade_delete_mahasiswa (mhs_id : Z) : list statement :=
  [ DELETE_nilai_of_mahasiswa mhs_id;
    DELETE_enroll_of_mahasiswa mhs_id;
    DELETE_mahasiswa mhs_id;
    DELETE_users mhs_id ].

Definition cascade_unenroll (enr_id : Z) : list statement :=
  [ DELETE_nilai_of_enroll enr_id; DELETE_enroll enr_id ].

(** A cascade seen as one transaction: afterwards the file holds either
    what it held before or the result of the whole cascade. *)
Definition all_or_nothing (cascade : list statement)
  (before after : database) : Prop :=
  after = before \/ after = run_statements cascade before.

(** [k] calls that go through, then one that raises with [msg]. *)
Definition fails_at (k : nat) (msg : string) (rest : list (option string))
  : list (option string) :=
  repeat None k ++ Some msg :: rest.

(** Accounts as username and password pairs, in rowid order. *)
Definition has_accounts {RT : Runtime} (accounts : list (string * string))
  (db : database) : Prop :=
  map users_username (users db) = map fst accounts
  /\ map users_password_hash (users db)
     = map (fun a => generate_password_hash (snd a)) accounts.

(** ** Concrete worlds, to run the model on *)

(** The file [init_db] writes, with the run-time instance above. *)
Definition seeded_database : database :=
  Eval vm_compute in
    match init_db None with
    | inr (Some db) => db
    | _ => empty_database
    end.

Definition session_admin : Session :=
  {| user_id := Some 1; role := Some "admin";
     full_name := Some "Administrator" |}.

Definition session_dosen1 : Session :=
  {| user_id := Some 2; role := Some "dosen";
     full_name := Some "Dr. Dosen Satu" |}.

Definition seeded_world (s : Session) (fs : list (option string)) : world :=
  {| file := seeded_database; g_database := None; session := s;
     flashes := []; faults := fs; journal := [] |}.

Definition post_form (fields : list (string * string)) : Request :=
  {| method := POST; form := fields |}.

Definition world_admin : world := seeded_world session_admin [].
Definition world_dosen1 : world := seeded_world session_dosen1 [].
Definition world_anonymous : world := seeded_world empty_session [].

(** The engine runs the first statement of the request and raises at the
    second. *)
Definition world_admin_locked : world :=
  seeded_world session_admin [None; Some "database is locked"].

(** Requests run on the seeded database. *)
Definition after_delete_mahasiswa_3 : response * world :=
  dispatch_request (delete_mahasiswa 3) world_admin.

Definition after_interrupted_delete_3 : response * world :=
  dispatch_request (delete_mahasiswa 3) world_admin_locked.

Definition after_interrupted_unenroll_1 : response * world :=
  dispatch_request (unenroll 1 1) world_admin_locked.

Definition after_unenroll_1 : response * world :=
  dispatch_request (unenroll 1 1) world_admin.

Definition after_grade_abc : response * world :=
  dispatch_request (dosen_set_nilai 1 (post_form [("nilai", "abc")]))
    world_dosen1.


(** ** The rest of the site

    The other views of index.py.  They answer with redirects and pages
    the views above do not use, so their responses are the ones above
    ([Plain]) or one of the new kinds.  A page is the data its template
    interpolates. *)

Inductive site_endpoint :=
| ep_admin_dashboard
| ep_mhs_dashboard
| ep_manage_dosen
| ep_manage_mata_kuliah
| ep_manage_kelas
| ep_manage_jadwal.

(** r['nilai_angka'] or '-' *)
Inductive nilai_cell :=
| dash
| shown (x : float).

(** One row of "Daftar Mahasiswa". *)
Record mahasiswa_listing := {
  ml_id : Z;
  ml_username : string;
  ml_full_name : string;
  ml_nim : string;
  ml_alamat : string;
  ml_phone : string }.

(** One row of a lecturer's class page: id of the enrollment, username,
    name and grade cell. *)
Record peserta_row := {
  ps_enroll_id : Z;
  ps_username : string;
  ps_full_name : string;
  ps_nilai : nilai_cell }.

(** One row of "Jadwal & Nilai" on a student's dashboard. *)
Record jadwal_nilai_row := {
  jn_mk_nama : string;
  jn_kelas_nama : string;
  jn_hari : string;
  jn_jam : string;
  jn_nilai : nilai_cell }.

Inductive site_page :=
| page_welcome
| page_add_mahasiswa
| page_add_dosen
| page_add_mata_kuliah
| page_admin_dashboard (total_mhs total_dosen total_mk : Z)
| page_manage_mahasiswa (rows : list mahasiswa_listing)
| page_view_kelas (nama mk_nama dosen_name : string)
    (enrolled : list (Z * string * string))
    (mhs_opts : list (Z * string * string))
| page_dosen_dashboard (kelas : list (kelas_row * string))
| page_dosen_view_kelas (nama mk_nama : string) (rows : list peserta_row)
| page_mhs_dashboard (full_name nim alamat phone : string)
    (rows : list jadwal_nilai_row)
| page_manage_dosen (rows : list (Z * string * string * string))
| page_manage_mata_kuliah
    (rows : list (Z * string * string * Z * string * string))
| page_manage_kelas (rows : list (Z * string * string * string))
    (options_dosen : list (Z * string)) (options_mk : list (Z * string))
| page_manage_jadwal (kelas_opts : list (Z * string))
    (rows : list (Z * string * string * string)).

Inductive site_response :=
| Plain (r : response)
| RedirectTo (target : site_endpoint)
| Page (body : site_page) (messages : list string).

(** Python's [x or '-'] on a REAL column: None and 0.0 are falsy. *)
Definition nilai_or_dash (v : option float) : nilai_cell :=
  match v with
  | Some x => if PrimFloat.eqb x 0 then dash else shown x
  | None => dash
  end.

(** Python's [x or '-'] on a TEXT column: None and '' are falsy. *)
Definition text_or_dash (v : option string) : string :=
  match v with
  | Some s => if (s =? "")%string then "-" else s
  | None => "-"
  end.

(** *** Queries

    A join is written as the nested loop over its tables, left to right,
    each in rowid order.  Without ORDER BY SQLite may return the rows in
    another order; the properties below speak of which rows there are, not
    of their order. *)

(** The rows a LEFT JOIN pairs with one left row: its matches, or one row
    of NULLs when it has none. *)
Definition left_join {A} (matches : list A) : list (option A) :=
  match matches with
  | [] => [None]
  | _ => map Some matches
  end.

(** ... FROM users u JOIN mahasiswa m ON u.id=m.id *)
Definition users_join_mahasiswa (db : database)
  : list (users_row * mahasiswa_row) :=
  flat_map
    (fun u =>
       map (fun m => (u, m))
         (filter (fun m => users_id u =? mahasiswa_id m) (mahasiswa db)))
    (users db).

(** SELECT u.id, u.username, u.full_name, m.nim, m.alamat, m.phone
    FROM users u JOIN mahasiswa m ON u.id=m.id *)
Definition mahasiswa_listings (db : database) : list mahasiswa_listing :=
  map (fun um =>
         {| ml_id := users_id (fst um);
            ml_username := users_username (fst um);
            ml_full_name := users_full_name (fst um);
            ml_nim := mahasiswa_nim (snd um);
            ml_alamat := mahasiswa_alamat (snd um);
            ml_phone := mahasiswa_phone (snd um) |})
    (users_join_mahasiswa db).

(** SELECT u.*, m.nim, m.alamat, m.phone
    FROM users u JOIN mahasiswa m ON u.id=m.id WHERE u.id=? *)
Definition mahasiswa_by_id (uid : Z) (db : database)
  : list (users_row * mahasiswa_row) :=
  filter (fun um => users_id (fst um) =? uid) (users_join_mahasiswa db).

(** k.*, mk.nama as mk_nama
    FROM kelas k JOIN mata_kuliah mk ON k.mata_kuliah_id=mk.id : the rows
    for one class. *)
Definition kelas_with_mk (db : database) (k : kelas_row)
  : list (kelas_row * string) :=
  map (fun mk => (k, mata_kuliah_nama mk))
    (filter (fun mk => kelas_mata_kuliah_id k =? mata_kuliah_id mk)
       (mata_kuliah db)).

(** SELECT k.*, mk.nama as mk_nama FROM kelas k JOIN mata_kuliah mk
    ON k.mata_kuliah_id=mk.id WHERE k.dosen_id=? *)
Definition kelas_of_dosen (uid : Z) (db : database)
  : list (kelas_row * string) :=
  flat_map (kelas_with_mk db)
    (filter (fun k => kelas_dosen_id k =? uid) (kelas db)).

(** ... WHERE k.id=? AND k.dosen_id=? *)
Definition kelas_of_dosen_by_id (kls_id uid : Z) (db : database)
  : list (kelas_row * string) :=
  flat_map (kelas_with_mk db)
    (filter (fun k => (kelas_id k =? kls_id) && (kelas_dosen_id k =? uid))
       (kelas db)).

(** The account behind an enrollment:
    enroll e JOIN mahasiswa m ON e.mahasiswa_id=m.id
             JOIN users u ON m.id=u.id *)
Definition users_of_enroll (db : database) (e : enroll_row) : list users_row :=
  flat_map
    (fun m => filter (fun u => mahasiswa_id m =? users_id u) (users db))
    (filter (fun m => enroll_mahasiswa_id e =? mahasiswa_id m) (mahasiswa db)).

(** SELECT e.id, u.full_name, u.username, n.nilai_angka
    FROM enroll e JOIN mahasiswa m ON e.mahasiswa_id=m.id
    JOIN users u ON m.id=u.id LEFT JOIN nilai n ON n.enroll_id=e.id
    WHERE e.kelas_id=? *)
Definition peserta_with_nilai (kls_id : Z) (db : database)
  : list (Z * string * string * option float) :=
  flat_map
    (fun e =>
       flat_map
         (fun u =>
            map (fun n =>
                   (enroll_id e, users_full_name u, users_username u,
                    option_map nilai_angka n))
              (left_join (nilai_by_enroll (enroll_id e) db)))
         (users_of_enroll db e))
    (filter (fun e => enroll_kelas_id e =? kls_id) (enroll db)).

(** SELECT e.id, u.full_name, u.username FROM enroll e
    JOIN mahasiswa m ON e.mahasiswa_id=m.id JOIN users u ON m.id=u.id
    WHERE e.kelas_id=? *)
Definition peserta (kls_id : Z) (db : database)
  : list (Z * string * string) :=
  flat_map
    (fun e =>
       map (fun u => (enroll_id e, users_full_name u, users_username u))
         (users_of_enroll db e))
    (filter (fun e => enroll_kelas_id e =? kls_id) (enroll db)).

(** u.full_name as dosen_name ... LEFT JOIN dosen d ON k.dosen_id=d.id
    LEFT JOIN users u ON d.id=u.id : the names for one class. *)
Definition dosen_names (db : database) (k : kelas_row) : list (option string) :=
  flat_map
    (fun d =>
       match d with
       | Some d =>
           map (option_map users_full_name)
             (left_join (filter (fun u => dosen_id d =? users_id u) (users db)))
       | None => [None]
       end)
    (left_join (filter (fun d => kelas_dosen_id k =? dosen_id d) (dosen db))).

(** SELECT k.*, mk.nama as mk_nama, u.full_name as dosen_name FROM kelas k
    JOIN mata_kuliah mk ON k.mata_kuliah_id=mk.id
    LEFT JOIN dosen d ON k.dosen_id=d.id LEFT JOIN users u ON d.id=u.id
    WHERE k.id=? *)
Definition kelas_detail (kls_id : Z) (db : database)
  : list (kelas_row * string * option string) :=
  flat_map
    (fun k =>
       flat_map
         (fun kmk => map (fun name => (fst kmk, snd kmk, name)) (dosen_names db k))
         (kelas_with_mk db k))
    (filter (fun k => kelas_id k =? kls_id) (kelas db)).

(** The rows of a student's dashboard that stem from one enrollment:
    enroll e JOIN kelas k ON e.kelas_id=k.id
    JOIN mata_kuliah mk ON k.mata_kuliah_id=mk.id
    LEFT JOIN nilai n ON n.enroll_id=e.id
    LEFT JOIN jadwal j ON j.kelas_id=k.id,
    selecting k.nama, mk.nama, n.nilai_angka, j.hari, j.jam (here already
    as the cells of the table). *)
Definition jadwal_nilai_of (db : database) (e : enroll_row)
  : list jadwal_nilai_row :=
  flat_map
    (fun k =>
       flat_map
         (fun kmk =>
            flat_map
              (fun n =>
                 map (fun j =>
                        {| jn_mk_nama := snd kmk;
                           jn_kelas_nama := kelas_nama k;
                           jn_hari := text_or_dash (option_map jadwal_hari j);
                           jn_jam := text_or_dash (option_map jadwal_jam j);
                           jn_nilai := nilai_or_dash (option_map nilai_angka n) |})
                   (left_join
                      (filter (fun j => jadwal_kelas_id j =? kelas_id k)
                         (jadwal db))))
              (left_join (nilai_by_enroll (enroll_id e) db)))
         (kelas_with_mk db k))
    (filter (fun k => enroll_kelas_id e =? kelas_id k) (kelas db)).

(** ... WHERE e.mahasiswa_id=? *)
Definition jadwal_nilai (uid : Z) (db : database) : list jadwal_nilai_row :=
  flat_map (jadwal_nilai_of db)
    (filter (fun e => enroll_mahasiswa_id e =? uid) (enroll db)).

(** SELECT u.id, u.username, u.full_name, d.nidn
    FROM users u JOIN dosen d ON u.id=d.id *)
Definition dosen_listings (db : database)
  : list (Z * string * string * string) :=
  flat_map
    (fun u =>
       map (fun d =>
              (users_id u, users_username u, users_full_name u, dosen_nidn d))
         (filter (fun d => users_id u =? dosen_id d) (dosen db)))
    (users db).

(** SELECT mk.*, k.nama as kelas_nama, u.full_name as dosen_name
    FROM mata_kuliah mk LEFT JOIN kelas k ON mk.id=k.mata_kuliah_id
    LEFT JOIN dosen d ON k.dosen_id=d.id LEFT JOIN users u ON d.id=u.id *)
Definition mata_kuliah_listings (db : database)
  : list (mata_kuliah_row * option string * option string) :=
  flat_map
    (fun mk =>
       flat_map
         (fun k =>
            match k with
            | Some k =>
                map (fun name => (mk, Some (kelas_nama k), name))
                  (dosen_names db k)
            | None => [(mk, None, None)]
            end)
         (left_join
            (filter (fun k => mata_kuliah_id mk =? kelas_mata_kuliah_id k)
               (kelas db))))
    (mata_kuliah db).

(** SELECT k.*, mk.nama as mk_nama, u.full_name as dosen_name FROM kelas k
    JOIN mata_kuliah mk ON k.mata_kuliah_id=mk.id
    LEFT JOIN dosen d ON k.dosen_id=d.id LEFT JOIN users u ON d.id=u.id *)
Definition kelas_listings (db : database)
  : list (kelas_row * string * option string) :=
  flat_map
    (fun k =>
       flat_map
         (fun kmk => map (fun name => (fst kmk, snd kmk, name)) (dosen_names db k))
         (kelas_with_mk db k))
    (kelas db).

(** SELECT u.id, u.full_name FROM users u JOIN dosen d ON u.id=d.id *)
Definition dosen_options (db : database) : list (Z * string) :=
  flat_map
    (fun u =>
       map (fun d => (users_id u, users_full_name u))
         (filter (fun d => users_id u =? dosen_id d) (dosen db)))
    (users db).

(** SELECT j.*, k.nama as kelas_nama FROM jadwal j
    JOIN kelas k ON j.kelas_id=k.id *)
Definition jadwal_listings (db : database) : list (jadwal_row * string) :=
  flat_map
    (fun j =>
       map (fun k => (j, kelas_nama k))
         (filter (fun k => jadwal_kelas_id j =? kelas_id k) (kelas db)))
    (jadwal db).

(** SELECT id, nama FROM kelas *)
Definition kelas_options (db : database) : list (Z * string) :=
  map (fun k => (kelas_id k, kelas_nama k)) (kelas db).

(** *** Helpers on the new responses *)

Definition map_M {A B} (f : A -> B) (m : M A) : M B :=
  a <- m ;; ret (f a).

Definition redirect_to (target : site_endpoint) : M site_response :=
  ret (RedirectTo target).

(** render_template_string for the pages of this part. *)
Definition render_site (body : site_page) : M site_response :=
  fun w => (inr (Page body (flashes w)), with_flashes [] w).

(** The decorator [login_required] around a view whose responses are of
    type [R]; its own two redirects are responses of the first kind. *)
Definition login_required_as {R} (plain : response -> R)
  (required : option string) (f : M R) : M R :=
  fun w =>
    match user_id (session w) with
    | None => map_M plain (redirect ep_login) w
    | Some _ =>
        if truthy required && negb (eq_opt_string (role (session w)) required)
        then
          (flash ("Akses ditolak: hak akses diperlukan: "
                    ++ percent_s required)%string ;;
           map_M plain (redirect ep_index)) w
        else f w
    end.

(** Flask around a view, as [dispatch_request], for responses of type
    [R]. *)
Definition dispatch_request_as {RT : Runtime} {R} (plain : response -> R)
  (view : M R) (w : world) : R * world :=
  let '(r, w') := view (with_g None w) in
  (match r with
   | inr resp => resp
   | inl BadRequestKeyError =>
       if app_debug then plain (InternalServerError BadRequestKeyError)
       else plain BadRequest
   | inl e => plain (InternalServerError e)
   end,
   close_connection w').

(** int(request.form.get(k) or 0) *)
Definition int_or_0 {RT : Runtime} (v : option string) : M Z :=
  match v with
  | Some s => if (s =? "")%string then ret 0 else int_ s
  | None => ret 0
  end.

(** SELECT id, nim, full_name FROM mahasiswa m JOIN users u ON m.id=u.id :
    [id] is a column of both tables, and SQLite refuses the statement. *)
Definition query_mhs_opts : M (list (Z * string * string)) :=
  get_db ;;
  engine ;;
  raise (OperationalError "ambiguous column name: id").

(** SELECT COUNT( * ) as c FROM <table> : always one row *)
Definition count_rows {A} (table : database -> list A) (db : database)
  : list Z :=
  [Z.of_nat (List.length (table db))].

(** query_db('SELECT COUNT( * ) as c FROM ...', one=True)['c'] *)
Definition query_count {A} (table : database -> list A) : M Z :=
  c <- query_db_one (count_rows table) ;;
  match c with
  | Some n => ret n
  | None => raise TypeError
  end.

(** *** Views *)

Definition index : M site_response :=
  fun w =>
    match user_id (session w) with
    | Some _ =>
        if eq_opt_string (role (session w)) (Some "admin")
        then redirect_to ep_admin_dashboard w
        else if eq_opt_string (role (session w)) (Some "dosen")
        then map_M Plain (redirect ep_dosen_dashboard) w
        else redirect_to ep_mhs_dashboard w
    | None => render_site page_welcome w
    end.

Definition admin_dashboard : M site_response :=
  login_required_as Plain (Some "admin")
    (total_mhs <- query_count mahasiswa ;;
     total_dosen <- query_count dosen ;;
     total_mk <- query_count mata_kuliah ;;
     render_site (page_admin_dashboard total_mhs total_dosen total_mk)).

Definition manage_mahasiswa : M site_response :=
  login_required_as Plain (Some "admin")
    (mhs <- query_db mahasiswa_listings ;;
     render_site (page_manage_mahasiswa mhs)).

Definition manage_dosen : M site_response :=
  login_required_as Plain (Some "admin")
    (dsn <- query_db dosen_listings ;;
     render_site (page_manage_dosen dsn)).

Definition manage_mata_kuliah : M site_response :=
  login_required_as Plain (Some "admin")
    (mks <- query_db mata_kuliah_listings ;;
     render_site
       (page_manage_mata_kuliah
          (map (fun r =>
                  (mata_kuliah_id (fst (fst r)), mata_kuliah_kode (fst (fst r)),
                   mata_kuliah_nama (fst (fst r)), mata_kuliah_sks (fst (fst r)),
                   text_or_dash (snd (fst r)), text_or_dash (snd r)))
             mks))).

Definition manage_kelas : M site_response :=
  login_required_as Plain (Some "admin")
    (kelas <- query_db kelas_listings ;;
     dosen <- query_db dosen_options ;;
     mk <- query_db mata_kuliah ;;
     render_site
       (page_manage_kelas
          (map (fun r =>
                  (kelas_id (fst (fst r)), kelas_nama (fst (fst r)),
                   snd (fst r), text_or_dash (snd r)))
             kelas)
          dosen
          (map (fun m => (mata_kuliah_id m, mata_kuliah_nama m)) mk))).

Definition view_kelas (kls_id : Z) : M site_response :=
  login_required_as Plain (Some "admin")
    (k <- query_db_one (kelas_detail kls_id) ;;
     enrolled <- query_db (peserta kls_id) ;;
     mhs_opts <- query_mhs_opts ;;
     match k with
     | Some (k, mk_nama, dosen_name) =>
         render_site
           (page_view_kelas (kelas_nama k) mk_nama (text_or_dash dosen_name)
              (map (fun r => (fst (fst r), snd r, snd (fst r))) enrolled)
              mhs_opts)
     | None => raise TypeError    (* k['nama'] on None *)
     end).

Definition dosen_dashboard : M site_response :=
  login_required_as Plain (Some "dosen")
    (uid <- session_user_id ;;
     kelas <- query_db (kelas_of_dosen uid) ;;
     render_site (page_dosen_dashboard kelas)).

Definition dosen_view_kelas (kls_id : Z) : M site_response :=
  login_required_as Plain (Some "dosen")
    (uid <- session_user_id ;;
     k <- query_db_one (kelas_of_dosen_by_id kls_id uid) ;;
     match k with
     | None =>
         flash "Kelas tidak ditemukan atau Anda bukan pengampu" ;;
         map_M Plain (redirect ep_dosen_dashboard)
     | Some (k, mk_nama) =>
         enrolled <- query_db (peserta_with_nilai kls_id) ;;
         render_site
           (page_dosen_view_kelas (kelas_nama k) mk_nama
              (map (fun r =>
                      {| ps_enroll_id := fst (fst (fst r));
                         ps_username := snd (fst r);
                         ps_full_name := snd (fst (fst r));
                         ps_nilai := nilai_or_dash (snd r) |})
                 enrolled))
     end).

Definition mhs_dashboard : M site_response :=
  login_required_as Plain (Some "mahasiswa")
    (uid <- session_user_id ;;
     user <- query_db_one (mahasiswa_by_id uid) ;;
     kelas <- query_db (jadwal_nilai uid) ;;
     match user with
     | Some (u, m) =>
         render_site
           (page_mhs_dashboard (users_full_name u) (mahasiswa_nim m)
              (mahasiswa_alamat m) (mahasiswa_phone m) kelas)
     | None => raise TypeError    (* user['full_name'] on None *)
     end).

Section SiteViews.
  Context {RT : Runtime}.

Definition add_mahasiswa (request : Request) : M site_response :=
  login_required_as Plain (Some "admin")
    (early <-
       match method request with
       | POST =>
           username <- request_form request "username" ;;
           full_name <- request_form request "full_name" ;;
           password <- request_form request "password" ;;
           nim <- request_form request "nim" ;;
           alamat <- request_form request "alamat" ;;
           phone <- request_form request "phone" ;;
           let pw_hash := generate_password_hash password in
           try_except
             (uid <- execute_db
                       (INSERT_users username pw_hash "mahasiswa" full_name) ;;
              match uid with
              | Some uid => execute_db (INSERT_mahasiswa uid nim alamat phone)
              | None => raise TypeError    (* an INSERT sets lastrowid *)
              end ;;
              flash "Mahasiswa ditambahkan" ;;
              r <- map_M Plain (redirect ep_manage_mahasiswa) ;;
              ret (Some r))
             (fun e =>
                flash ("Gagal menambah: " ++ str e)%string ;;
                ret None)
       | GET => ret None
       end ;;
     match early with
     | Some r => ret r
     | None => render_site page_add_mahasiswa
     end).

Definition add_dosen (request : Request) : M site_response :=
  login_required_as Plain (Some "admin")
    (early <-
       match method request with
       | POST =>
           username <- request_form request "username" ;;
           full_name <- request_form request "full_name" ;;
           password <- request_form request "password" ;;
           nidn <- request_form request "nidn" ;;
           let pw_hash := generate_password_hash password in
           try_except
             (uid <- execute_db
                       (INSERT_users username pw_hash "dosen" full_name) ;;
              match uid with
              | Some uid => execute_db (INSERT_dosen uid nidn)
              | None => raise TypeError    (* an INSERT sets lastrowid *)
              end ;;
              flash "Dosen ditambahkan" ;;
              r <- redirect_to ep_manage_dosen ;;
              ret (Some r))
             (fun e =>
                flash ("Gagal tambah dosen: " ++ str e)%string ;;
                ret None)
       | GET => ret None
       end ;;
     match early with
     | Some r => ret r
     | None => render_site page_add_dosen
     end).

Definition add_mata_kuliah (request : Request) : M site_response :=
  login_required_as Plain (Some "admin")
    (match method request with
     | POST =>
         kode <- request_form request "kode" ;;
         nama <- request_form request "nama" ;;
         sks <- int_or_0 (form_field request "sks") ;;
         execute_db (INSERT_mata_kuliah kode nama sks) ;;
         flash "Mata kuliah ditambahkan" ;;
         redirect_to ep_manage_mata_kuliah
     | GET => render_site page_add_mata_kuliah
     end).

Definition add_kelas (request : Request) : M site_response :=
  login_required_as Plain (Some "admin")
    (nama <- request_form request "nama" ;;
     s <- request_form request "mata_kuliah_id" ;;
     mk_id <- int_ s ;;
     s <- request_form request "dosen_id" ;;
     dsn_id <- int_ s ;;
     execute_db (INSERT_kelas nama mk_id dsn_id) ;;
     flash "Kelas dibuat" ;;
     redirect_to ep_manage_kelas).

Definition manage_jadwal (request : Request) : M site_response :=
  login_required_as Plain (Some "admin")
    (match method request with
     | POST =>
         s <- request_form request "kelas_id" ;;
         kls_id <- int_ s ;;
         hari <- request_form request "hari" ;;
         jam <- request_form request "jam" ;;
         execute_db (INSERT_jadwal kls_id hari jam) ;;
         flash "Jadwal ditambahkan" ;;
         redirect_to ep_manage_jadwal
     | GET =>
         jadwals <- query_db jadwal_listings ;;
         kelas_opts <- query_db kelas_options ;;
         render_site
           (page_manage_jadwal kelas_opts
              (map (fun r =>
                      (jadwal_id (fst r), snd r, jadwal_hari (fst r),
                       jadwal_jam (fst r)))
                 jadwals))
     end).

(** The views modelled, named as a request names them.  A rule that takes
    GET only carries no request, a rule that takes POST only carries the
    fields of the form, a rule that takes both carries the request. *)
Inductive route :=
| to_index
| to_login (request : Request)
| to_logout
| to_admin_dashboard
| to_manage_mahasiswa
| to_add_mahasiswa (request : Request)
| to_delete_mahasiswa (mhs_id : Z)
| to_add_dosen (request : Request)
| to_add_mata_kuliah (request : Request)
| to_add_kelas (fields : list (string * string))
| to_view_kelas (kls_id : Z)
| to_enroll_mahasiswa (kls_id : Z) (fields : list (string * string))
| to_unenroll (kls_id enr_id : Z)
| to_dosen_dashboard
| to_dosen_view_kelas (kls_id : Z)
| to_dosen_set_nilai (enr_id : Z) (request : Request)
| to_mhs_dashboard
| to_manage_dosen
| to_manage_mata_kuliah
| to_manage_kelas
| to_manage_jadwal (request : Request).

Definition view_function (r : route) : M site_response :=
  match r with
  | to_index => index
  | to_login request => map_M Plain (login request)
  | to_logout => map_M Plain logout
  | to_admin_dashboard => admin_dashboard
  | to_manage_mahasiswa => manage_mahasiswa
  | to_add_mahasiswa request => add_mahasiswa request
  | to_delete_mahasiswa mhs_id => map_M Plain (delete_mahasiswa mhs_id)
  | to_add_dosen request => add_dosen request
  | to_add_mata_kuliah request => add_mata_kuliah request
  | to_add_kelas fields => add_kelas (post_form fields)
  | to_view_kelas kls_id => view_kelas kls_id
  | to_enroll_mahasiswa kls_id fields =>
      map_M Plain (enroll_mahasiswa kls_id (post_form fields))
  | to_unenroll kls_id enr_id => map_M Plain (unenroll kls_id enr_id)
  | to_dosen_dashboard => dosen_dashboard
  | to_dosen_view_kelas kls_id => dosen_view_kelas kls_id
  | to_dosen_set_nilai enr_id request =>
      map_M Plain (dosen_set_nilai enr_id request)
  | to_mhs_dashboard => mhs_dashboard
  | to_manage_dosen => manage_dosen
  | to_manage_mata_kuliah => manage_mata_kuliah
  | to_manage_kelas => manage_kelas
  | to_manage_jadwal request => manage_jadwal request
  end.

(** One request, start to end. *)
Definition serve (r : route) (w : world) : site_response * world :=
  dispatch_request_as Plain (view_function r) w.
End SiteViews.

(** *** Vocabulary of the properties of this part *)

(** The connection, when open, sees what the file holds: nothing is
    pending. *)
Definition synced (w : world) : Prop :=
  g_database w = None \/ g_database w = Some (file w).

(** [m] keeps [I], a property of the file and of the journal, whatever
    the engine does. *)
Definition keeps {A} (I : database -> list statement -> Prop) (m : M A)
  : Prop :=
  forall w,
    synced w -> I (file w) (journal w) ->
    synced (snd (m w)) /\ I (file (snd (m w))) (journal (snd (m w))).

(** Every table but nilai. *)
Definition same_but_nilai (db db' : database) : Prop :=
  users db' = users db
  /\ mahasiswa db' = mahasiswa db
  /\ dosen db' = dosen db
  /\ mata_kuliah db' = mata_kuliah db
  /\ kelas db' = kelas db
  /\ jadwal db' = jadwal db
  /\ enroll db' = enroll db.

(** A grade that is a number (equal to itself: not a NaN). *)
Definition is_number (x : float) : Prop := PrimFloat.eqb x x = true.

(** Statement [s] takes a database with [I] to a database with [I]. *)
Definition preserved (I : database -> list statement -> Prop) (s : statement)
  : Prop :=
  forall db j db' lastrowid,
    I db j -> exec s db = inr (db', lastrowid) -> I db' (j ++ [s]).

(** [m] raises nothing but the KeyError of a missing form field, and then
    [P] holds; what it returns has [Q]. *)
Definition mild {A} (P : Prop) (Q : A -> Prop) (m : M A) : Prop :=
  forall w,
    match fst (m w) with
    | inl e => e = BadRequestKeyError /\ P
    | inr a => Q a
    end.

(** What [m] returns, when it returns, has [Q]. *)
Definition yields {A} (Q : A -> Prop) (m : M A) : Prop :=
  forall w,
    match fst (m w) with
    | inl _ => True
    | inr a => Q a
    end.

(** A response that is not a 500. *)
Definition no_500 (r : site_response) : Prop :=
  forall e, r <> Plain (InternalServerError e).

(** [m] leaves the flashed messages alone. *)
Definition quiet {A} (m : M A) : Prop :=
  forall w, flashes (snd (m w)) = flashes w.

(** [m] flashes [msg] when it returns, and nothing when it raises. *)
Definition ends_flashing {A} (msg : string) (m : M A) : Prop :=
  forall w,
    match fst (m w) with
    | inl _ => flashes (snd (m w)) = flashes w
    | inr _ => flashes (snd (m w)) = flashes w ++ [msg]
    end.

(** A POST that lacks one of the fields [names] of its form. *)
Definition lacks_a_field (names : list string) (request : Request) : Prop :=
  method request = POST
  /\ exists k, In k names /\ form_field request k = None.

(** The fields add_mahasiswa and add_dosen read. *)
Definition fields_of_add_mahasiswa : list string :=
  ["username"; "full_name"; "password"; "nim"; "alamat"; "phone"].

Definition fields_of_add_dosen : list string :=
  ["username"; "full_name"; "password"; "nidn"].

(** Every class of id [kls_id] names a course that exists. *)
Definition has_course (db : database) (kls_id : Z) : Prop :=
  forall k,
    In k (kelas db) -> kelas_id k = kls_id ->
    exists mk,
      In mk (mata_kuliah db) /\ mata_kuliah_id mk = kelas_mata_kuliah_id k.

(** The role each view is decorated with: [login_required(role=...)]. *)
Definition required_role (r : route) : option string :=
  match r with
  | to_index | to_login _ | to_logout => None
  | to_dosen_dashboard | to_dosen_view_kelas _ | to_dosen_set_nilai _ _ =>
      Some "dosen"
  | to_mhs_dashboard => Some "mahasiswa"
  | to_admin_dashboard
  | to_manage_mahasiswa | to_add_mahasiswa _ | to_delete_mahasiswa _
  | to_add_dosen _ | to_add_mata_kuliah _ | to_add_kelas _ | to_view_kelas _
  | to_enroll_mahasiswa _ _ | to_unenroll _ _
  | to_manage_dosen | to_manage_mata_kuliah | to_manage_kelas
  | to_manage_jadwal _ => Some "admin"
  end.

(** A POST carrying the six fields of "Tambah Mahasiswa". *)
Definition mahasiswa_form (request : Request)
  (username full_name password nim alamat phone : string) : Prop :=
  method request = POST
  /\ form_field request "username" = Some username
  /\ form_field request "full_name" = Some full_name
  /\ form_field request "password" = Some password
  /\ form_field request "nim" = Some nim
  /\ form_field request "alamat" = Some alamat
  /\ form_field request "phone" = Some phone.

(** The account and the profile [add_mahasiswa] makes of a form, under
    the id the account gets. *)
Definition new_account {RT : Runtime} (db : database)
  (username full_name password : string) : users_row :=
  {| users_id := next_rowid users_id (seq_users (sequence db)) (users db);
     users_username := username;
     users_password_hash := generate_password_hash password;
     users_role := "mahasiswa";
     users_full_name := full_name |}.

Definition new_profile (db : database) (nim alamat phone : string)
  : mahasiswa_row :=
  {| mahasiswa_id := next_rowid users_id (seq_users (sequence db)) (users db);
     mahasiswa_nim := nim;
     mahasiswa_alamat := alamat;
     mahasiswa_phone := phone |}.


(** *** More concrete worlds *)

Definition session_mahasiswa1 : Session :=
  {| user_id := Some 3; role := Some "mahasiswa";
     full_name := Some "Budi Mahasiswa" |}.

Definition world_mahasiswa1 : world := seeded_world session_mahasiswa1 [].


(** The form of "Tambah Mahasiswa" for a new student, and for a username
    that is taken. *)
Definition form_siti : Request :=
  post_form [ ("username", "siti"); ("full_name", "Siti Rahma");
              ("password", "rahasia"); ("nim", "20231002");
              ("alamat", "Jl. Melati 2"); ("phone", "081200000000") ].

Definition form_mahasiswa1_again : Request :=
  post_form [ ("username", "mahasiswa1"); ("full_name", "Budi Dua");
              ("password", "rahasia"); ("nim", "20231003");
              ("alamat", "Jl. Mawar 3"); ("phone", "081300000000") ].

Definition sign_in_siti : Request :=
  post_form [ ("username", "siti"); ("password", "rahasia") ].

Definition sign_in_dosen1 : Request :=
  post_form [ ("username", "dosen1"); ("password", "dosen123") ].

Definition form_dosen2 : Request :=
  post_form [ ("username", "dosen2"); ("full_name", "Dr. Dosen Dua");
              ("password", "rahasia"); ("nidn", "NIDN67890") ].

Definition grade_90 : Request := post_form [ ("nilai", "90") ].





(** The seeded database with a second student, siti (id 4), enrolled in
    class 1 under enrollment 2. *)
Definition two_students : database :=
  Eval vm_compute in
    run_statements
      [ INSERT_users "siti" "plain$rahasia" "mahasiswa" "Siti Rahma";
        INSERT_mahasiswa 4 "20231002" "Jl. Melati 2" "081200000000";
        INSERT_enroll 4 1 ]
      seeded_database.

Definition world_two_students (s : Session) : world :=
  {| file := two_students; g_database := None; session := s;
     flashes := []; faults := []; journal := [] |}.

(** ** Running the helpers *)

Lemma execute_db_goes_through (s : statement) (w : world) db' lastrowid :
  g_database w = None \/ g_database w = Some (file w) ->
  faults w = [] ->
  exec s (file w) = inr (db', lastrowid) ->
  execute_db s w =
    (inr lastrowid,
     {| file := db'; g_database := Some db'; session := session w;
        flashes := flashes w; faults := []; journal := journal w ++ [s] |}).
Proof.
  intros Hg Hf He. destruct w as [f g se fl fa j]; simpl in *; subst fa.
  unfold execute_db, bind, get_db, connection_execute, bind, engine; simpl.
  destruct Hg as [-> | ->]; simpl; rewrite He; reflexivity.
Qed.

Lemma execute_db_spared (s : statement) (w : world) rest db' lastrowid :
  g_database w = None \/ g_database w = Some (file w) ->
  faults w = None :: rest ->
  exec s (file w) = inr (db', lastrowid) ->
  execute_db s w =
    (inr lastrowid,
     {| file := db'; g_database := Some db'; session := session w;
        flashes := flashes w; faults := rest; journal := journal w ++ [s] |}).
Proof.
  intros Hg Hf He. destruct w as [f g se fl fa j]; simpl in *; subst fa.
  unfold execute_db, bind, get_db, connection_execute, bind, engine; simpl.
  destruct Hg as [-> | ->]; simpl; rewrite He; reflexivity.
Qed.

Lemma execute_db_struck (s : statement) (w : world) msg rest :
  g_database w = None \/ g_database w = Some (file w) ->
  faults w = Some msg :: rest ->
  execute_db s w =
    (inl (OperationalError msg),
     {| file := file w; g_database := Some (file w); session := session w;
        flashes := flashes w; faults := rest; journal := journal w |}).
Proof.
  intros Hg Hf. destruct w as [f g se fl fa j]; simpl in *; subst fa.
  unfold execute_db, bind, get_db, connection_execute, bind, engine; simpl.
  destruct Hg as [-> | ->]; reflexivity.
Qed.

Lemma query_db_one_goes_through {A} (q : database -> list A) (w : world) :
  g_database w = None \/ g_database w = Some (file w) ->
  faults w = [] ->
  query_db_one q w =
    (inr (hd_error (q (file w))),
     {| file := file w; g_database := Some (file w); session := session w;
        flashes := flashes w; faults := []; journal := journal w |}).
Proof.
  intros Hg Hf. destruct w as [f g se fl fa j]; simpl in *; subst fa.
  unfold query_db_one, query_db, bind, get_db, engine, ret; simpl.
  destruct Hg as [-> | ->]; reflexivity.
Qed.

Lemma login_required_passes (r : string) (f : M response) (w : world) :
  signed_in r (session w) ->
  login_required (Some r) f w = f w.
Proof.
  intros [Hu Hr]. unfold login_required.
  destruct (user_id (session w)); [| congruence].
  rewrite Hr; simpl. rewrite String.eqb_refl, andb_false_r. reflexivity.
Qed.

(** ** Facts about the queries *)

Lemma key_determines_row {A} (key : A -> Z) (l : list A) (a b : A) :
  NoDup (map key l) -> In a l -> In b l -> key a = key b -> a = b.
Proof.
  induction l as [| x l IH]; simpl; [tauto |].
  intros Hnd Ha Hb Hk. inversion Hnd as [| ? ? Hx Hl]; subst.
  destruct Ha as [-> | Ha], Hb as [-> | Hb]; auto.
  - exfalso. apply Hx. rewrite Hk. now apply in_map.
  - exfalso. apply Hx. rewrite <- Hk. now apply in_map.
Qed.

Lemma mem_Z_In (x : Z) (ids : list Z) : mem_Z x ids = true <-> In x ids.
Proof.
  unfold mem_Z. rewrite existsb_exists. split.
  - intros (y & Hy & He). apply Z.eqb_eq in He. now subst.
  - intros H. exists x. split; [assumption | apply Z.eqb_refl].
Qed.

Lemma grade_of_mahasiswa_spec (db : database) (mhs_id : Z) (n : nilai_row) :
  grade_of_mahasiswa db mhs_id n = true <->
  exists e, In e (enroll db) /\ enroll_id e = nilai_enroll_id n
            /\ enroll_mahasiswa_id e = mhs_id.
Proof.
  unfold grade_of_mahasiswa. rewrite existsb_exists.
  split; intros (e & He & H); exists e; split; try assumption.
  - apply andb_true_iff in H. now rewrite !Z.eqb_eq in H.
  - apply andb_true_iff. now rewrite !Z.eqb_eq.
Qed.

Lemma in_subquery_grade_of_mahasiswa (db : database) (mhs_id : Z) n :
  mem_Z (nilai_enroll_id n) (enroll_ids_of_mahasiswa mhs_id db)
  = grade_of_mahasiswa db mhs_id n.
Proof.
  apply eq_true_iff_eq.
  rewrite mem_Z_In, grade_of_mahasiswa_spec.
  unfold enroll_ids_of_mahasiswa. rewrite in_map_iff. split.
  - intros (e & Hid & Hin). apply filter_In in Hin as [Hin Hm].
    apply Z.eqb_eq in Hm. now exists e.
  - intros (e & Hin & Hid & Hm). exists e. split; [assumption |].
    apply filter_In. split; [assumption | now apply Z.eqb_eq].
Qed.

Lemma grade_of_other_mahasiswa (db : database) (mhs_id : Z) n e :
  NoDup (map enroll_id (enroll db)) ->
  In e (enroll db) -> enroll_id e = nilai_enroll_id n ->
  enroll_mahasiswa_id e <> mhs_id ->
  grade_of_mahasiswa db mhs_id n = false.
Proof.
  intros Hnd He Hid Hm.
  destruct (grade_of_mahasiswa db mhs_id n) eqn:G; [| reflexivity].
  apply grade_of_mahasiswa_spec in G as (e' & He' & Hid' & Hm').
  assert (e' = e) by (eapply key_determines_row; eauto; congruence).
  congruence.
Qed.

(** ** The cascades *)

Section Cascades.
  Context {RT : Runtime}.

Lemma delete_mahasiswa_run (mhs_id : Z) (w : world) :
  signed_in "admin" (session w) ->
  faults w = [] ->
  dispatch_request (delete_mahasiswa mhs_id) w =
    (Redirect ep_manage_mahasiswa,
     {| file := run_statements (cascade_delete_mahasiswa mhs_id) (file w);
        g_database := None; session := session w;
        flashes := flashes w ++ ["Mahasiswa dihapus"]; faults := [];
        journal := journal w ++ cascade_delete_mahasiswa mhs_id |}).
Proof.
  intros Hs Hf. unfold dispatch_request, delete_mahasiswa.
  rewrite login_required_passes by exact Hs.
  unfold bind at 1, try_except.
  unfold bind at 1.
  erewrite execute_db_goes_through; [| simpl; auto | exact Hf | reflexivity ].
  unfold bind at 1.
  erewrite execute_db_goes_through; [| simpl; auto | reflexivity | reflexivity ].
  unfold bind at 1.
  erewrite execute_db_goes_through; [| simpl; auto | reflexivity | reflexivity ].
  unfold bind at 1.
  erewrite execute_db_goes_through; [| simpl; auto | reflexivity | reflexivity ].
  simpl. rewrite <- !app_assoc. reflexivity.
Qed.

Lemma unenroll_run (kls_id enr_id : Z) (w : world) :
  signed_in "admin" (session w) ->
  faults w = [] ->
  dispatch_request (unenroll kls_id enr_id) w =
    (Redirect (ep_view_kelas kls_id),
     {| file := run_statements (cascade_unenroll enr_id) (file w);
        g_database := None; session := session w;
        flashes := flashes w ++ ["Mahasiswa dikeluarkan dari kelas"];
        faults := [];
        journal := journal w ++ cascade_unenroll enr_id |}).
Proof.
  intros Hs Hf. unfold dispatch_request, unenroll.
  rewrite login_required_passes by exact Hs.
  unfold bind at 1.
  erewrite execute_db_goes_through; [| simpl; auto | exact Hf | reflexivity ].
  unfold bind at 1.
  erewrite execute_db_goes_through; [| simpl; auto | reflexivity | reflexivity ].
  simpl. rewrite <- !app_assoc. reflexivity.
Qed.

(** C3: for an administrator, a storage engine that runs every statement
    and a student id that SQLite can bind (beyond 64 bits sqlite3 raises
    before the first delete and no statement is sent): deleting student
    [mhs_id] sends the four deletes in the order
    grades, enrollments, profile, account; afterwards the grade rows are
    those not hanging off an enrollment of the student, the enrollment rows
    those of other students, the profile and account rows those with
    another id, each table in its old order; lecturers, courses, class
    sections, schedule slots and the rowid counters are untouched; and,
    ids being primary keys, every grade row of another student's
    enrollment is still there. *)
Theorem delete_mahasiswa_removes_exactly (mhs_id : Z) (w : world) :
  signed_in "admin" (session w) ->
  faults w = [] ->
  sqlite_integer mhs_id ->
  let db := file w in
  let w' := snd (dispatch_request (delete_mahasiswa mhs_id) w) in
  let db' := file w' in
  journal w' =
    journal w ++ [ DELETE_nilai_of_mahasiswa mhs_id;
                   DELETE_enroll_of_mahasiswa mhs_id;
                   DELETE_mahasiswa mhs_id;
                   DELETE_users mhs_id ]
  /\ nilai db' =
       filter (fun n => negb (grade_of_mahasiswa db mhs_id n)) (nilai db)
  /\ enroll db' =
       filter (fun e => negb (enroll_mahasiswa_id e =? mhs_id)) (enroll db)
  /\ mahasiswa db' =
       filter (fun m => negb (mahasiswa_id m =? mhs_id)) (mahasiswa db)
  /\ users db' = filter (fun u => negb (users_id u =? mhs_id)) (users db)
  /\ dosen db' = dosen db
  /\ mata_kuliah db' = mata_kuliah db
  /\ kelas db' = kelas db
  /\ jadwal db' = jadwal db
  /\ sequence db' = sequence db
  /\ (primary_keys db ->
      forall n e,
        In n (nilai db) -> In e (enroll db) ->
        enroll_id e = nilai_enroll_id n ->
        enroll_mahasiswa_id e <> mhs_id ->
        In n (nilai db')).
Proof.
  intros Hs Hf _ db w' db'. subst w' db'.
  rewrite delete_mahasiswa_run by assumption.
  cbn [snd file journal]. fold db.
  assert (Hn : nilai (run_statements (cascade_delete_mahasiswa mhs_id) db) =
               filter (fun n => negb (grade_of_mahasiswa db mhs_id n))
                 (nilai db)).
  { simpl. apply filter_ext. intros n.
    now rewrite in_subquery_grade_of_mahasiswa. }
  split; [reflexivity |]. split; [exact Hn |].
  repeat (split; [destruct db as [? ? ? ? ? ? ? ? []]; reflexivity |]).
  intros Hpk n e Hin He Hid Hm. rewrite Hn. apply filter_In.
  split; [assumption |].
  rewrite (grade_of_other_mahasiswa db mhs_id n e); auto.
  apply Hpk.
Qed.

(** C5: for an administrator, a storage engine that runs every statement
    and an enrollment id that SQLite can bind: unenrolling [enr_id] first
    deletes the grade rows of that
    enrollment, then the enrollment row; the grade and enrollment rows of
    every other enrollment stay, in their old order, and no other table
    changes. *)
Theorem unenroll_removes_exactly (kls_id enr_id : Z) (w : world) :
  signed_in "admin" (session w) ->
  faults w = [] ->
  sqlite_integer enr_id ->
  let db := file w in
  let w' := snd (dispatch_request (unenroll kls_id enr_id) w) in
  let db' := file w' in
  journal w' =
    journal w ++ [ DELETE_nilai_of_enroll enr_id; DELETE_enroll enr_id ]
  /\ nilai db' = filter (fun n => negb (nilai_enroll_id n =? enr_id)) (nilai db)
  /\ enroll db' = filter (fun e => negb (enroll_id e =? enr_id)) (enroll db)
  /\ (forall n, In n (nilai db') <->
                 In n (nilai db) /\ nilai_enroll_id n <> enr_id)
  /\ (forall e, In e (enroll db') <->
                 In e (enroll db) /\ enroll_id e <> enr_id)
  /\ users db' = users db
  /\ mahasiswa db' = mahasiswa db
  /\ dosen db' = dosen db
  /\ mata_kuliah db' = mata_kuliah db
  /\ kelas db' = kelas db
  /\ jadwal db' = jadwal db
  /\ sequence db' = sequence db.
Proof.
  intros Hs Hf _ db w' db'. subst w' db'.
  rewrite unenroll_run by assumption.
  cbn [snd file journal]. fold db.
  split; [reflexivity |].
  split; [reflexivity |].
  split; [reflexivity |].
  split.
  { intros n. simpl. rewrite filter_In, negb_true_iff, Z.eqb_neq. tauto. }
  split.
  { intros e. simpl. unfold delete_rowid.
    rewrite filter_In, negb_true_iff, Z.eqb_neq. tauto. }
  repeat split; destruct db as [? ? ? ? ? ? ? ? []]; reflexivity.
Qed.

(** What a cascade leaves when the engine raises at its statement number
    [k] (counting from 0). *)
Lemma delete_mahasiswa_interrupted (mhs_id : Z) (w : world) k msg rest :
  signed_in "admin" (session w) ->
  (k < 4)%nat ->
  faults w = fails_at k msg rest ->
  dispatch_request (delete_mahasiswa mhs_id) w =
    (Redirect ep_manage_mahasiswa,
     {| file :=
          run_statements (firstn k (cascade_delete_mahasiswa mhs_id)) (file w);
        g_database := None; session := session w;
        flashes := flashes w ++ [("Gagal hapus: " ++ msg)%string];
        faults := rest;
        journal := journal w ++ firstn k (cascade_delete_mahasiswa mhs_id) |}).
Proof.
  intros Hs Hk Hf. unfold dispatch_request, delete_mahasiswa.
  rewrite login_required_passes by exact Hs.
  unfold bind at 1, try_except. unfold fails_at in Hf.
  destruct k as [| [| [| [| k]]]]; [| | | | lia]; simpl in Hf.
  - unfold bind at 1.
    erewrite execute_db_struck; [| simpl; auto | exact Hf ].
    simpl. rewrite app_nil_r. reflexivity.
  - unfold bind at 1.
    erewrite execute_db_spared; [| simpl; auto | exact Hf | reflexivity ].
    unfold bind at 1.
    erewrite execute_db_struck; [| simpl; auto | reflexivity ].
    reflexivity.
  - unfold bind at 1.
    erewrite execute_db_spared; [| simpl; auto | exact Hf | reflexivity ].
    unfold bind at 1.
    erewrite execute_db_spared; [| simpl; auto | reflexivity | reflexivity ].
    unfold bind at 1.
    erewrite execute_db_struck; [| simpl; auto | reflexivity ].
    simpl. rewrite <- !app_assoc. reflexivity.
  - unfold bind at 1.
    erewrite execute_db_spared; [| simpl; auto | exact Hf | reflexivity ].
    unfold bind at 1.
    erewrite execute_db_spared; [| simpl; auto | reflexivity | reflexivity ].
    unfold bind at 1.
    erewrite execute_db_spared; [| simpl; auto | reflexivity | reflexivity ].
    unfold bind at 1.
    erewrite execute_db_struck; [| simpl; auto | reflexivity ].
    simpl. rewrite <- !app_assoc. reflexivity.
Qed.

Lemma unenroll_interrupted (kls_id enr_id : Z) (w : world) k msg rest :
  signed_in "admin" (session w) ->
  (k < 2)%nat ->
  faults w = fails_at k msg rest ->
  dispatch_request (unenroll kls_id enr_id) w =
    (InternalServerError (OperationalError msg),
     {| file := run_statements (firstn k (cascade_unenroll enr_id)) (file w);
        g_database := None; session := session w;
        flashes := flashes w;
        faults := rest;
        journal := journal w ++ firstn k (cascade_unenroll enr_id) |}).
Proof.
  intros Hs Hk Hf. unfold dispatch_request, unenroll.
  rewrite login_required_passes by exact Hs.
  unfold fails_at in Hf.
  destruct k as [| [| k]]; [| | lia]; simpl in Hf.
  - unfold bind at 1.
    erewrite execute_db_struck; [| simpl; auto | exact Hf ].
    simpl. rewrite app_nil_r. reflexivity.
  - unfold bind at 1.
    erewrite execute_db_spared; [| simpl; auto | exact Hf | reflexivity ].
    unfold bind at 1.
    erewrite execute_db_struck; [| simpl; auto | reflexivity ].
    reflexivity.
Qed.

(** C4, as the code has it: every delete of a cascade is committed on its
    own.  For an administrator and ids that SQLite can bind: when the
    engine runs every statement the
    whole cascade is applied; when it raises at statement number [k] the
    deletes before it stay in the file, those from [k] on are not applied,
    and nothing is rolled back.  Deleting a student then flashes
    "Gagal hapus: " followed by the cause and redirects to the student
    list. *)
Theorem cascades_commit_each_statement (w : world) :
  signed_in "admin" (session w) ->
  (forall mhs_id,
      sqlite_integer mhs_id ->
      faults w = [] ->
      file (snd (dispatch_request (delete_mahasiswa mhs_id) w))
      = run_statements (cascade_delete_mahasiswa mhs_id) (file w))
  /\ (forall kls_id enr_id,
        sqlite_integer enr_id ->
        faults w = [] ->
        file (snd (dispatch_request (unenroll kls_id enr_id) w))
        = run_statements (cascade_unenroll enr_id) (file w))
  /\ (forall mhs_id k msg rest,
        sqlite_integer mhs_id ->
        (k < 4)%nat ->
        faults w = fails_at k msg rest ->
        let r := dispatch_request (delete_mahasiswa mhs_id) w in
        file (snd r)
        = run_statements (firstn k (cascade_delete_mahasiswa mhs_id)) (file w)
        /\ journal (snd r)
           = journal w ++ firstn k (cascade_delete_mahasiswa mhs_id)
        /\ flashes (snd r) = flashes w ++ [("Gagal hapus: " ++ msg)%string]
        /\ fst r = Redirect ep_manage_mahasiswa)
  /\ (forall kls_id enr_id k msg rest,
        sqlite_integer enr_id ->
        (k < 2)%nat ->
        faults w = fails_at k msg rest ->
        let r := dispatch_request (unenroll kls_id enr_id) w in
        file (snd r)
        = run_statements (firstn k (cascade_unenroll enr_id)) (file w)
        /\ journal (snd r) = journal w ++ firstn k (cascade_unenroll enr_id)).
Proof.
  intros Hs. repeat split.
  - intros mhs_id _ Hf. now rewrite delete_mahasiswa_run.
  - intros kls_id enr_id _ Hf. now rewrite unenroll_run.
  - rewrite (delete_mahasiswa_interrupted mhs_id w k msg rest); auto.
  - rewrite (delete_mahasiswa_interrupted mhs_id w k msg rest); auto.
  - rewrite (delete_mahasiswa_interrupted mhs_id w k msg rest); auto.
  - rewrite (delete_mahasiswa_interrupted mhs_id w k msg rest); auto.
  - rewrite (unenroll_interrupted kls_id enr_id w k msg rest); auto.
  - rewrite (unenroll_interrupted kls_id enr_id w k msg rest); auto.
Qed.
End Cascades.

(** ** The guard and the login *)

Section Guard.
  Context {RT : Runtime}.

(** C7: the guard of a view that requires role [r] sends a session without
    identity to the login page and a session of another role to the home
    page with a warning, in both cases without running the view (the
    outcome does not depend on it); a guard without required role runs the
    view for every session that has an identity, whatever its role. *)
Theorem login_required_guard (r : string) (f : M response) (w : world) :
  r <> "" ->
  (user_id (session w) = None ->
     login_required (Some r) f w = (inr (Redirect ep_login), w)
     /\ login_required None f w = (inr (Redirect ep_login), w))
  /\ (user_id (session w) <> None ->
      role (session w) <> Some r ->
      login_required (Some r) f w =
        (inr (Redirect ep_index),
         with_flashes
           (flashes w
              ++ [("Akses ditolak: hak akses diperlukan: " ++ r)%string]) w))
  /\ (user_id (session w) <> None -> login_required None f w = f w).
Proof.
  intros Hr. unfold login_required. split; [| split].
  - intros ->. split; reflexivity.
  - intros Hu Hrole. destruct (user_id (session w)); [| congruence].
    assert (Ht : truthy (Some r) = true).
    { simpl. apply negb_true_iff. now apply String.eqb_neq. }
    assert (He : eq_opt_string (role (session w)) (Some r) = false).
    { destruct (role (session w)) as [r' |]; simpl; [| reflexivity].
      apply String.eqb_neq. congruence. }
    rewrite Ht, He. reflexivity.
  - intros Hu. destruct (user_id (session w)); [reflexivity | congruence].
Qed.

Lemma login_fails (w : world) (request : Request) u p :
  method request = POST ->
  form_field request "username" = Some u ->
  form_field request "password" = Some p ->
  match hd_error (users_by_username u (file w)) with
  | Some row => check_password_hash (users_password_hash row) p = false
  | None => True
  end ->
  dispatch_request (login request) w =
    match faults w with
    | Some msg :: rest =>
        (InternalServerError (OperationalError msg),
         {| file := file w; g_database := None; session := session w;
            flashes := flashes w; faults := rest; journal := journal w |})
    | fs =>
        (Rendered page_login (flashes w ++ [msg_login_gagal]),
         {| file := file w; g_database := None; session := session w;
            flashes := []; faults := tl fs; journal := journal w |})
    end.
Proof.
  intros Hm Hu Hp Hc. destruct w as [fi g se fl fa j]; simpl in *.
  unfold dispatch_request, login, bind, request_form, query_db_one, query_db,
    bind, get_db, engine, ret; simpl.
  rewrite Hm, Hu; simpl. rewrite Hp; simpl.
  destruct fa as [| [msg |] rest]; simpl; try reflexivity.
  - destruct (hd_error (users_by_username u fi)) as [row |]; simpl.
    + rewrite Hc. reflexivity.
    + reflexivity.
  - destruct (hd_error (users_by_username u fi)) as [row |]; simpl.
    + rewrite Hc. reflexivity.
    + reflexivity.
Qed.

(** C6: a login with a known username and a wrong password and a login
    with an unknown username end the same way - same response, same world
    afterwards; neither touches the session or the file, and when the
    engine answers the query both show the login page with the one message
    "Login gagal: username atau password salah". *)
Theorem login_failures_alike (w : world) (wrong_password unknown_user : Request)
    (u1 p1 u2 p2 : string) (row : users_row) :
  method wrong_password = POST ->
  form_field wrong_password "username" = Some u1 ->
  form_field wrong_password "password" = Some p1 ->
  method unknown_user = POST ->
  form_field unknown_user "username" = Some u2 ->
  form_field unknown_user "password" = Some p2 ->
  hd_error (users_by_username u1 (file w)) = Some row ->
  check_password_hash (users_password_hash row) p1 = false ->
  users_by_username u2 (file w) = [] ->
  let r1 := dispatch_request (login wrong_password) w in
  let r2 := dispatch_request (login unknown_user) w in
  r1 = r2
  /\ session (snd r1) = session w
  /\ file (snd r1) = file w
  /\ (faults w = [] ->
      fst r1 =
        Rendered page_login
          (flashes w ++ ["Login gagal: username atau password salah"])).
Proof.
  intros Hm1 Hu1 Hp1 Hm2 Hu2 Hp2 Hrow Hbad Hnone r1 r2. subst r1 r2.
  rewrite (login_fails w wrong_password u1 p1) by (auto; now rewrite Hrow).
  rewrite (login_fails w unknown_user u2 p2) by (auto; now rewrite Hnone).
  split; [reflexivity |].
  destruct (faults w) as [| [msg |] rest]; simpl; repeat split;
    try reflexivity; intros; discriminate.
Qed.
End Guard.

(** ** Seeding *)

Section Seeding.
  Context {RT : Runtime}.

(** C8, with the credentials the code seeds: when mahasiswa.db does not
    exist, init_db creates it with exactly three accounts, admin/admin123,
    dosen1/dosen123 and mahasiswa1/mahasiswa123 (roles admin, dosen,
    mahasiswa), the two profiles, one course, one class section taught by
    dosen1, one schedule slot, one enrollment of mahasiswa1 in that class
    and one grade, 85.0, on that enrollment; when the file exists init_db
    leaves it as it is. *)
Theorem init_db_seeds_once :
  (exists db,
      init_db None = inr (Some db)
      /\ has_accounts [ ("admin", "admin123");
                        ("dosen1", "dosen123");
                        ("mahasiswa1", "mahasiswa123") ] db
      /\ map users_id (users db) = [1; 2; 3]
      /\ map users_role (users db) = ["admin"; "dosen"; "mahasiswa"]
      /\ dosen db = [ {| dosen_id := 2; dosen_nidn := "NIDN12345" |} ]
      /\ mahasiswa db =
           [ {| mahasiswa_id := 3; mahasiswa_nim := "20231001";
                mahasiswa_alamat := "Jl. Merdeka 1";
                mahasiswa_phone := "081234567890" |} ]
      /\ mata_kuliah db =
           [ {| mata_kuliah_id := 1; mata_kuliah_kode := "JARKOM101";
                mata_kuliah_nama := "Jaringan Komputer";
                mata_kuliah_sks := 3 |} ]
      /\ kelas db =
           [ {| kelas_id := 1; kelas_nama := "Jarkom - Pagi";
                kelas_mata_kuliah_id := 1; kelas_dosen_id := 2 |} ]
      /\ jadwal db =
           [ {| jadwal_id := 1; jadwal_kelas_id := 1; jadwal_hari := "Senin";
                jadwal_jam := "08:00-10:00" |} ]
      /\ enroll db =
           [ {| enroll_id := 1; enroll_mahasiswa_id := 3;
                enroll_kelas_id := 1 |} ]
      /\ nilai db =
           [ {| nilai_id := 1; nilai_enroll_id := 1;
                nilai_angka := 85%float |} ])
  /\ (forall db, init_db (Some db) = inr (Some db)).
Proof.
  split; [| reflexivity].
  remember (init_db None) as r eqn:E. vm_compute in E. subst r.
  eexists. split; [reflexivity |].
  unfold has_accounts. cbn. repeat split.
Qed.
(** The seeded credentials open a session, for any hashing whose digests
    verify against their plaintext. *)
Lemma seeded_credentials_log_in (username password : string) (w : world) :
  (forall p, check_password_hash (generate_password_hash p) p = true) ->
  init_db None = inr (Some (file w)) ->
  faults w = [] ->
  In (username, password)
     [ ("admin", "admin123"); ("dosen1", "dosen123");
       ("mahasiswa1", "mahasiswa123") ] ->
  let r := dispatch_request
             (login (post_form [ ("username", username);
                                 ("password", password) ])) w in
  fst r = Redirect ep_index
  /\ user_id (session (snd r)) <> None
  /\ flashes (snd r) = flashes w ++ ["Login berhasil"].
Proof.
  intros Hcheck Hinit Hf Hin r. subst r.
  remember (init_db None) as i eqn:E. vm_compute in E. subst i.
  injection Hinit as Hfile.
  destruct w as [fi g se fl fa j]; cbn [file faults flashes] in *. subst fi fa.
  unfold dispatch_request, login, bind, request_form, query_db_one, query_db,
    bind, get_db, engine, ret.
  destruct Hin as [[= <- <-] | [[= <- <-] | [[= <- <-] | []]]];
    cbn; rewrite Hcheck; cbn; repeat split; discriminate.
Qed.
End Seeding.

(** ** Grades *)

Lemma filter_key_unique {A} (key : A -> Z) (l : list A) (a : A) :
  NoDup (map key l) -> In a l ->
  filter (fun x => key x =? key a) l = [a].
Proof.
  induction l as [| x l IH]; simpl; [tauto |].
  intros Hnd Ha. inversion Hnd as [| ? ? Hx Hl]; subst.
  assert (Hnone : forall b, ~ In (key b) (map key l) ->
                   filter (fun x => key x =? key b) l = []).
  { intros b Hb. clear -Hb. induction l as [| y l IH]; simpl; [reflexivity |].
    simpl in Hb. destruct (Z.eqb_spec (key y) (key b)) as [E | E].
    - exfalso. apply Hb. now left.
    - apply IH. intros Hin. apply Hb. now right. }
  destruct Ha as [-> | Ha].
  - rewrite Z.eqb_refl. now rewrite Hnone.
  - destruct (Z.eqb_spec (key x) (key a)) as [E | E].
    + exfalso. apply Hx. rewrite E. now apply in_map.
    + now apply IH.
Qed.

Lemma flat_map_if {A B} (p : A -> bool) (g : A -> list B) (l : list A) :
  flat_map (fun x => if p x then g x else []) l = flat_map g (filter p l).
Proof.
  induction l as [| x l IH]; simpl; [reflexivity |].
  destruct (p x); simpl; now rewrite IH.
Qed.

(** Whatever row the ownership query returns first is an enrollment with
    the asked id, together with the lecturer of a class that enrollment
    points to. *)
Lemma ownership_row (db : database) (enr_id d : Z) (row : enroll_row) :
  hd_error (enroll_join_kelas enr_id db) = Some (row, d) ->
  In row (enroll db) /\ enroll_id row = enr_id
  /\ exists k, In k (kelas db) /\ kelas_id k = enroll_kelas_id row
               /\ kelas_dosen_id k = d.
Proof.
  intros H. unfold enroll_join_kelas in H.
  assert (Hin : In (row, d)
            (flat_map
               (fun e => if enroll_id e =? enr_id
                         then map (fun k => (e, kelas_dosen_id k))
                                (filter (fun k => enroll_kelas_id e =? kelas_id k)
                                   (kelas db))
                         else []) (enroll db))).
  { destruct (flat_map _ (enroll db)); simpl in H; [discriminate |].
    injection H as ->. now left. }
  apply in_flat_map in Hin as (e & He & Hin).
  destruct (Z.eqb_spec (enroll_id e) enr_id) as [E | E]; [| contradiction].
  apply in_map_iff in Hin as (k & Hk & Hin).
  apply filter_In in Hin as [Hin Hq]. apply Z.eqb_eq in Hq.
  injection Hk as <- <-. repeat split; auto. exists k. auto.
Qed.

(** Under primary keys the ownership query returns the enrollment with its
    class's lecturer exactly when that lecturer owns the enrollment. *)
Lemma owns_query (db : database) (uid enr_id : Z) :
  primary_keys db ->
  owns db uid enr_id <->
  exists row, hd_error (enroll_join_kelas enr_id db) = Some (row, uid).
Proof.
  intros Hpk. split.
  - intros (e & k & He & Hid & Hk & Hkid & Hd). exists e.
    unfold enroll_join_kelas. rewrite flat_map_if. subst enr_id.
    rewrite (filter_key_unique enroll_id (enroll db) e) by (auto; apply Hpk).
    simpl. rewrite app_nil_r.
    replace (filter (fun k0 => enroll_kelas_id e =? kelas_id k0) (kelas db))
      with [k].
    + simpl. now rewrite Hd.
    + rewrite <- Hkid. symmetry.
      erewrite filter_ext; [apply (filter_key_unique kelas_id); auto; apply Hpk |].
      intros k0. apply Z.eqb_sym.
  - intros (row & H). apply ownership_row in H as (He & Hid & k & Hk & Hkid & Hd).
    exists row, k. auto.
Qed.

Lemma next_rowid_fresh {A} (key : A -> Z) (seq : Z) (rows : list A) (r : A) :
  In r rows -> key r < next_rowid key seq rows.
Proof.
  unfold next_rowid. intros Hin.
  assert (key r <= max_rowid key rows).
  { induction rows as [| x rows IH]; simpl in *; [contradiction |].
    destruct Hin as [-> | Hin]; [lia |]. specialize (IH Hin). lia. }
  lia.
Qed.

Lemma filter_update_same (enr_id : Z) (angka : float) (l : list nilai_row) :
  filter (fun n => nilai_enroll_id n =? enr_id)
    (map (fun n => if nilai_enroll_id n =? enr_id then with_angka angka n
                   else n) l)
  = map (with_angka angka) (filter (fun n => nilai_enroll_id n =? enr_id) l).
Proof.
  induction l as [| n l IH]; simpl; [reflexivity |].
  destruct (nilai_enroll_id n =? enr_id) eqn:E; simpl; rewrite E, IH;
    reflexivity.
Qed.

Lemma filter_update_other (enr_id other : Z) (angka : float)
    (l : list nilai_row) :
  other <> enr_id ->
  filter (fun n => nilai_enroll_id n =? other)
    (map (fun n => if nilai_enroll_id n =? enr_id then with_angka angka n
                   else n) l)
  = filter (fun n => nilai_enroll_id n =? other) l.
Proof.
  intros Hne. induction l as [| n l IH]; simpl; [reflexivity |].
  destruct (Z.eqb_spec (nilai_enroll_id n) enr_id) as [E | E]; simpl.
  - destruct (Z.eqb_spec (nilai_enroll_id n) other) as [E' | E'];
      [congruence | exact IH].
  - now rewrite IH.
Qed.

(** The grade rows of an enrollment after a grade write: the old rows with
    the new score, or the one new row. *)
Lemma grades_after_upsert (db : database) (enr_id : Z) (angka : float) :
  nilai_by_enroll enr_id (run_statements [upsert_nilai db enr_id angka] db)
  = match nilai_by_enroll enr_id db with
    | [] =>
        [ {| nilai_id :=
               next_rowid nilai_id (seq_nilai (sequence db)) (nilai db);
             nilai_enroll_id := enr_id; nilai_angka := angka |} ]
    | rows => map (with_angka angka) rows
    end.
Proof.
  unfold upsert_nilai.
  destruct (nilai_by_enroll enr_id db) as [| n rows] eqn:E;
    unfold nilai_by_enroll in *; simpl.
  - rewrite filter_app, E. simpl. now rewrite Z.eqb_refl.
  - now rewrite filter_update_same, E.
Qed.

Lemma other_grades_after_upsert (db : database) (enr_id other : Z)
    (angka : float) :
  other <> enr_id ->
  nilai_by_enroll other (run_statements [upsert_nilai db enr_id angka] db)
  = nilai_by_enroll other db.
Proof.
  intros Hne. unfold upsert_nilai.
  destruct (nilai_by_enroll enr_id db) as [| n rows] eqn:E;
    unfold nilai_by_enroll in *; simpl.
  - rewrite filter_app. simpl.
    destruct (Z.eqb_spec enr_id other); [congruence |]. apply app_nil_r.
  - now apply filter_update_other.
Qed.

Lemma upsert_keeps_ownership (db : database) (enr_id x : Z) (angka : float) :
  enroll_join_kelas x (run_statements [upsert_nilai db enr_id angka] db)
  = enroll_join_kelas x db.
Proof.
  unfold upsert_nilai. destruct (nilai_by_enroll enr_id db); reflexivity.
Qed.

Section Grades.
  Context {RT : Runtime}.

Lemma dosen_set_nilai_denied (w : world) (uid enr_id : Z) (request : Request) :
  user_id (session w) = Some uid ->
  role (session w) = Some "dosen" ->
  faults w = [] ->
  (forall row, hd_error (enroll_join_kelas enr_id (file w)) <> Some (row, uid)) ->
  dispatch_request (dosen_set_nilai enr_id request) w =
    (Redirect ep_dosen_dashboard,
     {| file := file w; g_database := None; session := session w;
        flashes := flashes w ++ ["Akses ditolak"]; faults := [];
        journal := journal w |}).
Proof.
  intros Hu Hr Hf Hq. unfold dispatch_request, dosen_set_nilai.
  rewrite login_required_passes by (split; simpl; congruence).
  unfold bind at 1.
  rewrite query_db_one_goes_through by (simpl; auto).
  cbn [file with_g].
  destruct (hd_error (enroll_join_kelas enr_id (file w))) as [[row d] |] eqn:E.
  - unfold bind at 1, session_user_id. cbn [session with_g]. rewrite Hu.
    destruct (Z.eqb_spec d uid) as [-> | Hd].
    + exfalso. now apply (Hq row).
    + reflexivity.
  - reflexivity.
Qed.

Lemma dosen_set_nilai_saved (w : world) (uid enr_id : Z) (request : Request)
    (row : enroll_row) (angka : float) :
  user_id (session w) = Some uid ->
  role (session w) = Some "dosen" ->
  faults w = [] ->
  hd_error (enroll_join_kelas enr_id (file w)) = Some (row, uid) ->
  submitted_grade request = Some angka ->
  dispatch_request (dosen_set_nilai enr_id request) w =
    (Redirect (ep_dosen_view_kelas (enroll_kelas_id row)),
     {| file := run_statements [upsert_nilai (file w) enr_id angka] (file w);
        g_database := None; session := session w;
        flashes := flashes w ++ ["Nilai tersimpan"]; faults := [];
        journal := journal w ++ [upsert_nilai (file w) enr_id angka] |}).
Proof.
  intros Hu Hr Hf Hq Hg. unfold dispatch_request, dosen_set_nilai.
  rewrite login_required_passes by (split; simpl; congruence).
  unfold bind at 1.
  rewrite query_db_one_goes_through by (simpl; auto).
  cbn [file with_g]. rewrite Hq.
  unfold bind at 1, session_user_id. cbn [session with_g]. rewrite Hu.
  rewrite Z.eqb_refl. cbn [negb].
  unfold submitted_grade in Hg.
  destruct (method request); [discriminate |].
  unfold bind at 1, request_form.
  destruct (form_field request "nilai") as [s |]; [| discriminate].
  unfold ret at 1. cbv beta iota.
  unfold bind at 1, float_. rewrite Hg. unfold ret at 1. cbv beta iota.
  unfold bind at 1.
  rewrite query_db_one_goes_through by (simpl; auto).
  cbn [file]. unfold upsert_nilai, nilai_by_enroll.
  destruct (filter (fun n => nilai_enroll_id n =? enr_id) (nilai (file w)));
    cbn [hd_error]; unfold bind at 1;
    (erewrite execute_db_goes_through; [| simpl; auto | reflexivity | reflexivity ]);
    reflexivity.
Qed.

Lemma dosen_set_nilai_malformed (w : world) (uid enr_id : Z)
    (request : Request) (row : enroll_row) :
  user_id (session w) = Some uid ->
  role (session w) = Some "dosen" ->
  faults w = [] ->
  hd_error (enroll_join_kelas enr_id (file w)) = Some (row, uid) ->
  malformed_grade request ->
  dispatch_request (dosen_set_nilai enr_id request) w =
    (InternalServerError ValueError,
     {| file := file w; g_database := None; session := session w;
        flashes := flashes w; faults := []; journal := journal w |}).
Proof.
  intros Hu Hr Hf Hq (Hm & s & Hs & Hbad). unfold dispatch_request, dosen_set_nilai.
  rewrite login_required_passes by (split; simpl; congruence).
  unfold bind at 1.
  rewrite query_db_one_goes_through by (simpl; auto).
  cbn [file with_g]. rewrite Hq.
  unfold bind at 1, session_user_id. cbn [session with_g]. rewrite Hu.
  rewrite Z.eqb_refl. cbn [negb]. rewrite Hm.
  unfold bind at 1, request_form. rewrite Hs.
  unfold ret at 1. cbv beta iota.
  unfold bind at 1, float_. rewrite Hbad. reflexivity.
Qed.

(** A GET by the owner shows the form and writes nothing. *)
Lemma dosen_set_nilai_form (w : world) (uid enr_id : Z) (request : Request)
    (row : enroll_row) :
  user_id (session w) = Some uid ->
  role (session w) = Some "dosen" ->
  faults w = [] ->
  hd_error (enroll_join_kelas enr_id (file w)) = Some (row, uid) ->
  method request = GET ->
  dispatch_request (dosen_set_nilai enr_id request) w =
    (Rendered page_set_nilai (flashes w),
     {| file := file w; g_database := None; session := session w;
        flashes := []; faults := []; journal := journal w |}).
Proof.
  intros Hu Hr Hf Hq Hm. unfold dispatch_request, dosen_set_nilai.
  rewrite login_required_passes by (split; simpl; congruence).
  unfold bind at 1.
  rewrite query_db_one_goes_through by (simpl; auto).
  cbn [file with_g]. rewrite Hq.
  unfold bind at 1, session_user_id. cbn [session with_g]. rewrite Hu.
  rewrite Z.eqb_refl. cbn [negb]. rewrite Hm. reflexivity.
Qed.



(** C2: the grade write is an upsert.  For the lecturer who owns the
    enrollment, an engine that runs every statement and grades that SQLite
    stores as they are: a set-grade request changes the score of the
    enrollment's grade rows in place when there is one, and appends one
    new row under a fresh id when there is none; it keeps "at most one
    grade row per enrollment"; hence, from a state with at most one grade
    row for the enrollment, any number of set-grade requests leave exactly
    one, holding the last value submitted. *)
Theorem nilai_upsert (w : world) (uid enr_id : Z) :
  user_id (session w) = Some uid ->
  role (session w) = Some "dosen" ->
  primary_keys (file w) ->
  faults w = [] ->
  owns (file w) uid enr_id ->
  (forall request angka,
      submitted_grade request = Some angka ->
      sqlite_real angka ->
      let db := file w in
      let db' := file (snd (dispatch_request (dosen_set_nilai enr_id request) w)) in
      (nilai_by_enroll enr_id db <> [] ->
       nilai db' =
         map (fun n => if nilai_enroll_id n =? enr_id
                       then {| nilai_id := nilai_id n;
                               nilai_enroll_id := nilai_enroll_id n;
                               nilai_angka := angka |}
                       else n) (nilai db))
      /\ (nilai_by_enroll enr_id db = [] ->
          exists id,
            nilai db' =
              nilai db ++ [ {| nilai_id := id; nilai_enroll_id := enr_id;
                               nilai_angka := angka |} ]
            /\ forall n, In n (nilai db) -> nilai_id n < id)
      /\ (one_grade_per_enroll db -> one_grade_per_enroll db'))
  /\ (forall requests last_request angka,
        Forall (fun r => exists a, submitted_grade r = Some a
                                   /\ sqlite_real a) requests ->
        submitted_grade last_request = Some angka ->
        sqlite_real angka ->
        (List.length (nilai_by_enroll enr_id (file w)) <= 1)%nat ->
        let w' := run_requests (dosen_set_nilai enr_id)
                    (requests ++ [last_request]) w in
        exists n,
          nilai_by_enroll enr_id (file w') = [n] /\ nilai_angka n = angka).
Proof.
  intros Hu Hr Hpk Hf Ho.
  apply owns_query in Ho as (row & Hq); [| assumption].
  split.
  - intros request angka Hg _ db db'. subst db db'.
    rewrite (dosen_set_nilai_saved w uid enr_id request row angka) by auto.
    cbn [snd file]. split; [| split].
    + intros Hne. unfold upsert_nilai.
      destruct (nilai_by_enroll enr_id (file w)); [congruence | reflexivity].
    + intros He. unfold upsert_nilai. rewrite He. eexists.
      split; [reflexivity |]. intros n. apply next_rowid_fresh.
    + intros Hone other.
      destruct (Z.eq_dec other enr_id) as [-> | Hne].
      * rewrite grades_after_upsert. specialize (Hone enr_id).
        destruct (nilai_by_enroll enr_id (file w)); simpl;
          [lia | now rewrite length_map].
      * rewrite other_grades_after_upsert by assumption. apply Hone.
  - intros requests last_request angka Hall Hlast _ Hcount w'. subst w'.
    unfold run_requests. rewrite fold_left_app. simpl.
    fold (run_requests (dosen_set_nilai enr_id) requests w).
    assert (Hinv :
              let w1 := run_requests (dosen_set_nilai enr_id) requests w in
              user_id (session w1) = Some uid
              /\ role (session w1) = Some "dosen"
              /\ faults w1 = []
              /\ hd_error (enroll_join_kelas enr_id (file w1)) = Some (row, uid)
              /\ (List.length (nilai_by_enroll enr_id (file w1)) <= 1)%nat).
    { clear Hlast Hpk. revert w Hu Hr Hf Hq Hcount.
      induction Hall as [| request requests Hreq _ IH]; intros w Hu Hr Hf Hq Hc.
      - simpl. auto.
      - destruct Hreq as (a & Hg & _).
        simpl. apply IH;
          rewrite (dosen_set_nilai_saved w uid enr_id request row a) by auto;
          cbn [snd file session faults]; auto.
        + now rewrite upsert_keeps_ownership.
        + rewrite grades_after_upsert.
          destruct (nilai_by_enroll enr_id (file w)); simpl;
            [lia | now rewrite length_map]. }
    destruct Hinv as (Hu1 & Hr1 & Hf1 & Hq1 & Hc1).
    rewrite (dosen_set_nilai_saved _ uid enr_id last_request row angka) by auto.
    cbn [snd file]. rewrite grades_after_upsert.
    destruct (nilai_by_enroll enr_id
                (file (run_requests (dosen_set_nilai enr_id) requests w)))
      as [| n0 [| n1 rest]]; simpl in *.
    + eexists. split; reflexivity.
    + eexists. split; reflexivity.
    + lia.
Qed.

(** C9, what the code does: a POST whose nilai field is not a number
    writes nothing; sent by the lecturer who owns the enrollment it ends in
    the ValueError of float(), which the view does not catch - a 500
    answer and no flashed message. *)
Theorem dosen_set_nilai_malformed_grade (w : world) (uid enr_id : Z)
    (request : Request) :
  user_id (session w) = Some uid ->
  role (session w) = Some "dosen" ->
  primary_keys (file w) ->
  faults w = [] ->
  malformed_grade request ->
  let r := dispatch_request (dosen_set_nilai enr_id request) w in
  file (snd r) = file w
  /\ journal (snd r) = journal w
  /\ (owns (file w) uid enr_id ->
      fst r = InternalServerError ValueError
      /\ flashes (snd r) = flashes w).
Proof.
  intros Hu Hr Hpk Hf Hbad r. subst r.
  destruct (hd_error (enroll_join_kelas enr_id (file w)))
    as [[row d] |] eqn:Hq.
  - destruct (Z.eq_dec d uid) as [-> | Hd].
    + rewrite (dosen_set_nilai_malformed w uid enr_id request row) by auto.
      repeat split.
    + rewrite (dosen_set_nilai_denied w uid enr_id request); auto.
      * split; [reflexivity |]. split; [reflexivity |]. intros Ho.
        apply owns_query in Ho as (row' & Hq'); congruence.
      * intros row'. congruence.
  - rewrite (dosen_set_nilai_denied w uid enr_id request); auto.
    + split; [reflexivity |]. split; [reflexivity |]. intros Ho.
      apply owns_query in Ho as (row' & Hq'); congruence.
    + intros row'. congruence.
Qed.
End Grades.

(** ** Enrolling *)

Section Enrolling.
  Context {RT : Runtime}.

Lemma enroll_mahasiswa_run (w : world) (kls_id mhs_id : Z) (request : Request)
    (s : string) :
  signed_in "admin" (session w) ->
  faults w = [] ->
  form_field request "mahasiswa_id" = Some s ->
  py_int s = Some mhs_id ->
  dispatch_request (enroll_mahasiswa kls_id request) w =
    (Redirect (ep_view_kelas kls_id),
     {| file := run_statements [INSERT_enroll mhs_id kls_id] (file w);
        g_database := None; session := session w;
        flashes := flashes w ++ ["Mahasiswa di-enroll ke kelas"];
        faults := [];
        journal := journal w ++ [INSERT_enroll mhs_id kls_id] |}).
Proof.
  intros Hs Hf Hfield Hint. unfold dispatch_request, enroll_mahasiswa.
  rewrite login_required_passes by exact Hs.
  unfold bind at 1, request_form. rewrite Hfield.
  unfold ret at 1. cbv beta iota.
  unfold bind at 1, int_. rewrite Hint. unfold ret at 1. cbv beta iota.
  unfold bind at 1.
  erewrite execute_db_goes_through; [| simpl; auto | exact Hf | reflexivity ].
  reflexivity.
Qed.

(** C10: enrolling never looks at the rows already there.  For an
    administrator, a POST whose mahasiswa_id reads as an integer, student
    and class ids that SQLite can bind and an engine that runs the
    statement, the enrollment table afterwards is the
    old one followed by one new row for that student and class, under an id
    larger than every id in the table; so when the student was already
    enrolled in the class, the old row is still there, the new row is
    another one, and the pair has one row more than before. *)
Theorem enroll_mahasiswa_always_inserts (w : world) (kls_id mhs_id : Z)
    (request : Request) (s : string) :
  signed_in "admin" (session w) ->
  faults w = [] ->
  method request = POST ->
  form_field request "mahasiswa_id" = Some s ->
  py_int s = Some mhs_id ->
  sqlite_integer mhs_id ->
  sqlite_integer kls_id ->
  let r := dispatch_request (enroll_mahasiswa kls_id request) w in
  let old := enroll (file w) in
  let row :=
    {| enroll_id := next_rowid enroll_id (seq_enroll (sequence (file w))) old;
       enroll_mahasiswa_id := mhs_id; enroll_kelas_id := kls_id |} in
  let same_pair e :=
    (enroll_mahasiswa_id e =? mhs_id) && (enroll_kelas_id e =? kls_id) in
  enroll (file (snd r)) = old ++ [row]
  /\ (forall e, In e old -> enroll_id e < enroll_id row)
  /\ (forall e, In e old -> same_pair e = true ->
                In e (enroll (file (snd r)))
                /\ In row (enroll (file (snd r)))
                /\ e <> row)
  /\ List.length (filter same_pair (enroll (file (snd r))))
     = S (List.length (filter same_pair old))
  /\ fst r = Redirect (ep_view_kelas kls_id)
  /\ flashes (snd r) = flashes w ++ ["Mahasiswa di-enroll ke kelas"].
Proof.
  intros Hs Hf _ Hfield Hint _ _ r old row same_pair. subst r.
  rewrite (enroll_mahasiswa_run w kls_id mhs_id request s) by assumption.
  cbn [fst snd file flashes].
  assert (Hnew : enroll (run_statements [INSERT_enroll mhs_id kls_id] (file w))
                 = old ++ [row]) by reflexivity.
  assert (Hfresh : forall e, In e old -> enroll_id e < enroll_id row).
  { intros e He. apply next_rowid_fresh. exact He. }
  rewrite Hnew. split; [reflexivity |]. split; [exact Hfresh |].
  split; [| split; [| split; reflexivity]].
  - intros e He _. split; [apply in_or_app; now left |].
    split; [apply in_or_app; right; now left |].
    intros ->. specialize (Hfresh row He). lia.
  - rewrite filter_app, length_app. subst same_pair. simpl.
    rewrite !Z.eqb_refl. simpl. lia.
Qed.
End Enrolling.

(** ** Primary keys are kept *)

Section Keys.
  Context {A : Type} (key : A -> Z).

Lemma keys_filter (p : A -> bool) (l : list A) :
  NoDup (map key l) -> NoDup (map key (filter p l)).
Proof.
  induction l as [| x l IH]; simpl; [auto |].
  intros Hnd. inversion Hnd as [| ? ? Hx Hl]; subst.
  destruct (p x); simpl; [| auto].
  constructor; [| auto].
  intros Hin. apply Hx. apply in_map_iff in Hin as (y & Hy & Hin).
  apply filter_In in Hin as [Hin _]. rewrite <- Hy. now apply in_map.
Qed.

Lemma keys_append (seq : Z) (l : list A) (x : A) :
  key x = next_rowid key seq l ->
  NoDup (map key l) -> NoDup (map key (l ++ [x])).
Proof.
  intros Hx Hnd. rewrite map_app. simpl.
  apply NoDup_app; [assumption | repeat constructor; auto |].
  intros k Hk [<- | []]. apply in_map_iff in Hk as (y & Hy & Hin).
  pose proof (next_rowid_fresh key seq l y Hin). lia.
Qed.

Lemma has_rowid_In (id : Z) (l : list A) :
  has_rowid key id l = false -> ~ In id (map key l).
Proof.
  unfold has_rowid. intros H Hin.
  apply in_map_iff in Hin as (y & Hy & Hin).
  assert (existsb (fun r => key r =? id) l = true); [| congruence].
  apply existsb_exists. exists y. split; [assumption | now apply Z.eqb_eq].
Qed.

Lemma insert_row_In (r : A) (l : list A) (k : Z) :
  In k (map key (insert_row key r l)) <-> k = key r \/ In k (map key l).
Proof.
  induction l as [| x l IH]; simpl; [intuition |].
  destruct (key r <? key x); simpl; [intuition |].
  rewrite IH. intuition.
Qed.

Lemma keys_insert_row (r : A) (l : list A) :
  has_rowid key (key r) l = false ->
  NoDup (map key l) -> NoDup (map key (insert_row key r l)).
Proof.
  intros Hr Hnd. apply has_rowid_In in Hr.
  induction l as [| x l IH]; simpl.
  - repeat constructor. auto.
  - inversion Hnd as [| ? ? Hx Hl]; subst. simpl in Hr.
    destruct (key r <? key x); simpl.
    + constructor; [simpl; exact Hr | exact Hnd].
    + constructor; [| apply IH; auto].
      rewrite insert_row_In. intros [E | Hin]; [| contradiction].
      apply Hr. now left.
Qed.
End Keys.

Lemma exec_primary_keys (s : statement) (db db' : database) lastrowid :
  primary_keys db ->
  exec s db = inr (db', lastrowid) ->
  primary_keys db'.
Proof.
  intros (Hu & Hm & Hd & Hmk & Hk & Hj & He & Hn) H.
  destruct s; simpl in H.
  - destruct (existsb _ (users db)); [discriminate |].
    injection H as <- _. repeat split; simpl; auto.
    eapply keys_append; eauto. reflexivity.
  - destruct (has_rowid mahasiswa_id id (mahasiswa db)) eqn:E; [discriminate |].
    injection H as <- _. repeat split; simpl; auto.
    apply keys_insert_row; auto.
  - destruct (has_rowid dosen_id id (dosen db)) eqn:E; [discriminate |].
    injection H as <- _. repeat split; simpl; auto.
    apply keys_insert_row; auto.
  - injection H as <- _. repeat split; simpl; auto.
    eapply keys_append; eauto. reflexivity.
  - injection H as <- _. repeat split; simpl; auto.
    eapply keys_append; eauto. reflexivity.
  - injection H as <- _. repeat split; simpl; auto.
    eapply keys_append; eauto. reflexivity.
  - injection H as <- _. repeat split; simpl; auto.
    eapply keys_append; eauto. reflexivity.
  - injection H as <- _. repeat split; simpl; auto.
    eapply keys_append; eauto. reflexivity.
  - injection H as <- _. repeat split; simpl; auto.
    rewrite map_map. erewrite map_ext; [exact Hn |].
    intros n. now destruct (nilai_enroll_id n =? enr_id).
  - injection H as <- _. repeat split; simpl; auto. now apply keys_filter.
  - injection H as <- _. repeat split; simpl; auto. now apply keys_filter.
  - injection H as <- _. repeat split; simpl; auto. now apply keys_filter.
  - injection H as <- _. repeat split; simpl; auto. now apply keys_filter.
  - injection H as <- _. repeat split; simpl; auto. now apply keys_filter.
  - injection H as <- _. repeat split; simpl; auto. now apply keys_filter.
Qed.

Lemma run_statements_primary_keys (l : list statement) (db : database) :
  primary_keys db -> primary_keys (run_statements l db).
Proof.
  revert db. induction l as [| s l IH]; intros db Hpk; simpl; [assumption |].
  apply IH. destruct (exec s db) as [e | [db' r]] eqn:E; [assumption |].
  eapply exec_primary_keys; eauto.
Qed.

(** ** At most one grade row per enrollment is kept

    Of the statements the program sends, only an INSERT INTO nilai can add
    a grade row to an enrollment, and [dosen_set_nilai] sends it only when
    the enrollment has none ([nilai_upsert] below covers that view). *)

Lemma filter_filter_length {A} (p q : A -> bool) (l : list A) :
  (List.length (filter p (filter q l)) <= List.length (filter p l))%nat.
Proof.
  induction l as [| x l IH]; simpl; [lia |].
  destruct (q x); simpl; destruct (p x); simpl; lia.
Qed.

Lemma exec_one_grade_per_enroll (s : statement) (db db' : database) lastrowid :
  one_grade_per_enroll db ->
  exec s db = inr (db', lastrowid) ->
  (forall enr_id angka, s <> INSERT_nilai enr_id angka) ->
  one_grade_per_enroll db'.
Proof.
  intros Hone H Hs other. specialize (Hone other).
  unfold nilai_by_enroll in *.
  destruct s; simpl in H;
    try (injection H as <- _; simpl;
         first [ exact Hone
               | eapply Nat.le_trans; [apply filter_filter_length | exact Hone] ]).
  - destruct (existsb _ (users db)); [discriminate |].
    injection H as <- _. exact Hone.
  - destruct (has_rowid mahasiswa_id id (mahasiswa db)); [discriminate |].
    injection H as <- _. exact Hone.
  - destruct (has_rowid dosen_id id (dosen db)); [discriminate |].
    injection H as <- _. exact Hone.
  - exfalso. now apply (Hs enr_id angka).
  - injection H as <- _. simpl.
    destruct (Z.eq_dec other enr_id) as [-> | Hne].
    + now rewrite filter_update_same, length_map.
    + now rewrite filter_update_other.
Qed.

Lemma run_statements_one_grade_per_enroll (l : list statement) (db : database) :
  Forall (fun s => forall enr_id angka, s <> INSERT_nilai enr_id angka) l ->
  one_grade_per_enroll db ->
  one_grade_per_enroll (run_statements l db).
Proof.
  intros Hl. revert db. induction Hl as [| s l Hs _ IH]; intros db Hone;
    simpl; [assumption |].
  apply IH. destruct (exec s db) as [e | [db' r]] eqn:E; [assumption |].
  eapply exec_one_grade_per_enroll; eauto.
Qed.

(** The database [init_db] creates has primary keys and at most one grade
    row per enrollment. *)
Lemma init_db_invariants {RT : Runtime} (db : database) :
  init_db None = inr (Some db) ->
  primary_keys db /\ one_grade_per_enroll db.
Proof.
  intros H. remember (init_db None) as r eqn:E. vm_compute in E. subst r.
  injection H as <-. split.
  - unfold primary_keys. cbn.
    repeat split; repeat constructor; simpl; intuition discriminate.
  - intros enr_id. unfold nilai_by_enroll. cbn [nilai filter nilai_enroll_id].
    destruct (1 =? enr_id); simpl; lia.
Qed.

(** ** The seeded database *)

Lemma seeded_database_is_init_db : init_db None = inr (Some seeded_database).
Proof. vm_compute. reflexivity. Qed.

Lemma seeded_database_primary_keys : primary_keys seeded_database.
Proof.
  unfold primary_keys. vm_compute.
  repeat split; repeat constructor; simpl; intuition discriminate.
Qed.

Lemma dosen1_owns_enrollment_1 : owns seeded_database 2 1.
Proof.
  unfold owns. vm_compute.
  do 2 eexists. repeat split; try (left; reflexivity); reflexivity.
Qed.

Lemma signed_in_admin : signed_in "admin" session_admin.
Proof. split; [discriminate | reflexivity]. Qed.

Lemma sqlite_integer_small (n : Z) : 0 <= n < 1000 -> sqlite_integer n.
Proof.
  intros H. unfold sqlite_integer. change (2 ^ 63) with 9223372036854775808.
  lia.
Qed.


(** C2 on the seeded database: dosen1 posts 70, then 90, on enrollment 1;
    one grade row is left, holding 90. *)
Lemma nilai_upsert_witness :
  exists n,
    nilai_by_enroll 1
      (file (run_requests (dosen_set_nilai 1)
               ([post_form [("nilai", "70")]] ++ [post_form [("nilai", "90")]])
               world_dosen1))
    = [n]
    /\ nilai_angka n = 90%float.
Proof.
  destruct (nilai_upsert world_dosen1 2 1
              eq_refl eq_refl seeded_database_primary_keys eq_refl
              dosen1_owns_enrollment_1)
    as [_ H].
  apply (H [post_form [("nilai", "70")]] (post_form [("nilai", "90")])).
  - repeat constructor. exists 70%float. split; [reflexivity | exact I].
  - reflexivity.
  - exact I.
  - vm_compute. lia.
Defined.

(** C3 on the seeded database: deleting mahasiswa1 (id 3) leaves no grade,
    no enrollment, no profile, the accounts of admin and dosen1, and the
    class. *)
Lemma delete_mahasiswa_removes_exactly_witness :
  nilai (file (snd after_delete_mahasiswa_3)) = []
  /\ enroll (file (snd after_delete_mahasiswa_3)) = []
  /\ mahasiswa (file (snd after_delete_mahasiswa_3)) = []
  /\ map users_username (users (file (snd after_delete_mahasiswa_3)))
     = ["admin"; "dosen1"]
  /\ kelas (file (snd after_delete_mahasiswa_3)) = kelas seeded_database
  /\ mata_kuliah (file (snd after_delete_mahasiswa_3))
     = mata_kuliah seeded_database.
Proof.
  destruct (delete_mahasiswa_removes_exactly 3 world_admin
              signed_in_admin eq_refl
              (sqlite_integer_small 3 ltac:(lia)))
    as (_ & Hn & He & Hm & Hu & _ & Hmk & Hk & _).
  unfold after_delete_mahasiswa_3. rewrite Hn, He, Hm, Hu, Hmk, Hk.
  repeat split.
Defined.

(** C4 on the seeded database: the engine raises at the second delete of
    the student cascade; the grade is gone, the enrollment, the profile and
    the account are still there. *)
Lemma cascades_commit_each_statement_witness :
  file (snd after_interrupted_delete_3)
  = run_statements [DELETE_nilai_of_mahasiswa 3] seeded_database
  /\ journal (snd after_interrupted_delete_3) = [DELETE_nilai_of_mahasiswa 3]
  /\ flashes (snd after_interrupted_delete_3)
     = ["Gagal hapus: database is locked"]
  /\ fst after_interrupted_delete_3 = Redirect ep_manage_mahasiswa.
Proof.
  destruct (cascades_commit_each_statement world_admin_locked signed_in_admin)
    as (_ & _ & H & _).
  exact (H 3 1%nat "database is locked" []
           (sqlite_integer_small 3 ltac:(lia)) ltac:(lia) eq_refl).
Defined.

(** C4 as stated fails: with the engine raising at the second statement,
    the file after deleting student 3 is neither the old file nor the file
    without the student - the grade is deleted, the enrollment is not; the
    same for unenrolling enrollment 1. *)
Lemma cascade_left_half_done :
  ~ all_or_nothing (cascade_delete_mahasiswa 3) seeded_database
      (file (snd after_interrupted_delete_3))
  /\ ~ all_or_nothing (cascade_unenroll 1) seeded_database
        (file (snd after_interrupted_unenroll_1)).
Proof.
  split; intros [H | H].
  - apply (f_equal nilai) in H. vm_compute in H. discriminate.
  - apply (f_equal enroll) in H. vm_compute in H. discriminate.
  - apply (f_equal nilai) in H. vm_compute in H. discriminate.
  - apply (f_equal enroll) in H. vm_compute in H. discriminate.
Qed.

(** C5 on the seeded database: unenrolling enrollment 1 leaves no grade
    and no enrollment, and the student's profile untouched. *)
Lemma unenroll_removes_exactly_witness :
  nilai (file (snd after_unenroll_1)) = []
  /\ enroll (file (snd after_unenroll_1)) = []
  /\ mahasiswa (file (snd after_unenroll_1)) = mahasiswa seeded_database.
Proof.
  destruct (unenroll_removes_exactly 1 1 world_admin signed_in_admin eq_refl
              (sqlite_integer_small 1 ltac:(lia)))
    as (_ & Hn & He & _ & _ & _ & Hm & _).
  unfold after_unenroll_1. rewrite Hn, He, Hm. repeat split.
Defined.

(** C6 on the seeded database: admin with a wrong password, and a
    username that does not exist. *)
Lemma login_failures_alike_witness :
  dispatch_request
    (login (post_form [("username", "admin"); ("password", "salah")]))
    world_anonymous
  = dispatch_request
      (login (post_form [("username", "tidakada"); ("password", "admin123")]))
      world_anonymous.
Proof.
  refine (proj1 (login_failures_alike world_anonymous
                   (post_form [("username", "admin"); ("password", "salah")])
                   (post_form [("username", "tidakada");
                               ("password", "admin123")])
                   "admin" "salah" "tidakada" "admin123"
                   {| users_id := 1; users_username := "admin";
                      users_password_hash := "plain$admin123";
                      users_role := "admin";
                      users_full_name := "Administrator" |}
                   eq_refl eq_refl eq_refl eq_refl eq_refl eq_refl
                   eq_refl eq_refl eq_refl)).
Defined.

(** C7 on the seeded database, for a view that requires the admin role:
    nobody signed in, dosen1 signed in; and dosen1 on a view that requires
    no role. *)
Lemma login_required_guard_witness :
  login_required (Some "admin") (redirect ep_manage_mahasiswa) world_anonymous
  = (inr (Redirect ep_login), world_anonymous)
  /\ login_required (Some "admin") (redirect ep_manage_mahasiswa) world_dosen1
     = (inr (Redirect ep_index),
        with_flashes ["Akses ditolak: hak akses diperlukan: admin"]
          world_dosen1)
  /\ login_required None (redirect ep_manage_mahasiswa) world_dosen1
     = (inr (Redirect ep_manage_mahasiswa), world_dosen1).
Proof.
  assert (Hr : "admin" <> "") by discriminate.
  split; [| split].
  - apply (login_required_guard "admin" (redirect ep_manage_mahasiswa)
             world_anonymous Hr). reflexivity.
  - apply (login_required_guard "admin" (redirect ep_manage_mahasiswa)
             world_dosen1 Hr); discriminate.
  - apply (login_required_guard "admin" (redirect ep_manage_mahasiswa)
             world_dosen1 Hr). discriminate.
Defined.

(** C8 as stated fails: the seeded accounts are not admin, instructor1 and
    student1; no row of users has the username instructor1. *)
Lemma init_db_has_no_instructor1 :
  ~ (exists db,
        init_db None = inr (Some db)
        /\ has_accounts [ ("admin", "admin123");
                          ("instructor1", "instructor123");
                          ("student1", "student123") ] db)
  /\ users_by_username "instructor1" seeded_database = [].
Proof.
  split; [| reflexivity].
  intros (db & H & Hu & _). vm_compute in H. injection H as <-.
  vm_compute in Hu. discriminate.
Qed.

(** C9 on the seeded database: dosen1 posts "abc" as the grade of
    enrollment 1; the request ends in a 500 answer carrying ValueError,
    nothing is flashed, nothing is written. *)
Lemma dosen_set_nilai_malformed_grade_witness :
  file (snd after_grade_abc) = seeded_database
  /\ journal (snd after_grade_abc) = []
  /\ fst after_grade_abc = InternalServerError ValueError
  /\ flashes (snd after_grade_abc) = [].
Proof.
  assert (Hbad : malformed_grade (post_form [("nilai", "abc")])).
  { split; [reflexivity |]. exists "abc". split; reflexivity. }
  destruct (dosen_set_nilai_malformed_grade world_dosen1 2 1
              (post_form [("nilai", "abc")])
              eq_refl eq_refl seeded_database_primary_keys eq_refl Hbad)
    as (Hf & Hj & H).
  destruct (H dosen1_owns_enrollment_1) as [Hr Hfl].
  unfold after_grade_abc. rewrite Hf, Hj, Hr, Hfl. repeat split.
Defined.

(** C10 on the seeded database: mahasiswa1 is enrolled in class 1 once
    more; the table then has two rows for that pair, ids 1 and 2. *)
Lemma enroll_mahasiswa_always_inserts_witness :
  enroll (file (snd (dispatch_request
                       (enroll_mahasiswa 1
                          (post_form [("mahasiswa_id", "3")]))
                       world_admin)))
  = [ {| enroll_id := 1; enroll_mahasiswa_id := 3; enroll_kelas_id := 1 |};
      {| enroll_id := 2; enroll_mahasiswa_id := 3; enroll_kelas_id := 1 |} ].
Proof.
  exact (proj1 (enroll_mahasiswa_always_inserts world_admin 1 3
                  (post_form [("mahasiswa_id", "3")]) "3"
                  signed_in_admin eq_refl eq_refl eq_refl eq_refl
                  (sqlite_integer_small 3 ltac:(lia))
                  (sqlite_integer_small 1 ltac:(lia)))).
Defined.

(** ** The rest of the site: the helpers agree with the ones above *)

Section Helpers.
  Context {RT : Runtime}.

Lemma login_required_as_same (required : option string) (f : M response)
    (w : world) :
  login_required_as (fun r => r) required f w = login_required required f w.
Proof.
  unfold login_required_as, login_required.
  destruct (user_id (session w)); [| reflexivity].
  destruct (truthy required && negb (eq_opt_string (role (session w)) required));
    reflexivity.
Qed.

Lemma dispatch_request_as_same (view : M response) (w : world) :
  dispatch_request_as (fun r => r) view w = dispatch_request view w.
Proof. reflexivity. Qed.

Lemma login_required_as_plain {R} (plain : response -> R)
    (required : option string) (f : M response) (w : world) :
  login_required_as plain required (map_M plain f) w
  = map_M plain (login_required required f) w.
Proof.
  unfold login_required_as, login_required, map_M, bind.
  destruct (user_id (session w)); [| reflexivity].
  destruct (truthy required && negb (eq_opt_string (role (session w)) required));
    reflexivity.
Qed.

Lemma dispatch_plain {R} (plain : response -> R) (view : M response)
    (w : world) :
  dispatch_request_as plain (map_M plain view) w
  = (plain (fst (dispatch_request view w)), snd (dispatch_request view w)).
Proof.
  unfold dispatch_request_as, dispatch_request, map_M, bind, ret.
  destruct (view (with_g None w)) as [[e | r] w']; [| reflexivity].
  destruct e; try reflexivity. destruct app_debug; reflexivity.
Qed.
End Helpers.

(** ** What a view keeps, whatever the engine does *)

Section Keeps.
  Context {RT : Runtime}.
  Variable I : database -> list statement -> Prop.

Lemma keeps_ret {A} (a : A) : keeps I (ret a).
Proof. intros w Hs Hi. split; assumption. Qed.

Lemma keeps_raise {A} (e : exn) : keeps I (@raise A e).
Proof. intros w Hs Hi. split; assumption. Qed.

Lemma keeps_bind {A B} (m : M A) (k : A -> M B) :
  keeps I m -> (forall a, keeps I (k a)) -> keeps I (bind m k).
Proof.
  intros Hm Hk w Hs Hi. unfold bind.
  destruct (Hm w Hs Hi) as [Hs' Hi'].
  destruct (m w) as [[e | a] w']; simpl in *; [split; assumption |].
  apply Hk; assumption.
Qed.

Lemma keeps_try_except {A} (body : M A) (handler : exn -> M A) :
  keeps I body -> (forall e, keeps I (handler e)) ->
  keeps I (try_except body handler).
Proof.
  intros Hm Hk w Hs Hi. unfold try_except.
  destruct (Hm w Hs Hi) as [Hs' Hi'].
  destruct (body w) as [[e | a] w']; simpl in *; [| split; assumption].
  apply Hk; assumption.
Qed.

Lemma keeps_map_M {A B} (f : A -> B) (m : M A) :
  keeps I m -> keeps I (map_M f m).
Proof. intros Hm. apply keeps_bind; [assumption | intros; apply keeps_ret]. Qed.

(** A step that touches the session and the flashed messages only. *)
Lemma keeps_cookie {A} (a : A) (s : world -> Session)
    (fl : world -> list string) :
  keeps I (fun w => (inr a, with_flashes (fl w) (with_session (s w) w))).
Proof. intros w Hs Hi. split; assumption. Qed.

Lemma keeps_flash (msg : string) : keeps I (flash msg).
Proof. intros w Hs Hi. split; assumption. Qed.

Lemma keeps_redirect (target : endpoint) : keeps I (redirect target).
Proof. apply keeps_ret. Qed.

Lemma keeps_redirect_to (target : site_endpoint) : keeps I (redirect_to target).
Proof. apply keeps_ret. Qed.

Lemma keeps_render_template_string (body : page) :
  keeps I (render_template_string body).
Proof. intros w Hs Hi. split; assumption. Qed.

Lemma keeps_render_site (body : site_page) : keeps I (render_site body).
Proof. intros w Hs Hi. split; assumption. Qed.

Lemma keeps_request_form (request : Request) (k : string) :
  keeps I (request_form request k).
Proof.
  unfold request_form. destruct (form_field request k);
    [apply keeps_ret | apply keeps_raise].
Qed.

Lemma keeps_int_ (s : string) : keeps I (int_ s).
Proof. unfold int_. destruct (py_int s); [apply keeps_ret | apply keeps_raise]. Qed.

Lemma keeps_float_ (s : string) : keeps I (float_ s).
Proof.
  unfold float_. destruct (py_float s); [apply keeps_ret | apply keeps_raise].
Qed.

Lemma keeps_int_or_0 (v : option string) : keeps I (int_or_0 v).
Proof.
  unfold int_or_0. destruct v as [s |]; [| apply keeps_ret].
  destruct (s =? "")%string; [apply keeps_ret | apply keeps_int_].
Qed.

Lemma keeps_session_user_id : keeps I session_user_id.
Proof.
  intros w Hs Hi. unfold session_user_id.
  destruct (user_id (session w)); split; assumption.
Qed.

Lemma keeps_get_db : keeps I get_db.
Proof.
  intros w Hs Hi. unfold get_db.
  destruct (g_database w) eqn:E; simpl; [split; assumption |].
  split; [right; reflexivity | assumption].
Qed.

Lemma keeps_engine : keeps I engine.
Proof.
  intros w Hs Hi. unfold engine.
  destruct (faults w) as [| [msg |] rest]; split; assumption.
Qed.

Lemma keeps_query_db {A} (q : database -> list A) : keeps I (query_db q).
Proof.
  unfold query_db. apply keeps_bind; [apply keeps_get_db | intros db].
  apply keeps_bind; [apply keeps_engine | intros; apply keeps_ret].
Qed.

Lemma keeps_query_db_one {A} (q : database -> list A) :
  keeps I (query_db_one q).
Proof.
  unfold query_db_one.
  apply keeps_bind; [apply keeps_query_db | intros; apply keeps_ret].
Qed.

Lemma keeps_query_mhs_opts : keeps I query_mhs_opts.
Proof.
  unfold query_mhs_opts. apply keeps_bind; [apply keeps_get_db | intros db].
  apply keeps_bind; [apply keeps_engine | intros; apply keeps_raise].
Qed.

(** The one step that writes: execute, then commit. *)
Lemma execute_db_keeps_at (s : statement) (w : world) :
  synced w ->
  I (file w) (journal w) ->
  (forall db' lastrowid,
      exec s (file w) = inr (db', lastrowid) -> I db' (journal w ++ [s])) ->
  synced (snd (execute_db s w))
  /\ I (file (snd (execute_db s w))) (journal (snd (execute_db s w))).
Proof.
  intros Hs Hi Hp. destruct w as [fi g se fl fa j].
  unfold synced in *. simpl in *.
  unfold execute_db, bind, get_db, connection_execute, bind, engine,
    connection_commit, raise, ret.
  destruct Hs as [-> | ->]; simpl;
    destruct fa as [| [msg |] rest]; simpl;
    try (split; [auto | assumption]);
    destruct (exec s fi) as [e | [db' r]] eqn:E; simpl;
    try (split; [auto | assumption]);
    (split; [auto | eapply Hp; eauto]).
Qed.

Lemma keeps_execute_db (s : statement) :
  preserved I s -> keeps I (execute_db s).
Proof.
  intros Hp w Hs Hi. apply execute_db_keeps_at; auto.
  intros db' r E. eapply Hp; eauto.
Qed.

(** A query, then a continuation that may rely on what the query saw. *)
Lemma keeps_query_then {A B} (q : database -> list A) (k : option A -> M B) :
  (forall w,
      synced w -> I (file w) (journal w) ->
      synced (snd (k (hd_error (q (file w))) w))
      /\ I (file (snd (k (hd_error (q (file w))) w)))
           (journal (snd (k (hd_error (q (file w))) w)))) ->
  keeps I (bind (query_db_one q) k).
Proof.
  intros Hk w Hs Hi. destruct w as [fi g se fl fa j].
  unfold synced in *. simpl in *.
  unfold bind, query_db_one, query_db, bind, get_db, engine, ret.
  destruct Hs as [-> | ->]; simpl;
    destruct fa as [| [msg |] rest]; simpl;
    try (split; [auto | assumption]).
  - apply (Hk {| file := fi; g_database := Some fi; session := se;
                 flashes := fl; faults := []; journal := j |}); simpl; auto.
  - apply (Hk {| file := fi; g_database := Some fi; session := se;
                 flashes := fl; faults := rest; journal := j |}); simpl; auto.
  - apply (Hk {| file := fi; g_database := Some fi; session := se;
                 flashes := fl; faults := []; journal := j |}); simpl; auto.
  - apply (Hk {| file := fi; g_database := Some fi; session := se;
                 flashes := fl; faults := rest; journal := j |}); simpl; auto.
Qed.

Lemma keeps_bind_at {A B} (m : M A) (k : A -> M B) (w : world) :
  synced (snd (m w)) /\ I (file (snd (m w))) (journal (snd (m w))) ->
  (forall a, keeps I (k a)) ->
  synced (snd (bind m k w))
  /\ I (file (snd (bind m k w))) (journal (snd (bind m k w))).
Proof.
  intros [Hs Hi] Hk. unfold bind.
  destruct (m w) as [[e | a] w']; simpl in *; [split; assumption |].
  apply Hk; assumption.
Qed.

(** A step that leaves file, connection and journal alone. *)
Lemma keeps_touch {A} (a : A) (F : world -> world) :
  (forall w, file (F w) = file w /\ g_database (F w) = g_database w
             /\ journal (F w) = journal w) ->
  keeps I (fun w => (inr a, F w)).
Proof.
  intros HF w Hs Hi. destruct (HF w) as (Hf & Hg & Hj). unfold synced in *.
  simpl. rewrite Hf, Hg, Hj. split; assumption.
Qed.

Lemma keeps_login_required (required : option string) (f : M response) :
  keeps I f -> keeps I (login_required required f).
Proof.
  intros Hf w Hs Hi. unfold login_required.
  destruct (user_id (session w)); [| split; assumption].
  destruct (truthy required && negb (eq_opt_string (role (session w)) required));
    [split; assumption | apply Hf; assumption].
Qed.

Lemma keeps_login_required_as {R} (plain : response -> R)
    (required : option string) (f : M R) :
  keeps I f -> keeps I (login_required_as plain required f).
Proof.
  intros Hf w Hs Hi. unfold login_required_as.
  destruct (user_id (session w)); [| split; assumption].
  destruct (truthy required && negb (eq_opt_string (role (session w)) required));
    [split; assumption | apply Hf; assumption].
Qed.

Ltac keeps_step :=
  first
    [ apply keeps_ret | apply keeps_raise | apply keeps_flash
    | apply keeps_redirect | apply keeps_redirect_to
    | apply keeps_render_template_string | apply keeps_render_site
    | apply keeps_request_form | apply keeps_int_ | apply keeps_float_
    | apply keeps_int_or_0 | apply keeps_session_user_id
    | apply keeps_query_db_one | apply keeps_query_db
    | apply keeps_query_mhs_opts
    | apply keeps_map_M | apply keeps_login_required
    | apply keeps_login_required_as
    | apply keeps_execute_db
    | apply keeps_touch; intros; repeat split; reflexivity
    | apply keeps_try_except; [| intros ?]
    | apply keeps_bind; [| intros ?]
    | match goal with
      | |- keeps _ (match ?x with _ => _ end) => destruct x
      | |- keeps _ (if ?b then _ else _) => destruct b
      end ].

Lemma keeps_login (request : Request) : keeps I (login request).
Proof. unfold login. repeat keeps_step. Qed.

Lemma keeps_logout : keeps I logout.
Proof. unfold logout. repeat keeps_step. Qed.

Lemma keeps_index : keeps I index.
Proof.
  intros w Hs Hi. unfold index.
  destruct (user_id (session w)); [| split; assumption].
  destruct (eq_opt_string (role (session w)) (Some "admin"));
    [split; assumption |].
  destruct (eq_opt_string (role (session w)) (Some "dosen")); split; assumption.
Qed.

Lemma keeps_query_count {A} (table : database -> list A) :
  keeps I (query_count table).
Proof. unfold query_count. repeat keeps_step. Qed.

Lemma keeps_admin_dashboard : keeps I admin_dashboard.
Proof.
  unfold admin_dashboard.
  repeat first [ apply keeps_query_count | keeps_step ].
Qed.

Lemma keeps_manage_mahasiswa : keeps I manage_mahasiswa.
Proof. unfold manage_mahasiswa. repeat keeps_step. Qed.

Lemma keeps_manage_dosen : keeps I manage_dosen.
Proof. unfold manage_dosen. repeat keeps_step. Qed.

Lemma keeps_manage_mata_kuliah : keeps I manage_mata_kuliah.
Proof. unfold manage_mata_kuliah. repeat keeps_step. Qed.

Lemma keeps_manage_kelas : keeps I manage_kelas.
Proof. unfold manage_kelas. repeat keeps_step. Qed.

Lemma keeps_view_kelas (kls_id : Z) : keeps I (view_kelas kls_id).
Proof. unfold view_kelas. repeat keeps_step. Qed.

Lemma keeps_dosen_dashboard : keeps I dosen_dashboard.
Proof. unfold dosen_dashboard. repeat keeps_step. Qed.

Lemma keeps_dosen_view_kelas (kls_id : Z) : keeps I (dosen_view_kelas kls_id).
Proof. unfold dosen_view_kelas. repeat keeps_step. Qed.

Lemma keeps_mhs_dashboard : keeps I mhs_dashboard.
Proof. unfold mhs_dashboard. repeat keeps_step. Qed.

Lemma keeps_delete_mahasiswa (mhs_id : Z) :
  (forall s, In s (cascade_delete_mahasiswa mhs_id) -> preserved I s) ->
  keeps I (delete_mahasiswa mhs_id).
Proof.
  intros Hp. unfold delete_mahasiswa.
  repeat keeps_step; apply Hp; simpl; auto.
Qed.

Lemma keeps_unenroll (kls_id enr_id : Z) :
  (forall s, In s (cascade_unenroll enr_id) -> preserved I s) ->
  keeps I (unenroll kls_id enr_id).
Proof.
  intros Hp. unfold unenroll. repeat keeps_step; apply Hp; simpl; auto.
Qed.

Lemma keeps_enroll_mahasiswa (kls_id : Z) (request : Request) :
  (forall mhs_id, preserved I (INSERT_enroll mhs_id kls_id)) ->
  keeps I (enroll_mahasiswa kls_id request).
Proof. intros Hp. unfold enroll_mahasiswa. repeat keeps_step. apply Hp. Qed.

Lemma keeps_add_mahasiswa (request : Request) :
  (forall u p f, preserved I (INSERT_users u p "mahasiswa" f)) ->
  (forall id n a p, preserved I (INSERT_mahasiswa id n a p)) ->
  keeps I (add_mahasiswa request).
Proof.
  intros Hu Hm. unfold add_mahasiswa. repeat keeps_step; auto.
Qed.

Lemma keeps_add_dosen (request : Request) :
  (forall u p f, preserved I (INSERT_users u p "dosen" f)) ->
  (forall id n, preserved I (INSERT_dosen id n)) ->
  keeps I (add_dosen request).
Proof.
  intros Hu Hm. unfold add_dosen. repeat keeps_step; auto.
Qed.

Lemma keeps_add_mata_kuliah (request : Request) :
  (forall k n s, preserved I (INSERT_mata_kuliah k n s)) ->
  keeps I (add_mata_kuliah request).
Proof. intros Hp. unfold add_mata_kuliah. repeat keeps_step; auto. Qed.

Lemma keeps_add_kelas (request : Request) :
  (forall n m d, preserved I (INSERT_kelas n m d)) ->
  keeps I (add_kelas request).
Proof. intros Hp. unfold add_kelas. repeat keeps_step; auto. Qed.

Lemma keeps_manage_jadwal (request : Request) :
  (forall k h j, preserved I (INSERT_jadwal k h j)) ->
  keeps I (manage_jadwal request).
Proof. intros Hp. unfold manage_jadwal. repeat keeps_step; auto. Qed.

(** The grade write: the INSERT is sent only when the query found no grade
    row of the enrollment. *)
Lemma keeps_dosen_set_nilai (enr_id : Z) (request : Request) :
  (forall angka, preserved I (UPDATE_nilai angka enr_id)) ->
  (forall angka db j db' lastrowid,
      I db j -> nilai_by_enroll enr_id db = [] ->
      exec (INSERT_nilai enr_id angka) db = inr (db', lastrowid) ->
      I db' (j ++ [INSERT_nilai enr_id angka])) ->
  keeps I (dosen_set_nilai enr_id request).
Proof.
  intros Hu Hi. unfold dosen_set_nilai.
  apply keeps_login_required.
  apply keeps_bind; [apply keeps_query_db_one | intros e].
  destruct e as [[row dsn_id] |]; [| repeat keeps_step].
  apply keeps_bind; [apply keeps_session_user_id | intros uid].
  destruct (negb (dsn_id =? uid)); [repeat keeps_step |].
  destruct (method request); [repeat keeps_step |].
  apply keeps_bind; [apply keeps_request_form | intros s].
  apply keeps_bind; [apply keeps_float_ | intros angka].
  apply keeps_query_then. intros w Hs Hw.
  apply keeps_bind_at; [| intros x; repeat keeps_step].
  destruct (hd_error (nilai_by_enroll enr_id (file w))) as [n |] eqn:E.
  - apply execute_db_keeps_at; auto. intros db' r Hx. eapply Hu; eauto.
  - apply execute_db_keeps_at; auto. intros db' r Hx. eapply Hi; eauto.
    destruct (nilai_by_enroll enr_id (file w)); [reflexivity | discriminate].
Qed.

(** From the view to the request. *)
Lemma keeps_dispatch {R} (plain : response -> R) (view : M R) (w : world) :
  keeps I view ->
  I (file w) (journal w) ->
  I (file (snd (dispatch_request_as plain view w)))
    (journal (snd (dispatch_request_as plain view w))).
Proof.
  intros Hv Hi. unfold dispatch_request_as.
  destruct (Hv (with_g None w)) as [_ Hi']; [left; reflexivity | exact Hi |].
  destruct (view (with_g None w)) as [r w']. exact Hi'.
Qed.
End Keeps.

(** ** Every view of the site *)

Section Site.
  Context {RT : Runtime}.

Lemma keeps_view_function (I : database -> list statement -> Prop) (r : route) :
  (forall s, (forall enr_id angka, s <> INSERT_nilai enr_id angka) ->
             preserved I s) ->
  (forall enr_id angka db j db' lastrowid,
      I db j -> nilai_by_enroll enr_id db = [] ->
      exec (INSERT_nilai enr_id angka) db = inr (db', lastrowid) ->
      I db' (j ++ [INSERT_nilai enr_id angka])) ->
  keeps I (view_function r).
Proof.
  intros Hall Hins.
  assert (Hs : forall s, (forall e a, s <> INSERT_nilai e a) -> preserved I s)
    by exact Hall.
  destruct r; simpl.
  - apply keeps_index.
  - apply keeps_map_M, keeps_login.
  - apply keeps_map_M, keeps_logout.
  - apply keeps_admin_dashboard.
  - apply keeps_manage_mahasiswa.
  - apply keeps_add_mahasiswa; intros; apply Hs; discriminate.
  - apply keeps_map_M, keeps_delete_mahasiswa. intros s Hin. apply Hs.
    simpl in Hin. intuition (subst; discriminate).
  - apply keeps_add_dosen; intros; apply Hs; discriminate.
  - apply keeps_add_mata_kuliah; intros; apply Hs; discriminate.
  - apply keeps_add_kelas; intros; apply Hs; discriminate.
  - apply keeps_view_kelas.
  - apply keeps_map_M, keeps_enroll_mahasiswa; intros; apply Hs; discriminate.
  - apply keeps_map_M, keeps_unenroll. intros s Hin. apply Hs.
    simpl in Hin. intuition (subst; discriminate).
  - apply keeps_dosen_dashboard.
  - apply keeps_dosen_view_kelas.
  - apply keeps_map_M, keeps_dosen_set_nilai.
    + intros; apply Hs; discriminate.
    + intros. eapply Hins; eauto.
  - apply keeps_mhs_dashboard.
  - apply keeps_manage_dosen.
  - apply keeps_manage_mata_kuliah.
  - apply keeps_manage_kelas.
  - apply keeps_manage_jadwal; intros; apply Hs; discriminate.
Qed.

(** X1: whatever the session, the request and the engine do, a request
    leaves a database with primary keys a database with primary keys. *)
Theorem every_request_keeps_primary_keys (r : route) (w : world) :
  primary_keys (file w) ->
  primary_keys (file (snd (serve r w))).
Proof.
  intros Hpk. unfold serve.
  apply (keeps_dispatch (fun db _ => primary_keys db)); [| exact Hpk].
  apply keeps_view_function.
  - intros s _ db j db' r' Hi He. eapply exec_primary_keys; eauto.
  - intros e a db j db' r' Hi _ He. eapply exec_primary_keys; eauto.
Qed.

(** X2: whatever the session, the request and the engine do, a request
    leaves a database with at most one grade row per enrollment a database
    with at most one grade row per enrollment. *)
Theorem every_request_keeps_one_grade_per_enroll (r : route) (w : world) :
  one_grade_per_enroll (file w) ->
  one_grade_per_enroll (file (snd (serve r w))).
Proof.
  intros Hone. unfold serve.
  apply (keeps_dispatch (fun db _ => one_grade_per_enroll db)); [| exact Hone].
  apply keeps_view_function.
  - intros s Hs db j db' r' Hi He. eapply exec_one_grade_per_enroll; eauto.
  - intros e a db j db' r' Hi Hnone He other.
    assert (Hu : upsert_nilai db e a = INSERT_nilai e a)
      by (unfold upsert_nilai; now rewrite Hnone).
    assert (Hdb : db' = run_statements [upsert_nilai db e a] db)
      by (rewrite Hu; simpl; simpl in He; now injection He as <- _).
    subst db'. destruct (Z.eq_dec other e) as [-> | Hne].
    + rewrite grades_after_upsert, Hnone. simpl. lia.
    + rewrite other_grades_after_upsert by assumption. apply Hi.
Qed.

Lemma guard_table (r : route) (need : string) (w : world) :
  required_role r = Some need ->
  (user_id (session w) = None ->
     serve r w = (Plain (Redirect ep_login), with_g None w))
  /\ (user_id (session w) <> None ->
      role (session w) <> Some need ->
      serve r w =
        (Plain (Redirect ep_index),
         with_flashes
           (flashes w
              ++ [("Akses ditolak: hak akses diperlukan: " ++ need)%string])
           (with_g None w))).
Proof.
  intros Hneed. split.
  - intros Hu. unfold serve.
    destruct r; simpl in Hneed; try discriminate; simpl view_function;
      try rewrite dispatch_plain;
      unfold dispatch_request_as, dispatch_request, admin_dashboard,
        manage_mahasiswa, add_mahasiswa, delete_mahasiswa, add_dosen,
        add_mata_kuliah, add_kelas, view_kelas, enroll_mahasiswa, unenroll,
        dosen_dashboard, dosen_view_kelas, dosen_set_nilai, mhs_dashboard,
        manage_dosen, manage_mata_kuliah, manage_kelas, manage_jadwal,
        login_required_as, login_required;
      cbn [session with_g]; rewrite Hu; reflexivity.
  - intros Hu Hr. unfold serve.
    assert (He : eq_opt_string (role (session w)) (Some need) = false).
    { destruct (role (session w)) as [x |]; simpl; [| reflexivity].
      apply String.eqb_neq. congruence. }
    destruct (user_id (session w)) as [uid |] eqn:Eu; [| congruence].
    destruct r; simpl in Hneed; try discriminate;
      injection Hneed as <-; simpl view_function;
      try rewrite dispatch_plain;
      unfold dispatch_request_as, dispatch_request, admin_dashboard,
        manage_mahasiswa, add_mahasiswa, delete_mahasiswa, add_dosen,
        add_mata_kuliah, add_kelas, view_kelas, enroll_mahasiswa, unenroll,
        dosen_dashboard, dosen_view_kelas, dosen_set_nilai, mhs_dashboard,
        manage_dosen, manage_mata_kuliah, manage_kelas, manage_jadwal,
        login_required_as, login_required;
      cbn [session with_g]; rewrite Eu, He; reflexivity.
Qed.

Lemma refused_changes_nothing (r : route) (need : string) (w : world) :
  required_role r = Some need ->
  role (session w) <> Some need ->
  file (snd (serve r w)) = file w /\ journal (snd (serve r w)) = journal w.
Proof.
  intros Hneed Hr.
  destruct (guard_table r need w Hneed) as [H1 H2].
  destruct (user_id (session w)) eqn:Eu.
  - rewrite H2 by congruence. split; reflexivity.
  - rewrite H1 by reflexivity. split; reflexivity.
Qed.

(** The views that send no write statement. *)
Lemma reads_change_nothing (r : route) (w : world) :
  match r with
  | to_index | to_login _ | to_logout | to_admin_dashboard
  | to_manage_mahasiswa | to_view_kelas _
  | to_dosen_dashboard | to_dosen_view_kelas _ | to_mhs_dashboard
  | to_manage_dosen | to_manage_mata_kuliah | to_manage_kelas => True
  | _ => False
  end ->
  file (snd (serve r w)) = file w /\ journal (snd (serve r w)) = journal w.
Proof.
  intros Hr. unfold serve.
  apply (keeps_dispatch (fun db j => db = file w /\ j = journal w));
    [| split; reflexivity].
  destruct r; try contradiction; simpl.
  - apply keeps_index.
  - apply keeps_map_M, keeps_login.
  - apply keeps_map_M, keeps_logout.
  - apply keeps_admin_dashboard.
  - apply keeps_manage_mahasiswa.
  - apply keeps_view_kelas.
  - apply keeps_dosen_dashboard.
  - apply keeps_dosen_view_kelas.
  - apply keeps_mhs_dashboard.
  - apply keeps_manage_dosen.
  - apply keeps_manage_mata_kuliah.
  - apply keeps_manage_kelas.
Qed.

(** X3: only an administrator's or a lecturer's session writes.  A request
    under any other session - none, a student's, any other role - leaves
    the file as it was and sends no write statement, whatever the view,
    the form and the engine. *)
Theorem only_admin_and_dosen_write (r : route) (w : world) :
  role (session w) <> Some "admin" ->
  role (session w) <> Some "dosen" ->
  file (snd (serve r w)) = file w /\ journal (snd (serve r w)) = journal w.
Proof.
  intros Ha Hd.
  destruct r;
    first [ apply reads_change_nothing; exact I
          | eapply refused_changes_nothing; [reflexivity | assumption] ].
Qed.

Lemma exec_nilai_only (s : statement) (db db' : database) lastrowid :
  (exists angka enr_id, s = UPDATE_nilai angka enr_id)
  \/ (exists enr_id angka, s = INSERT_nilai enr_id angka) ->
  exec s db = inr (db', lastrowid) ->
  same_but_nilai db db'.
Proof.
  intros [(a & e & ->) | (e & a & ->)] H; simpl in H; injection H as <- _;
    repeat split.
Qed.

(** X4: a lecturer's session writes grades and nothing else.  Whatever the
    view, the form and the engine, a request under a session of role dosen
    leaves every table but nilai as it was. *)
Theorem dosen_writes_nilai_only (r : route) (w : world) :
  role (session w) = Some "dosen" ->
  same_but_nilai (file w) (file (snd (serve r w))).
Proof.
  intros Hd.
  assert (Hsame : forall db, db = file w -> same_but_nilai (file w) db)
    by (intros db ->; repeat split).
  destruct r;
    try (apply Hsame, reads_change_nothing; exact I);
    try (apply Hsame;
         eapply refused_changes_nothing; [reflexivity | rewrite Hd; discriminate]).
  unfold serve.
  apply (keeps_dispatch (fun db _ => same_but_nilai (file w) db));
    [| repeat split].
  simpl. apply keeps_map_M, keeps_dosen_set_nilai.
  - intros angka db j db' r Hi He.
    apply exec_nilai_only in He; [| left; eauto].
    destruct Hi as (?&?&?&?&?&?&?), He as (?&?&?&?&?&?&?).
    repeat split; congruence.
  - intros angka db j db' r Hi _ He.
    apply exec_nilai_only in He; [| right; eauto].
    destruct Hi as (?&?&?&?&?&?&?), He as (?&?&?&?&?&?&?).
    repeat split; congruence.
Qed.

Lemma exec_adds_no_grade (s : statement) (db db' : database) lastrowid :
  (forall enr_id angka, s <> INSERT_nilai enr_id angka) ->
  (forall angka enr_id, s <> UPDATE_nilai angka enr_id) ->
  exec s db = inr (db', lastrowid) ->
  incl (nilai db') (nilai db).
Proof.
  intros Hi Hu H.
  destruct s; simpl in H;
    try (injection H as <- _; simpl;
         first [ apply incl_refl | apply incl_filter ]).
  - destruct (existsb _ (users db)); [discriminate |].
    injection H as <- _. apply incl_refl.
  - destruct (has_rowid mahasiswa_id id (mahasiswa db)); [discriminate |].
    injection H as <- _. apply incl_refl.
  - destruct (has_rowid dosen_id id (dosen db)); [discriminate |].
    injection H as <- _. apply incl_refl.
  - exfalso. now apply (Hi enr_id angka).
  - exfalso. now apply (Hu angka enr_id).
Qed.

(** X5: an administrator's session never sets a grade.  Whatever the view,
    the form and the engine, every grade row in the file after a request
    under a session of role admin was there before, with the same score:
    the administrator's views delete grade rows, and that is all they do
    to them. *)
Theorem admin_sets_no_grade (r : route) (w : world) :
  role (session w) = Some "admin" ->
  forall n, In n (nilai (file (snd (serve r w)))) -> In n (nilai (file w)).
Proof.
  intros Ha.
  assert (Hsame : forall db, db = file w ->
                    forall n, In n (nilai db) -> In n (nilai (file w)))
    by (intros db ->; auto).
  assert (Hp : forall s,
             (forall e a, s <> INSERT_nilai e a) ->
             (forall a e, s <> UPDATE_nilai a e) ->
             preserved (fun db _ => incl (nilai db) (nilai (file w))) s).
  { intros s H1 H2 db j db' r' Hi He.
    eapply incl_tran; [eapply exec_adds_no_grade; eauto | exact Hi]. }
  destruct r;
    try (apply Hsame, reads_change_nothing; exact I);
    try (apply Hsame;
         eapply refused_changes_nothing; [reflexivity | rewrite Ha; discriminate]);
    unfold serve;
    apply (keeps_dispatch (fun db _ => incl (nilai db) (nilai (file w))));
    try apply incl_refl; simpl.
  - apply keeps_add_mahasiswa; intros; apply Hp; discriminate.
  - apply keeps_map_M, keeps_delete_mahasiswa. intros s Hin.
    simpl in Hin. apply Hp; intuition (subst; discriminate).
  - apply keeps_add_dosen; intros; apply Hp; discriminate.
  - apply keeps_add_mata_kuliah; intros; apply Hp; discriminate.
  - apply keeps_add_kelas; intros; apply Hp; discriminate.
  - apply keeps_map_M, keeps_enroll_mahasiswa; intros; apply Hp; discriminate.
  - apply keeps_map_M, keeps_unenroll. intros s Hin.
    simpl in Hin. apply Hp; intuition (subst; discriminate).
  - apply keeps_manage_jadwal; intros; apply Hp; discriminate.
Qed.
End Site.

(** ** Signing in and out, and the way to the dashboards *)

Section Doors.
  Context {RT : Runtime}.

(** X6: the decorators.  Every view but index, login and logout asks for a
    role: without an identity the request ends in the redirect to login,
    with an identity of another role in the warning and the redirect to
    index; in both cases the view does not run and nothing else
    happens. *)
Theorem every_other_view_is_guarded (r : route) (need : string) (w : world) :
  required_role r = Some need ->
  (user_id (session w) = None ->
     serve r w = (Plain (Redirect ep_login), with_g None w))
  /\ (user_id (session w) <> None ->
      role (session w) <> Some need ->
      serve r w =
        (Plain (Redirect ep_index),
         with_flashes
           (flashes w
              ++ [("Akses ditolak: hak akses diperlukan: " ++ need)%string])
           (with_g None w))).
Proof. exact (guard_table r need w). Qed.

Lemma login_required_as_passes {R} (plain : response -> R) (r : string)
    (f : M R) (w : world) :
  signed_in r (session w) ->
  login_required_as plain (Some r) f w = f w.
Proof.
  intros [Hu Hr]. unfold login_required_as.
  destruct (user_id (session w)); [| congruence].
  rewrite Hr; simpl. rewrite String.eqb_refl, andb_false_r. reflexivity.
Qed.

Lemma login_succeeds (w : world) (request : Request)
    (username password : string) (u : users_row) :
  method request = POST ->
  form_field request "username" = Some username ->
  form_field request "password" = Some password ->
  hd_error (users_by_username username (file w)) = Some u ->
  check_password_hash (users_password_hash u) password = true ->
  faults w = [] ->
  dispatch_request (login request) w =
    (Redirect ep_index,
     {| file := file w; g_database := None;
        session := {| user_id := Some (users_id u);
                      role := Some (users_role u);
                      full_name := Some (users_full_name u) |};
        flashes := flashes w ++ ["Login berhasil"]; faults := [];
        journal := journal w |}).
Proof.
  intros Hm Hu Hp Hq Hc Hf. destruct w as [fi g se fl fa j]; simpl in *.
  subst fa.
  unfold dispatch_request, login, bind, request_form, query_db_one, query_db,
    bind, get_db, engine, ret; simpl.
  rewrite Hm, Hu; simpl. rewrite Hp; simpl. rewrite Hq, Hc. reflexivity.
Qed.

(** X7: a POST to login whose username names an account and whose password
    the account's digest verifies opens the session of exactly that
    account - its id, role and name - flashes "Login berhasil", redirects
    to index and writes nothing; the guard of a view that asks for the
    account's role then lets the session in. *)
Theorem login_opens_session (w : world) (request : Request)
    (username password : string) (u : users_row) :
  method request = POST ->
  form_field request "username" = Some username ->
  form_field request "password" = Some password ->
  hd_error (users_by_username username (file w)) = Some u ->
  check_password_hash (users_password_hash u) password = true ->
  faults w = [] ->
  let r := dispatch_request (login request) w in
  fst r = Redirect ep_index
  /\ session (snd r) =
       {| user_id := Some (users_id u); role := Some (users_role u);
          full_name := Some (users_full_name u) |}
  /\ flashes (snd r) = flashes w ++ ["Login berhasil"]
  /\ file (snd r) = file w
  /\ journal (snd r) = journal w
  /\ forall f, login_required (Some (users_role u)) f (snd r) = f (snd r).
Proof.
  intros Hm Hu Hp Hq Hc Hf r. subst r.
  rewrite (login_succeeds w request username password u) by assumption.
  cbn [fst snd session flashes file journal]. repeat split.
  intros f. unfold login_required. cbn [session user_id role].
  destruct (truthy (Some (users_role u))); [| reflexivity].
  simpl. now rewrite String.eqb_refl.
Qed.

(** X8: a POST to login that lacks the username or the password field
    ends in the KeyError of request.form[...] before anything else
    happens: no query is sent, and session, flashed messages and file stay
    as they were.  Flask answers 400 - or, in debug mode, as index.py run
    as a program starts it, 500. *)
Theorem login_without_a_field (w : world) (request : Request) :
  method request = POST ->
  form_field request "username" = None
  \/ form_field request "password" = None ->
  dispatch_request (login request) w
  = (if app_debug then InternalServerError BadRequestKeyError
     else BadRequest,
     with_g None w).
Proof.
  intros Hm Hmiss. destruct w as [fi g se fl fa j].
  unfold dispatch_request, login, bind, request_form. rewrite Hm.
  destruct (form_field request "username") as [u |];
    [| reflexivity].
  destruct Hmiss as [Hx | Hx]; [discriminate |]. rewrite Hx. reflexivity.
Qed.

(** X9: logout empties the session whatever it held, drops the messages
    that were waiting and leaves the one message "Anda telah logout";
    from then on every view that asks for a role answers with the redirect
    to login. *)
Theorem logout_closes_every_door (w : world) :
  let w' := snd (dispatch_request logout w) in
  fst (dispatch_request logout w) = Redirect ep_index
  /\ session w' = empty_session
  /\ flashes w' = ["Anda telah logout"]
  /\ file w' = file w
  /\ forall r need,
       required_role r = Some need ->
       fst (serve r w') = Plain (Redirect ep_login)
       /\ file (snd (serve r w')) = file w.
Proof.
  cbv zeta. repeat split.
  - destruct (guard_table r need (snd (dispatch_request logout w)) H)
      as [H1 _].
    now rewrite H1.
  - destruct (guard_table r need (snd (dispatch_request logout w)) H)
      as [H1 _].
    now rewrite H1.
Qed.

(** X10: index sends an administrator to the admin dashboard, a lecturer to
    the lecturer dashboard and every other session with an identity to the
    student dashboard, touching nothing; a session whose role is none of
    the three is refused there and sent back to index, one warning
    richer. *)
Theorem index_sorts_by_role (w : world) :
  user_id (session w) <> None ->
  snd (serve to_index w) = with_g None w
  /\ (role (session w) = Some "admin" ->
      fst (serve to_index w) = RedirectTo ep_admin_dashboard)
  /\ (role (session w) = Some "dosen" ->
      fst (serve to_index w) = Plain (Redirect ep_dosen_dashboard))
  /\ (role (session w) <> Some "admin" ->
      role (session w) <> Some "dosen" ->
      fst (serve to_index w) = RedirectTo ep_mhs_dashboard)
  /\ (role (session w) <> Some "admin" ->
      role (session w) <> Some "dosen" ->
      role (session w) <> Some "mahasiswa" ->
      serve to_mhs_dashboard w =
        (Plain (Redirect ep_index),
         with_flashes
           (flashes w ++ ["Akses ditolak: hak akses diperlukan: mahasiswa"])
           (with_g None w))).
Proof.
  intros Hu.
  assert (Hidx : forall x, role (session w) <> Some x ->
                   eq_opt_string (role (session w)) (Some x) = false).
  { intros x Hx. destruct (role (session w)) as [y |]; simpl; [| reflexivity].
    apply String.eqb_neq. congruence. }
  unfold serve, dispatch_request_as. simpl view_function. unfold index at 1 2 3 4.
  cbn [session with_g].
  destruct (user_id (session w)) eqn:Eu; [| congruence].
  split; [| split; [| split; [| split]]].
  - destruct (eq_opt_string (role (session w)) (Some "admin")); [reflexivity |].
    destruct (eq_opt_string (role (session w)) (Some "dosen")); reflexivity.
  - intros ->. reflexivity.
  - intros ->. reflexivity.
  - intros Ha Hd. now rewrite (Hidx "admin"), (Hidx "dosen").
  - intros Ha Hd Hm.
    destruct (guard_table to_mhs_dashboard "mahasiswa" w eq_refl) as [_ H].
    unfold serve, dispatch_request_as in H. apply H; congruence.
Qed.
End Doors.

(** ** Adding a student *)

Section AddMahasiswa.
  Context {RT : Runtime}.

Ltac read_field H :=
  unfold bind at 1, request_form; rewrite H; unfold ret at 1; cbv beta iota.

Lemma add_mahasiswa_run (w : world) (request : Request)
    (username full_name password nim alamat phone : string) :
  signed_in "admin" (session w) ->
  faults w = [] ->
  mahasiswa_form request username full_name password nim alamat phone ->
  existsb (fun u => (users_username u =? username)%string) (users (file w))
  = false ->
  has_rowid mahasiswa_id
    (next_rowid users_id (seq_users (sequence (file w))) (users (file w)))
    (mahasiswa (file w)) = false ->
  serve (to_add_mahasiswa request) w =
    (Plain (Redirect ep_manage_mahasiswa),
     {| file :=
          run_statements
            [ INSERT_users username (generate_password_hash password)
                "mahasiswa" full_name;
              INSERT_mahasiswa
                (next_rowid users_id (seq_users (sequence (file w)))
                   (users (file w)))
                nim alamat phone ] (file w);
        g_database := None; session := session w;
        flashes := flashes w ++ ["Mahasiswa ditambahkan"]; faults := [];
        journal :=
          journal w ++
            [ INSERT_users username (generate_password_hash password)
                "mahasiswa" full_name;
              INSERT_mahasiswa
                (next_rowid users_id (seq_users (sequence (file w)))
                   (users (file w)))
                nim alamat phone ] |}).
Proof.
  intros Hs Hf (Hm & H1 & H2 & H3 & H4 & H5 & H6) Hfresh Hfree.
  unfold serve, dispatch_request_as. simpl view_function. unfold add_mahasiswa.
  rewrite login_required_as_passes by exact Hs.
  unfold bind at 1. rewrite Hm.
  read_field H1. read_field H2. read_field H3. read_field H4. read_field H5.
  read_field H6. cbv zeta. unfold try_except.
  unfold bind at 1.
  erewrite execute_db_goes_through;
    [| simpl; auto | exact Hf | simpl; rewrite Hfresh; reflexivity ].
  unfold bind at 1.
  erewrite execute_db_goes_through;
    [| simpl; auto | reflexivity | simpl; rewrite Hfree; reflexivity ].
  simpl. rewrite Hfresh. simpl. rewrite Hfree. simpl.
  rewrite <- !app_assoc. reflexivity.
Qed.

Lemma add_mahasiswa_run_taken (w : world) (request : Request)
    (username full_name password nim alamat phone : string) :
  signed_in "admin" (session w) ->
  faults w = [] ->
  mahasiswa_form request username full_name password nim alamat phone ->
  existsb (fun u => (users_username u =? username)%string) (users (file w))
  = true ->
  serve (to_add_mahasiswa request) w =
    (Page page_add_mahasiswa
       (flashes w
          ++ ["Gagal menambah: UNIQUE constraint failed: users.username"]),
     {| file := file w; g_database := None; session := session w;
        flashes := []; faults := []; journal := journal w |}).
Proof.
  intros Hs Hf (Hm & H1 & H2 & H3 & H4 & H5 & H6) Htaken.
  unfold serve, dispatch_request_as. simpl view_function. unfold add_mahasiswa.
  rewrite login_required_as_passes by exact Hs.
  unfold bind at 1. rewrite Hm.
  read_field H1. read_field H2. read_field H3. read_field H4. read_field H5.
  read_field H6. cbv zeta. unfold try_except.
  unfold bind at 1.
  destruct w as [fi g se fl fa j]. simpl in *. subst fa.
  unfold execute_db, bind, get_db, connection_execute, bind, engine, raise.
  simpl. rewrite Htaken. destruct g; reflexivity.
Qed.

Lemma add_mahasiswa_run_interrupted (w : world) (request : Request)
    (username full_name password nim alamat phone msg : string)
    (rest : list (option string)) :
  signed_in "admin" (session w) ->
  faults w = None :: Some msg :: rest ->
  mahasiswa_form request username full_name password nim alamat phone ->
  existsb (fun u => (users_username u =? username)%string) (users (file w))
  = false ->
  serve (to_add_mahasiswa request) w =
    (Page page_add_mahasiswa
       (flashes w ++ [("Gagal menambah: " ++ msg)%string]),
     {| file :=
          run_statements
            [ INSERT_users username (generate_password_hash password)
                "mahasiswa" full_name ] (file w);
        g_database := None; session := session w;
        flashes := []; faults := rest;
        journal :=
          journal w ++
            [ INSERT_users username (generate_password_hash password)
                "mahasiswa" full_name ] |}).
Proof.
  intros Hs Hf (Hm & H1 & H2 & H3 & H4 & H5 & H6) Hfresh.
  unfold serve, dispatch_request_as. simpl view_function. unfold add_mahasiswa.
  rewrite login_required_as_passes by exact Hs.
  unfold bind at 1. rewrite Hm.
  read_field H1. read_field H2. read_field H3. read_field H4. read_field H5.
  read_field H6. cbv zeta. unfold try_except.
  unfold bind at 1.
  erewrite execute_db_spared;
    [| simpl; auto | exact Hf | simpl; rewrite Hfresh; reflexivity ].
  unfold bind at 1.
  erewrite execute_db_struck; [| simpl; auto | reflexivity ].
  simpl. rewrite Hfresh. reflexivity.
Qed.

Lemma existsb_false_filter {A} (p : A -> bool) (l : list A) :
  existsb p l = false -> filter p l = [].
Proof.
  induction l as [| x l IH]; simpl; [reflexivity |].
  destruct (p x); simpl; [discriminate | exact IH].
Qed.

Lemma insert_row_mem {A} (key : A -> Z) (r x : A) (l : list A) :
  In x (insert_row key r l) <-> x = r \/ In x l.
Proof.
  induction l as [| y l IH]; simpl; [intuition |].
  destruct (key r <? key y); simpl; [intuition |].
  rewrite IH. intuition.
Qed.

Lemma filter_insert_row_only {A} (key : A -> Z) (p : A -> bool) (r : A)
    (l : list A) :
  p r = true -> filter p l = [] -> filter p (insert_row key r l) = [r].
Proof.
  intros Hr. induction l as [| y l IH]; simpl; [now rewrite Hr |].
  destruct (p y) eqn:Ey; [discriminate |]. intros Hl.
  destruct (key r <? key y); simpl.
  - now rewrite Hr, Ey, Hl.
  - rewrite Ey. now apply IH.
Qed.

Lemma users_join_mahasiswa_In (db : database) (u : users_row)
    (m : mahasiswa_row) :
  In (u, m) (users_join_mahasiswa db) <->
  In u (users db) /\ In m (mahasiswa db) /\ users_id u = mahasiswa_id m.
Proof.
  unfold users_join_mahasiswa. rewrite in_flat_map. split.
  - intros (x & Hx & Hin). apply in_map_iff in Hin as (y & Hy & Hin).
    injection Hy as -> ->. apply filter_In in Hin as [Hin He].
    apply Z.eqb_eq in He. auto.
  - intros (Hu & Hm & He). exists u. split; [assumption |].
    apply in_map_iff. exists m. split; [reflexivity |].
    apply filter_In. split; [assumption | now apply Z.eqb_eq].
Qed.

(** X11: adding a student under a username nobody has: the account gets the
    next id, the role mahasiswa and the digest of the password (not the
    password); the profile gets the same id; both are committed, nothing
    else changes, and the student list shows the new student with the
    data of the form.  (Asked of the state: no profile row already carries
    the id the account will get.) *)
Theorem add_mahasiswa_makes_account_and_profile (w : world)
    (request : Request)
    (username full_name password nim alamat phone : string) :
  signed_in "admin" (session w) ->
  faults w = [] ->
  mahasiswa_form request username full_name password nim alamat phone ->
  existsb (fun u => (users_username u =? username)%string) (users (file w))
  = false ->
  has_rowid mahasiswa_id
    (next_rowid users_id (seq_users (sequence (file w))) (users (file w)))
    (mahasiswa (file w)) = false ->
  let r := serve (to_add_mahasiswa request) w in
  let db := file w in
  let db' := file (snd r) in
  fst r = Plain (Redirect ep_manage_mahasiswa)
  /\ users db' = users db ++ [new_account db username full_name password]
  /\ (forall u, In u (users db) ->
                users_id u
                < users_id (new_account db username full_name password))
  /\ (forall m, In m (mahasiswa db') <->
                m = new_profile db nim alamat phone \/ In m (mahasiswa db))
  /\ In {| ml_id := users_id (new_account db username full_name password);
           ml_username := username; ml_full_name := full_name;
           ml_nim := nim; ml_alamat := alamat; ml_phone := phone |}
        (mahasiswa_listings db')
  /\ dosen db' = dosen db /\ mata_kuliah db' = mata_kuliah db
  /\ kelas db' = kelas db /\ jadwal db' = jadwal db
  /\ enroll db' = enroll db /\ nilai db' = nilai db.
Proof.
  intros Hs Hf Hform Hfresh Hfree r db db'. subst r db db'.
  rewrite (add_mahasiswa_run w request username full_name password
             nim alamat phone) by assumption.
  cbn [fst snd file]. simpl run_statements.
  rewrite Hfresh. simpl. rewrite Hfree. simpl.
  split; [reflexivity |]. split; [reflexivity |].
  split; [intros u Hu; apply next_rowid_fresh; exact Hu |].
  split; [intros m; apply insert_row_mem |].
  split; [| repeat split].
  unfold mahasiswa_listings. apply in_map_iff.
  exists (new_account (file w) username full_name password,
          new_profile (file w) nim alamat phone).
  split; [reflexivity |]. apply users_join_mahasiswa_In. simpl.
  split; [apply in_or_app; right; left; reflexivity |].
  split; [apply insert_row_mem; left; reflexivity | reflexivity].
Qed.

(** X12: adding a student under a username some account already has -
    whatever that account's role - writes nothing: the UNIQUE constraint
    stops the first insert, the view catches the error, flashes
    "Gagal menambah: UNIQUE constraint failed: users.username" and shows
    the form again. *)
Theorem add_mahasiswa_refuses_a_taken_username (w : world)
    (request : Request)
    (username full_name password nim alamat phone : string) :
  signed_in "admin" (session w) ->
  faults w = [] ->
  mahasiswa_form request username full_name password nim alamat phone ->
  In username (map users_username (users (file w))) ->
  let r := serve (to_add_mahasiswa request) w in
  fst r =
    Page page_add_mahasiswa
      (flashes w
         ++ ["Gagal menambah: UNIQUE constraint failed: users.username"])
  /\ file (snd r) = file w
  /\ journal (snd r) = journal w.
Proof.
  intros Hs Hf Hform Hin r. subst r.
  rewrite (add_mahasiswa_run_taken w request username full_name password
             nim alamat phone); auto.
  apply existsb_exists. apply in_map_iff in Hin as (u & Hu & Hin).
  exists u. split; [assumption |]. now apply String.eqb_eq.
Qed.

(** X13: the two inserts of add_mahasiswa are committed one by one.  When
    the engine fails at the second, the account is in the file without a
    profile: the view reports "Gagal menambah", the student list does not
    show the account, and the username is taken - the same form sent again
    is refused by the UNIQUE constraint. *)
Theorem add_mahasiswa_can_leave_an_account_without_profile (w : world)
    (request : Request)
    (username full_name password nim alamat phone msg : string) :
  signed_in "admin" (session w) ->
  faults w = [None; Some msg] ->
  mahasiswa_form request username full_name password nim alamat phone ->
  existsb (fun u => (users_username u =? username)%string) (users (file w))
  = false ->
  has_rowid mahasiswa_id
    (next_rowid users_id (seq_users (sequence (file w))) (users (file w)))
    (mahasiswa (file w)) = false ->
  let r := serve (to_add_mahasiswa request) w in
  let db := file w in
  let db' := file (snd r) in
  fst r = Page page_add_mahasiswa
            (flashes w ++ [("Gagal menambah: " ++ msg)%string])
  /\ users db' = users db ++ [new_account db username full_name password]
  /\ mahasiswa db' = mahasiswa db
  /\ (forall l, In l (mahasiswa_listings db') -> ml_username l <> username)
  /\ fst (serve (to_add_mahasiswa request) (snd r)) =
       Page page_add_mahasiswa
         ["Gagal menambah: UNIQUE constraint failed: users.username"]
  /\ file (snd (serve (to_add_mahasiswa request) (snd r))) = db'.
Proof.
  intros Hs Hf Hform Hfresh Hfree r db db'. subst r db db'.
  rewrite (add_mahasiswa_run_interrupted w request username full_name
             password nim alamat phone msg []) by assumption.
  cbn [fst snd file]. simpl run_statements. rewrite Hfresh.
  cbn [users mahasiswa set_users].
  split; [reflexivity |]. split; [reflexivity |]. split; [reflexivity |].
  split.
  { intros l Hl Hname. unfold mahasiswa_listings in Hl.
    apply in_map_iff in Hl as ([u m] & <- & Hin). simpl in Hname.
    apply users_join_mahasiswa_In in Hin as (Hu & Hm & Hid). simpl in Hu, Hm.
    apply in_app_or in Hu as [Hu | [<- | []]].
    - assert (existsb (fun x => (users_username x =? username)%string)
                (users (file w)) = true); [| congruence].
      apply existsb_exists. exists u. split; [assumption |].
      now apply String.eqb_eq.
    - simpl in Hid. apply has_rowid_In in Hfree. apply Hfree.
      rewrite Hid. now apply in_map. }
  rewrite add_mahasiswa_run_taken
    with (username := username) (full_name := full_name)
         (password := password) (nim := nim) (alamat := alamat)
         (phone := phone); auto.
  simpl. rewrite existsb_app. simpl. rewrite String.eqb_refl.
  apply orb_true_r.
Qed.
End AddMahasiswa.

(** ** The student's dashboard *)

Section MhsDashboard.
  Context {RT : Runtime}.

Lemma mhs_dashboard_run (w : world) (uid : Z) :
  user_id (session w) = Some uid ->
  role (session w) = Some "mahasiswa" ->
  faults w = [] ->
  serve to_mhs_dashboard w =
    match hd_error (mahasiswa_by_id uid (file w)) with
    | Some (u, m) =>
        (Page (page_mhs_dashboard (users_full_name u) (mahasiswa_nim m)
                 (mahasiswa_alamat m) (mahasiswa_phone m)
                 (jadwal_nilai uid (file w)))
           (flashes w),
         {| file := file w; g_database := None; session := session w;
            flashes := []; faults := []; journal := journal w |})
    | None =>
        (Plain (InternalServerError TypeError),
         {| file := file w; g_database := None; session := session w;
            flashes := flashes w; faults := []; journal := journal w |})
    end.
Proof.
  intros Hu Hr Hf. unfold serve, dispatch_request_as. simpl view_function.
  unfold mhs_dashboard.
  rewrite login_required_as_passes by (split; simpl; congruence).
  unfold bind at 1, session_user_id. cbn [session with_g]. rewrite Hu.
  unfold bind at 1.
  rewrite query_db_one_goes_through by (simpl; auto).
  unfold bind at 1, query_db at 1.
  destruct w as [fi g se fl fa j]; simpl in *. subst fa.
  unfold bind, get_db, engine, ret; simpl.
  destruct (hd_error (mahasiswa_by_id uid fi)) as [[u m] |]; reflexivity.
Qed.

Lemma filter_none {A} (p : A -> bool) (l : list A) :
  (forall x, In x l -> p x = false) -> filter p l = [].
Proof.
  induction l as [| x l IH]; simpl; intros H; [reflexivity |].
  rewrite (H x) by now left. apply IH. intros y Hy. apply H. now right.
Qed.

Lemma existsb_pointwise {A} (p q : A -> bool) (l : list A) :
  (forall x, p x = q x) -> existsb p l = existsb q l.
Proof.
  intros H. induction l as [| x l IH]; simpl; [reflexivity |].
  now rewrite H, IH.
Qed.

(** X14: a student the administrator added can sign in with the username
    and password of the form (for any hashing whose digests verify against
    their plaintext), gets a session of role mahasiswa under the new id,
    and the dashboard shows the name, number, address and phone of the
    form. *)
Theorem added_student_signs_in_and_sees_the_profile (w : world)
    (request sign_in : Request)
    (username full_name password nim alamat phone : string) :
  (forall p, check_password_hash (generate_password_hash p) p = true) ->
  signed_in "admin" (session w) ->
  faults w = [] ->
  mahasiswa_form request username full_name password nim alamat phone ->
  existsb (fun u => (users_username u =? username)%string) (users (file w))
  = false ->
  has_rowid mahasiswa_id
    (next_rowid users_id (seq_users (sequence (file w))) (users (file w)))
    (mahasiswa (file w)) = false ->
  method sign_in = POST ->
  form_field sign_in "username" = Some username ->
  form_field sign_in "password" = Some password ->
  let w1 := snd (serve (to_add_mahasiswa request) w) in
  let w2 := snd (dispatch_request (login sign_in) w1) in
  session w2 =
    {| user_id :=
         Some (next_rowid users_id (seq_users (sequence (file w)))
                 (users (file w)));
       role := Some "mahasiswa";
       full_name := Some full_name |}
  /\ exists rows messages,
       fst (serve to_mhs_dashboard w2) =
         Page (page_mhs_dashboard full_name nim alamat phone rows) messages.
Proof.
  intros Hcheck Hs Hf Hform Hfresh Hfree Hm Hu Hp w1 w2. subst w1 w2.
  rewrite (add_mahasiswa_run w request username full_name password
             nim alamat phone) by assumption.
  cbn [snd]. simpl run_statements. rewrite Hfresh. simpl. rewrite Hfree.
  cbn [fst].
  set (uid := next_rowid users_id (seq_users (sequence (file w)))
                (users (file w))).
  set (acc := {| users_id := uid; users_username := username;
                 users_password_hash := generate_password_hash password;
                 users_role := "mahasiswa"; users_full_name := full_name |}).
  set (prof := {| mahasiswa_id := uid; mahasiswa_nim := nim;
                  mahasiswa_alamat := alamat; mahasiswa_phone := phone |}).
  erewrite (login_succeeds _ sign_in username password acc); auto.
  2:{ unfold users_by_username. cbn [file users set_users set_mahasiswa].
      rewrite filter_app, (existsb_false_filter _ _ Hfresh). simpl.
      now rewrite String.eqb_refl. }
  2:{ apply Hcheck. }
  cbn [snd session]. split; [reflexivity |].
  rewrite (mhs_dashboard_run _ uid) by reflexivity.
  cbn [file].
  assert (Hq : mahasiswa_by_id uid
                 (set_mahasiswa (insert_row mahasiswa_id prof (mahasiswa (file w)))
                    (set_users (users (file w) ++ [acc]) uid (file w)))
               = [(acc, prof)]).
  { unfold mahasiswa_by_id, users_join_mahasiswa.
    cbn [users mahasiswa set_users set_mahasiswa].
    rewrite flat_map_app, filter_app. simpl flat_map at 2. rewrite app_nil_r.
    rewrite filter_none.
    2:{ intros [u m] Hin. apply in_flat_map in Hin as (x & Hx & Hin).
        apply in_map_iff in Hin as (y & Hy & _). injection Hy as -> _.
        simpl. apply Z.eqb_neq.
        pose proof (next_rowid_fresh users_id (seq_users (sequence (file w)))
                      (users (file w)) u Hx). fold uid in H. lia. }
    rewrite (filter_insert_row_only mahasiswa_id
               (fun m => users_id acc =? mahasiswa_id m) prof).
    - simpl. now rewrite Z.eqb_refl.
    - simpl. apply Z.eqb_refl.
    - apply existsb_false_filter. unfold has_rowid in Hfree. fold uid in Hfree.
      rewrite <- Hfree. apply existsb_pointwise. intros m. simpl. apply Z.eqb_sym. }
  rewrite Hq. simpl. eauto.
Qed.
End MhsDashboard.

(** ** The administrator's class page *)

Section ViewKelas.
  Context {RT : Runtime}.

Lemma view_kelas_run (kls_id : Z) (w : world) :
  signed_in "admin" (session w) ->
  faults w = [] ->
  serve (to_view_kelas kls_id) w =
    (Plain (InternalServerError (OperationalError "ambiguous column name: id")),
     {| file := file w; g_database := None; session := session w;
        flashes := flashes w; faults := []; journal := journal w |}).
Proof.
  intros Hs Hf. unfold serve, dispatch_request_as. simpl view_function.
  unfold view_kelas. rewrite login_required_as_passes by exact Hs.
  unfold bind at 1.
  rewrite query_db_one_goes_through by (simpl; auto).
  destruct w as [fi g se fl fa j]; simpl in *. subst fa.
  reflexivity.
Qed.

Lemma view_kelas_raises (kls_id : Z) (w : world) :
  signed_in "admin" (session w) ->
  exists msg w', view_kelas kls_id w = (inl (OperationalError msg), w').
Proof.
  intros Hs. unfold view_kelas. rewrite login_required_as_passes by exact Hs.
  destruct w as [fi g se fl fa j].
  unfold bind, query_db_one, query_db, query_mhs_opts, bind, get_db, engine,
    ret, raise; simpl.
  destruct g; simpl;
    destruct fa as [| [m1 |] [| [m2 |] [| [m3 |] fa]]]; simpl; eauto.
Qed.

(** X15: the administrator's class page never renders.  Its third query
    selects a column [id] that both joined tables have, which SQLite
    refuses, and nothing catches the error: whatever the class, the
    session and the engine, the answer is never a page; for an
    administrator, a class id that SQLite can bind and a quiet engine it
    is a 500 from that OperationalError.  The redirects of
    enroll_mahasiswa and unenroll lead to this view. *)
Theorem view_kelas_never_renders (kls_id : Z) (w : world) :
  (forall body messages,
      fst (serve (to_view_kelas kls_id) w) <> Page body messages)
  /\ (signed_in "admin" (session w) ->
      faults w = [] ->
      sqlite_integer kls_id ->
      fst (serve (to_view_kelas kls_id) w)
      = Plain (InternalServerError
                 (OperationalError "ambiguous column name: id"))).
Proof.
  split.
  - intros body messages.
    destruct (user_id (session w)) as [uid |] eqn:Eu.
    + destruct (role (session w)) as [ro |] eqn:Er.
      * destruct (String.eqb ro "admin") eqn:Ea.
        -- apply String.eqb_eq in Ea. subst ro.
           assert (Hs : signed_in "admin" (session w))
             by (split; congruence).
           destruct (view_kelas_raises kls_id (with_g None w) Hs)
             as (msg & w' & Hv).
           unfold serve, dispatch_request_as. simpl view_function.
           rewrite Hv. simpl. discriminate.
        -- apply String.eqb_neq in Ea.
           destruct (guard_table (to_view_kelas kls_id) "admin" w eq_refl)
             as [_ H2].
           rewrite H2; [simpl; discriminate | congruence | congruence].
      * destruct (guard_table (to_view_kelas kls_id) "admin" w eq_refl)
          as [_ H2].
        rewrite H2; [simpl; discriminate | congruence | congruence].
    + destruct (guard_table (to_view_kelas kls_id) "admin" w eq_refl)
        as [H1 _].
      rewrite H1 by assumption. simpl. discriminate.
  - intros Hs Hf _. now rewrite view_kelas_run.
Qed.
End ViewKelas.

(** ** Views that catch what they raise *)

Section Tried.
  Context {RT : Runtime}.

Lemma mild_bind {A B} (P : Prop) (Q0 : A -> Prop) (Q : B -> Prop) (m : M A)
    (k : A -> M B) :
  mild P Q0 m -> (forall a, Q0 a -> mild P Q (k a)) -> mild P Q (bind m k).
Proof.
  intros Hm Hk w. unfold bind. specialize (Hm w).
  destruct (m w) as [[e | a] w1]; simpl in *; [exact Hm |].
  apply Hk. exact Hm.
Qed.

Lemma yields_bind {A B} (P : A -> Prop) (Q : B -> Prop) (m : M A)
    (k : A -> M B) :
  yields P m -> (forall a, P a -> yields Q (k a)) -> yields Q (bind m k).
Proof.
  intros Hm Hk w. unfold bind. specialize (Hm w).
  destruct (m w) as [[e | a] w1]; simpl in *; [exact I |].
  apply Hk. exact Hm.
Qed.

Lemma yields_anything {A} (m : M A) : yields (fun _ => True) m.
Proof. intros w. destruct (fst (m w)); exact I. Qed.

Lemma mild_yields {A} (P : Prop) (Q : A -> Prop) (m : M A) :
  mild P Q m -> yields Q m.
Proof.
  intros H w. specialize (H w). destruct (fst (m w)); [exact I | exact H].
Qed.

Lemma mild_try_except {A} (P : Prop) (Q : A -> Prop) (m : M A)
    (h : exn -> M A) :
  yields Q m -> (forall e, mild P Q (h e)) -> mild P Q (try_except m h).
Proof.
  intros Hm Hh w. unfold try_except. specialize (Hm w).
  destruct (m w) as [[e | a] w1]; simpl in *; [apply Hh | exact Hm].
Qed.

Lemma mild_ret {A} (P : Prop) (Q : A -> Prop) (a : A) :
  Q a -> mild P Q (ret a).
Proof. intros H w. exact H. Qed.

Lemma mild_flash (P : Prop) (msg : string) :
  mild P (fun _ => True) (flash msg).
Proof. intros w. exact I. Qed.

Lemma mild_request_form (names : list string) (request : Request)
    (k : string) :
  method request = POST ->
  In k names ->
  mild (lacks_a_field names request) (fun _ => True) (request_form request k).
Proof.
  intros Hm Hk w. unfold request_form.
  destruct (form_field request k) eqn:E; simpl; [exact I |].
  split; [reflexivity |]. split; [exact Hm |]. exists k. auto.
Qed.

Lemma mild_login_required_as (P : Prop) (required : option string)
    (f : M site_response) :
  mild P no_500 f -> mild P no_500 (login_required_as Plain required f).
Proof.
  intros Hf w. unfold login_required_as.
  destruct (user_id (session w)); [| simpl; intros e; discriminate].
  destruct (truthy required && negb (eq_opt_string (role (session w)) required));
    [simpl; intros e; discriminate | apply Hf].
Qed.

(** A view that raises nothing but the KeyError of a missing field answers
    500 in debug mode only, and for that error only. *)
Lemma mild_dispatch (P : Prop) (view : M site_response) (w : world)
    (e : exn) :
  mild P no_500 view ->
  fst (dispatch_request_as Plain view w) = Plain (InternalServerError e) ->
  e = BadRequestKeyError /\ app_debug = true /\ P.
Proof.
  intros Hv. unfold dispatch_request_as. specialize (Hv (with_g None w)).
  destruct (view (with_g None w)) as [[e1 | r] w1]; simpl in *.
  - destruct Hv as [-> HP]. destruct app_debug; [| discriminate].
    intros [= <-]. auto.
  - intros ->. exfalso. now apply (Hv e).
Qed.

Lemma yields_redirect (target : endpoint) :
  yields no_500 (map_M Plain (redirect target)).
Proof. intros w. simpl. intros e. discriminate. Qed.

Lemma yields_redirect_to (target : site_endpoint) :
  yields no_500 (redirect_to target).
Proof. intros w. simpl. intros e. discriminate. Qed.

Lemma mild_early (P : Prop) (early : M (option site_response))
    (body : site_page) :
  mild P (fun early => forall r, early = Some r -> no_500 r) early ->
  mild P no_500
    (early <- early ;;
     match early with
     | Some r => ret r
     | None => render_site body
     end)%view.
Proof.
  intros H.
  apply (mild_bind P (fun early => forall r, early = Some r -> no_500 r));
    [exact H |].
  intros [r |] Hr.
  - apply mild_ret. now apply Hr.
  - intros w. simpl. intros e. discriminate.
Qed.

Ltac mild_fields Hm :=
  repeat (apply (mild_bind _ (fun _ => True));
          [apply mild_request_form; [exact Hm | simpl; auto 10]
          | intros ? _]).

Ltac yields_any :=
  apply (yields_bind (fun _ => True)); [apply yields_anything | intros ? _].

Lemma mild_add_mahasiswa (request : Request) :
  mild (lacks_a_field fields_of_add_mahasiswa request) no_500
    (add_mahasiswa request).
Proof.
  unfold add_mahasiswa. apply mild_login_required_as, mild_early.
  destruct (method request) eqn:Hm; [apply mild_ret; discriminate |].
  mild_fields Hm. cbv zeta. apply mild_try_except.
  - yields_any. yields_any. yields_any.
    apply (yields_bind no_500); [apply yields_redirect |].
    intros r Hr. apply (mild_yields True), mild_ret. now intros ? [= <-].
  - intros e. apply (mild_bind _ (fun _ => True)); [apply mild_flash |].
    intros _ _. apply mild_ret. discriminate.
Qed.

Lemma mild_add_dosen (request : Request) :
  mild (lacks_a_field fields_of_add_dosen request) no_500
    (add_dosen request).
Proof.
  unfold add_dosen. apply mild_login_required_as, mild_early.
  destruct (method request) eqn:Hm; [apply mild_ret; discriminate |].
  mild_fields Hm. cbv zeta. apply mild_try_except.
  - yields_any. yields_any. yields_any.
    apply (yields_bind no_500); [apply yields_redirect_to |].
    intros r Hr. apply (mild_yields True), mild_ret. now intros ? [= <-].
  - intros e. apply (mild_bind _ (fun _ => True)); [apply mild_flash |].
    intros _ _. apply mild_ret. discriminate.
Qed.

Lemma quiet_execute_db (s : statement) : quiet (execute_db s).
Proof.
  intros [fi g se fl fa j].
  unfold execute_db, bind, get_db, connection_execute, bind, engine,
    connection_commit, raise, ret; simpl.
  destruct g as [db |]; simpl;
    destruct fa as [| [msg |] rest]; simpl; try reflexivity;
    match goal with
    | |- context [ exec s ?d ] => destruct (exec s d) as [e | [db' l]]
    end; reflexivity.
Qed.

Lemma ends_flashing_flash (msg : string) : ends_flashing msg (flash msg).
Proof. intros w. reflexivity. Qed.

Lemma ends_flashing_after {A B} (msg : string) (m : M A) (k : M B) :
  quiet m -> ends_flashing msg k -> ends_flashing msg (m ;; k)%view.
Proof.
  intros Hm Hk w. unfold bind. specialize (Hm w).
  destruct (m w) as [[e | a] w1]; simpl in *; [exact Hm |].
  specialize (Hk w1). rewrite Hm in Hk. exact Hk.
Qed.

(** delete_mahasiswa under an administrator's session, whatever the engine
    does: the redirect to the list, and one more message. *)
Lemma delete_mahasiswa_returns (mhs_id : Z) (w : world) :
  signed_in "admin" (session w) ->
  exists msg w',
    delete_mahasiswa mhs_id w = (inr (Redirect ep_manage_mahasiswa), w')
    /\ flashes w' = flashes w ++ [msg]
    /\ (msg = "Mahasiswa dihapus"
        \/ exists detail, msg = ("Gagal hapus: " ++ detail)%string).
Proof.
  intros Hs. unfold delete_mahasiswa.
  rewrite login_required_passes by exact Hs.
  unfold bind at 1, try_except.
  set (body := (execute_db (DELETE_nilai_of_mahasiswa mhs_id) ;;
                execute_db (DELETE_enroll_of_mahasiswa mhs_id) ;;
                execute_db (DELETE_mahasiswa mhs_id) ;;
                execute_db (DELETE_users mhs_id) ;;
                flash "Mahasiswa dihapus")%view).
  assert (H : ends_flashing "Mahasiswa dihapus" body).
  { unfold body.
    repeat (apply ends_flashing_after; [apply quiet_execute_db |]).
    apply ends_flashing_flash. }
  specialize (H w). destruct (body w) as [[e | []] w1]; cbn [fst snd] in H.
  - exists ("Gagal hapus: " ++ str e)%string. eexists.
    split; [reflexivity |]. simpl. rewrite H.
    split; [reflexivity |]. right. eauto.
  - exists "Mahasiswa dihapus". eexists.
    split; [reflexivity |]. split; [exact H | now left].
Qed.

Lemma delete_mahasiswa_flashes (mhs_id : Z) (w : world) :
  signed_in "admin" (session w) ->
  fst (dispatch_request (delete_mahasiswa mhs_id) w)
  = Redirect ep_manage_mahasiswa
  /\ exists msg,
       flashes (snd (dispatch_request (delete_mahasiswa mhs_id) w))
       = flashes w ++ [msg]
       /\ (msg = "Mahasiswa dihapus"
           \/ exists detail, msg = ("Gagal hapus: " ++ detail)%string).
Proof.
  intros Hs.
  destruct (delete_mahasiswa_returns mhs_id (with_g None w))
    as (msg & w' & E & Hfl & Hmsg); [exact Hs |].
  unfold dispatch_request. rewrite E. cbn [fst snd].
  split; [reflexivity |]. exists msg. split; [exact Hfl | exact Hmsg].
Qed.

(** X16: the three views that wrap their statements in try/except
    Exception.  delete_mahasiswa never ends in an error: whatever the
    session and the engine do its answer is a redirect, and for an
    administrator it is the redirect to the list with one more flashed
    message, "Mahasiswa dihapus" or "Gagal hapus: " and the cause.
    add_mahasiswa and add_dosen answer 500 in one case only, whatever the
    engine does: a POST that lacks one of the fields the view reads, whose
    KeyError is raised before the try, in debug mode (without debug mode
    that case is a 400). *)
Theorem tried_views_catch_statement_errors (w : world) :
  (forall mhs_id,
      (exists target,
          fst (serve (to_delete_mahasiswa mhs_id) w) = Plain (Redirect target))
      /\ (signed_in "admin" (session w) ->
          fst (serve (to_delete_mahasiswa mhs_id) w)
          = Plain (Redirect ep_manage_mahasiswa)
          /\ exists msg,
               flashes (snd (serve (to_delete_mahasiswa mhs_id) w))
               = flashes w ++ [msg]
               /\ (msg = "Mahasiswa dihapus"
                   \/ exists detail,
                        msg = ("Gagal hapus: " ++ detail)%string)))
  /\ (forall request e,
        fst (serve (to_add_mahasiswa request) w)
        = Plain (InternalServerError e) ->
        e = BadRequestKeyError /\ app_debug = true
        /\ lacks_a_field fields_of_add_mahasiswa request)
  /\ (forall request e,
        fst (serve (to_add_dosen request) w)
        = Plain (InternalServerError e) ->
        e = BadRequestKeyError /\ app_debug = true
        /\ lacks_a_field fields_of_add_dosen request).
Proof.
  split.
  - intros mhs_id. unfold serve. simpl view_function. rewrite dispatch_plain.
    cbn [fst snd]. split.
    + destruct (user_id (session w)) as [uid |] eqn:Eu.
      * destruct (eq_opt_string (role (session w)) (Some "admin")) eqn:Er.
        -- assert (Hs : signed_in "admin" (session w)).
           { split; [congruence |].
             destruct (role (session w)) as [ro |]; [| discriminate].
             simpl in Er. apply String.eqb_eq in Er. now subst. }
           destruct (delete_mahasiswa_flashes mhs_id w Hs) as [-> _]. eauto.
        -- exists ep_index. f_equal.
           unfold dispatch_request, delete_mahasiswa, login_required.
           cbn [session with_g]. rewrite Eu, Er. reflexivity.
      * exists ep_login. f_equal.
        unfold dispatch_request, delete_mahasiswa, login_required.
        cbn [session with_g]. rewrite Eu. reflexivity.
    + intros Hs. destruct (delete_mahasiswa_flashes mhs_id w Hs) as [-> H].
      split; [reflexivity | exact H].
  - split; intros request e H; unfold serve in H; simpl view_function in H.
    + exact (mild_dispatch _ _ _ _ (mild_add_mahasiswa request) H).
    + exact (mild_dispatch _ _ _ _ (mild_add_dosen request) H).
Qed.
End Tried.

(** ** The lecturer's pages *)

Section DosenPages.
  Context {RT : Runtime}.

Lemma kelas_with_mk_In (db : database) (k k' : kelas_row) (name : string) :
  In (k', name) (kelas_with_mk db k) <->
  k' = k
  /\ exists mk, In mk (mata_kuliah db)
                /\ mata_kuliah_id mk = kelas_mata_kuliah_id k
                /\ mata_kuliah_nama mk = name.
Proof.
  unfold kelas_with_mk. rewrite in_map_iff. split.
  - intros (mk & [= <- <-] & Hin). apply filter_In in Hin as [Hin He].
    apply Z.eqb_eq in He. split; [reflexivity |]. exists mk. auto.
  - intros (-> & mk & Hin & He & <-). exists mk. split; [reflexivity |].
    apply filter_In. split; [exact Hin |]. apply Z.eqb_eq. auto.
Qed.

Lemma kelas_of_dosen_In (db : database) (uid : Z) (k : kelas_row)
    (name : string) :
  In (k, name) (kelas_of_dosen uid db) <->
  In k (kelas db) /\ kelas_dosen_id k = uid
  /\ exists mk, In mk (mata_kuliah db)
                /\ mata_kuliah_id mk = kelas_mata_kuliah_id k
                /\ mata_kuliah_nama mk = name.
Proof.
  unfold kelas_of_dosen. rewrite in_flat_map. split.
  - intros (k0 & Hk & Hin). apply filter_In in Hk as [Hk Hd].
    apply Z.eqb_eq in Hd. apply kelas_with_mk_In in Hin as [-> Hmk]. auto.
  - intros (Hk & Hd & Hmk). exists k. split.
    + apply filter_In. split; [exact Hk |]. now apply Z.eqb_eq.
    + apply kelas_with_mk_In. auto.
Qed.

Lemma kelas_of_dosen_by_id_In (db : database) (kls_id uid : Z)
    (k : kelas_row) (name : string) :
  In (k, name) (kelas_of_dosen_by_id kls_id uid db) <->
  In k (kelas db) /\ kelas_id k = kls_id /\ kelas_dosen_id k = uid
  /\ exists mk, In mk (mata_kuliah db)
                /\ mata_kuliah_id mk = kelas_mata_kuliah_id k
                /\ mata_kuliah_nama mk = name.
Proof.
  unfold kelas_of_dosen_by_id. rewrite in_flat_map. split.
  - intros (k0 & Hk & Hin). apply filter_In in Hk as [Hk Hd].
    apply andb_true_iff in Hd as [Hi Hd].
    apply Z.eqb_eq in Hd, Hi. apply kelas_with_mk_In in Hin as [-> Hmk]. auto.
  - intros (Hk & Hi & Hd & Hmk). exists k. split.
    + apply filter_In. split; [exact Hk |].
      apply andb_true_iff. split; now apply Z.eqb_eq.
    + apply kelas_with_mk_In. auto.
Qed.

Lemma hd_error_In {A} (l : list A) (a : A) : hd_error l = Some a -> In a l.
Proof. destruct l; simpl; [discriminate | intros [= ->]; now left]. Qed.

Lemma hd_error_none {A} (l : list A) :
  hd_error l = None -> forall a, ~ In a l.
Proof. destruct l; simpl; [auto | discriminate]. Qed.

Lemma query_db_goes_through {A} (q : database -> list A) (w : world) :
  g_database w = None \/ g_database w = Some (file w) ->
  faults w = [] ->
  query_db q w =
    (inr (q (file w)),
     {| file := file w; g_database := Some (file w); session := session w;
        flashes := flashes w; faults := []; journal := journal w |}).
Proof.
  intros Hg Hf. destruct w as [fi g se fl fa j]; simpl in *. subst fa.
  unfold query_db, bind, get_db, engine, ret; simpl.
  destruct Hg as [-> | ->]; reflexivity.
Qed.

Lemma dosen_dashboard_run (w : world) (uid : Z) :
  user_id (session w) = Some uid ->
  role (session w) = Some "dosen" ->
  faults w = [] ->
  serve to_dosen_dashboard w =
    (Page (page_dosen_dashboard (kelas_of_dosen uid (file w))) (flashes w),
     {| file := file w; g_database := None; session := session w;
        flashes := []; faults := []; journal := journal w |}).
Proof.
  intros Hu Hr Hf. unfold serve, dispatch_request_as. simpl view_function.
  unfold dosen_dashboard.
  rewrite login_required_as_passes by (split; simpl; congruence).
  unfold bind at 1, session_user_id. cbn [session with_g]. rewrite Hu.
  unfold bind at 1.
  rewrite query_db_goes_through by (simpl; auto).
  reflexivity.
Qed.

Lemma dosen_view_kelas_run (w : world) (uid kls_id : Z) :
  user_id (session w) = Some uid ->
  role (session w) = Some "dosen" ->
  faults w = [] ->
  serve (to_dosen_view_kelas kls_id) w =
    match hd_error (kelas_of_dosen_by_id kls_id uid (file w)) with
    | Some (k, mk_nama) =>
        (Page
           (page_dosen_view_kelas (kelas_nama k) mk_nama
              (map (fun r =>
                      {| ps_enroll_id := fst (fst (fst r));
                         ps_username := snd (fst r);
                         ps_full_name := snd (fst (fst r));
                         ps_nilai := nilai_or_dash (snd r) |})
                 (peserta_with_nilai kls_id (file w))))
           (flashes w),
         {| file := file w; g_database := None; session := session w;
            flashes := []; faults := []; journal := journal w |})
    | None =>
        (Plain (Redirect ep_dosen_dashboard),
         {| file := file w; g_database := None; session := session w;
            flashes :=
              flashes w ++ ["Kelas tidak ditemukan atau Anda bukan pengampu"];
            faults := []; journal := journal w |})
    end.
Proof.
  intros Hu Hr Hf. unfold serve, dispatch_request_as. simpl view_function.
  unfold dosen_view_kelas.
  rewrite login_required_as_passes by (split; simpl; congruence).
  unfold bind at 1, session_user_id. cbn [session with_g]. rewrite Hu.
  unfold bind at 1.
  rewrite query_db_one_goes_through by (simpl; auto).
  destruct (hd_error (kelas_of_dosen_by_id kls_id uid (file (with_g None w))))
    as [[k mk_nama] |] eqn:E; cbn [file with_g] in E; rewrite E.
  - unfold bind at 1.
    rewrite query_db_goes_through by (simpl; auto).
    reflexivity.
  - reflexivity.
Qed.

(** X17: a lecturer's dashboard lists the classes whose dosen_id is the id
    of the session and whose course exists, and no other: a class of
    another lecturer is never on it, and a class whose mata_kuliah_id
    names no course is left out though it is the lecturer's own. *)
Theorem dosen_dashboard_lists_own_classes (w : world) (uid : Z) :
  user_id (session w) = Some uid ->
  role (session w) = Some "dosen" ->
  faults w = [] ->
  exists rows,
    fst (serve to_dosen_dashboard w)
    = Page (page_dosen_dashboard rows) (flashes w)
    /\ forall k name,
         In (k, name) rows <->
         In k (kelas (file w)) /\ kelas_dosen_id k = uid
         /\ exists mk, In mk (mata_kuliah (file w))
                       /\ mata_kuliah_id mk = kelas_mata_kuliah_id k
                       /\ mata_kuliah_nama mk = name.
Proof.
  intros Hu Hr Hf. rewrite (dosen_dashboard_run w uid) by assumption.
  exists (kelas_of_dosen uid (file w)). split; [reflexivity |].
  intros k name. apply kelas_of_dosen_In.
Qed.

Lemma peserta_with_nilai_In (db : database) (kls_id : Z)
    (r : Z * string * string * option float) :
  In r (peserta_with_nilai kls_id db) ->
  exists e, In e (enroll db) /\ enroll_kelas_id e = kls_id
            /\ enroll_id e = fst (fst (fst r))
            /\ In (snd r)
                 (map (option_map nilai_angka)
                    (left_join (nilai_by_enroll (enroll_id e) db))).
Proof.
  unfold peserta_with_nilai. intros H.
  apply in_flat_map in H as (e & He & H).
  apply filter_In in He as [He Hk]. apply Z.eqb_eq in Hk.
  apply in_flat_map in H as (u & Hu & H).
  apply in_map_iff in H as (n & <- & Hn).
  exists e. simpl. repeat split; auto.
  apply in_map_iff. exists n. auto.
Qed.

(** X18: for a class id that SQLite can bind, a lecturer's class page
    opens for a class of the lecturer's own whose course exists, and every
    enrollment it lists - each with its link to the grade form - is one
    the lecturer owns, that is one dosen_set_nilai accepts from this
    session; for any other class id the answer is the redirect to the
    dashboard with the message that the class was not found or is not the
    lecturer's. *)
Theorem dosen_view_kelas_lists_own_enrollments (w : world) (uid kls_id : Z) :
  user_id (session w) = Some uid ->
  role (session w) = Some "dosen" ->
  faults w = [] ->
  sqlite_integer kls_id ->
  let own_class :=
    exists k mk,
      In k (kelas (file w)) /\ kelas_id k = kls_id /\ kelas_dosen_id k = uid
      /\ In mk (mata_kuliah (file w))
      /\ mata_kuliah_id mk = kelas_mata_kuliah_id k in
  (own_class ->
     exists nama mk_nama rows,
       fst (serve (to_dosen_view_kelas kls_id) w)
       = Page (page_dosen_view_kelas nama mk_nama rows) (flashes w)
       /\ forall row, In row rows -> owns (file w) uid (ps_enroll_id row))
  /\ (~ own_class ->
      fst (serve (to_dosen_view_kelas kls_id) w)
      = Plain (Redirect ep_dosen_dashboard)
      /\ flashes (snd (serve (to_dosen_view_kelas kls_id) w))
         = flashes w ++ ["Kelas tidak ditemukan atau Anda bukan pengampu"]).
Proof.
  intros Hu Hr Hf _ own_class.
  rewrite (dosen_view_kelas_run w uid kls_id) by assumption.
  destruct (hd_error (kelas_of_dosen_by_id kls_id uid (file w)))
    as [[k mk_nama] |] eqn:E.
  - apply hd_error_In in E. apply kelas_of_dosen_by_id_In in E.
    destruct E as (Hk & Hi & Hd & mk & Hmk & Hmi & Hmn).
    split.
    + intros _. eexists _, _, _. split; [reflexivity |].
      intros row Hrow. apply in_map_iff in Hrow as (r & <- & Hin).
      apply peserta_with_nilai_In in Hin as (e & He & Hek & Hei & _).
      exists e, k. simpl. repeat split; auto. congruence.
    + intros Hn. exfalso. apply Hn. exists k, mk. auto.
  - split.
    + intros (k & mk & Hk & Hi & Hd & Hmk & Hmi). exfalso.
      apply (hd_error_none _ E (k, mata_kuliah_nama mk)).
      apply kelas_of_dosen_by_id_In. repeat split; auto. exists mk. auto.
    + intros _. split; reflexivity.
Qed.
End DosenPages.

(** ** A grade, from the lecturer's form to the pages *)

Section GradeShown.
  Context {RT : Runtime}.

Lemma upsert_same_but_nilai (db : database) (enr_id : Z) (angka : float) :
  same_but_nilai db (run_statements [upsert_nilai db enr_id angka] db).
Proof.
  unfold upsert_nilai. destruct (nilai_by_enroll enr_id db);
    repeat split.
Qed.

Lemma grades_after_upsert_all (db : database) (enr_id : Z) (angka : float) :
  nilai_by_enroll enr_id (run_statements [upsert_nilai db enr_id angka] db)
  <> []
  /\ forall n,
       In n (nilai_by_enroll enr_id
               (run_statements [upsert_nilai db enr_id angka] db)) ->
       nilai_angka n = angka.
Proof.
  rewrite grades_after_upsert.
  destruct (nilai_by_enroll enr_id db) as [| n0 rows].
  - split; [discriminate |]. intros n [<- | []]. reflexivity.
  - split; [discriminate |]. intros n Hn.
    apply in_map_iff in Hn as (m & <- & _). reflexivity.
Qed.

Lemma cells_after_upsert (db : database) (enr_id : Z) (angka : float)
    (c : option nilai_row) :
  In c (left_join
          (nilai_by_enroll enr_id
             (run_statements [upsert_nilai db enr_id angka] db))) ->
  option_map nilai_angka c = Some angka.
Proof.
  destruct (grades_after_upsert_all db enr_id angka) as [Hne Hall].
  destruct (nilai_by_enroll enr_id
              (run_statements [upsert_nilai db enr_id angka] db))
    as [| n0 rows] eqn:E; [congruence |].
  unfold left_join. intros Hc. apply in_map_iff in Hc as (n & <- & Hn).
  simpl. f_equal. apply Hall. exact Hn.
Qed.

Lemma set_nilai_served (w : world) (uid enr_id : Z) (request : Request)
    (row : enroll_row) (angka : float) :
  user_id (session w) = Some uid ->
  role (session w) = Some "dosen" ->
  faults w = [] ->
  hd_error (enroll_join_kelas enr_id (file w)) = Some (row, uid) ->
  submitted_grade request = Some angka ->
  serve (to_dosen_set_nilai enr_id request) w =
    (Plain (Redirect (ep_dosen_view_kelas (enroll_kelas_id row))),
     {| file := run_statements [upsert_nilai (file w) enr_id angka] (file w);
        g_database := None; session := session w;
        flashes := flashes w ++ ["Nilai tersimpan"]; faults := [];
        journal := journal w ++ [upsert_nilai (file w) enr_id angka] |}).
Proof.
  intros Hu Hr Hf Hq Hg. unfold serve. simpl view_function.
  rewrite dispatch_plain.
  now rewrite (dosen_set_nilai_saved w uid enr_id request row angka).
Qed.

Lemma kelas_of_dosen_by_id_after_upsert (db : database)
    (kls_id uid enr_id : Z) (angka : float) :
  kelas_of_dosen_by_id kls_id uid
    (run_statements [upsert_nilai db enr_id angka] db)
  = kelas_of_dosen_by_id kls_id uid db.
Proof.
  unfold upsert_nilai. destruct (nilai_by_enroll enr_id db); reflexivity.
Qed.

(** X19: the grade a lecturer saved is the grade the class page shows.
    After a set-grade request that went through, on an enrollment whose
    class has its course, the page the redirect leads to renders, carries
    the flash "Nilai tersimpan", and every row of that enrollment shows the
    submitted number - but a grade of zero is shown as a dash, like no
    grade at all, by the [or '-'] of the template. *)
Theorem saved_grade_shows_on_class_page (w : world) (uid enr_id : Z)
    (request : Request) (row : enroll_row) (angka : float) :
  user_id (session w) = Some uid ->
  role (session w) = Some "dosen" ->
  faults w = [] ->
  hd_error (enroll_join_kelas enr_id (file w)) = Some (row, uid) ->
  submitted_grade request = Some angka ->
  is_number angka ->
  has_course (file w) (enroll_kelas_id row) ->
  let w1 := snd (serve (to_dosen_set_nilai enr_id request) w) in
  exists nama mk_nama rows,
    fst (serve (to_dosen_view_kelas (enroll_kelas_id row)) w1)
    = Page (page_dosen_view_kelas nama mk_nama rows)
        (flashes w ++ ["Nilai tersimpan"])
    /\ (forall r,
          In r rows -> ps_enroll_id r = enr_id ->
          ps_nilai r = if PrimFloat.eqb angka 0 then dash else shown angka).
Proof.
  intros Hu Hr Hf Hq Hg _ Hc w1. subst w1.
  rewrite (set_nilai_served w uid enr_id request row angka) by assumption.
  cbn [snd].
  rewrite (dosen_view_kelas_run _ uid (enroll_kelas_id row))
    by (cbn; first [assumption | reflexivity]).
  cbn [file flashes]. rewrite kelas_of_dosen_by_id_after_upsert.
  destruct (ownership_row _ _ _ _ Hq) as (_ & _ & k & Hk & Hki & Hkd).
  destruct (Hc k Hk Hki) as (mk & Hmk & Hmi).
  destruct (hd_error (kelas_of_dosen_by_id (enroll_kelas_id row) uid (file w)))
    as [[k0 mk0] |] eqn:E.
  - eexists _, _, _. split; [reflexivity |].
    intros r Hin He. apply in_map_iff in Hin as (x & <- & Hin).
    simpl in He. simpl.
    apply peserta_with_nilai_In in Hin as (e & _ & _ & Hei & Hcell).
    rewrite <- Hei in He. rewrite He in Hcell.
    apply in_map_iff in Hcell as (c & Hc' & Hin).
    apply cells_after_upsert in Hin. rewrite Hin in Hc'. rewrite <- Hc'.
    reflexivity.
  - exfalso. apply (hd_error_none _ E (k, mata_kuliah_nama mk)).
    apply kelas_of_dosen_by_id_In. repeat split; auto. exists mk. auto.
Qed.
End GradeShown.

(** ** The student's dashboard and the grades *)

Section StudentGrades.
  Context {RT : Runtime}.

Lemma flat_map_ext_In {A B} (f g : A -> list B) (l : list A) :
  (forall a, In a l -> f a = g a) -> flat_map f l = flat_map g l.
Proof.
  induction l as [| x l IH]; simpl; intros H; [reflexivity |].
  rewrite (H x) by now left. f_equal. apply IH. intros a Ha. apply H.
  now right.
Qed.

Lemma left_join_inhabited {A} (l : list A) : exists x, In x (left_join l).
Proof.
  destruct l as [| a l]; simpl; [exists None | exists (Some a)]; now left.
Qed.

Lemma jadwal_nilai_of_after_upsert (db : database) (enr_id : Z)
    (angka : float) (e : enroll_row) :
  enroll_id e <> enr_id ->
  jadwal_nilai_of (run_statements [upsert_nilai db enr_id angka] db) e
  = jadwal_nilai_of db e.
Proof.
  intros Hne.
  pose proof (other_grades_after_upsert db enr_id (enroll_id e) angka Hne)
    as Hn.
  destruct (upsert_same_but_nilai db enr_id angka)
    as (_ & _ & _ & Hmk & Hk & Hj & _).
  unfold jadwal_nilai_of, kelas_with_mk.
  rewrite Hn, Hmk, Hk, Hj. reflexivity.
Qed.

Lemma mahasiswa_by_id_after_upsert (db : database) (uid enr_id : Z)
    (angka : float) :
  mahasiswa_by_id uid (run_statements [upsert_nilai db enr_id angka] db)
  = mahasiswa_by_id uid db.
Proof.
  unfold upsert_nilai. destruct (nilai_by_enroll enr_id db); reflexivity.
Qed.

Lemma enroll_after_upsert (db : database) (enr_id : Z) (angka : float) :
  enroll (run_statements [upsert_nilai db enr_id angka] db) = enroll db.
Proof.
  unfold upsert_nilai. destruct (nilai_by_enroll enr_id db); reflexivity.
Qed.

Lemma jadwal_nilai_of_cells (db : database) (enr_id : Z) (angka : float)
    (e : enroll_row) (r : jadwal_nilai_row) :
  enroll_id e = enr_id ->
  In r (jadwal_nilai_of (run_statements [upsert_nilai db enr_id angka] db) e) ->
  jn_nilai r = nilai_or_dash (Some angka).
Proof.
  intros He Hr. unfold jadwal_nilai_of in Hr.
  apply in_flat_map in Hr as (k & _ & Hr).
  apply in_flat_map in Hr as (kmk & _ & Hr).
  apply in_flat_map in Hr as (n & Hn & Hr).
  apply in_map_iff in Hr as (j & <- & _). simpl.
  rewrite He in Hn. apply cells_after_upsert in Hn. now rewrite Hn.
Qed.

Lemma jadwal_nilai_of_inhabited (db : database) (e : enroll_row)
    (k : kelas_row) (mk : mata_kuliah_row) :
  In k (kelas db) -> kelas_id k = enroll_kelas_id e ->
  In mk (mata_kuliah db) -> mata_kuliah_id mk = kelas_mata_kuliah_id k ->
  jadwal_nilai_of db e <> [].
Proof.
  intros Hk Hki Hmk Hmi.
  destruct (left_join_inhabited (nilai_by_enroll (enroll_id e) db))
    as (n & Hn).
  destruct (left_join_inhabited
              (filter (fun j => jadwal_kelas_id j =? kelas_id k) (jadwal db)))
    as (j & Hj).
  assert (Hin : In {| jn_mk_nama := mata_kuliah_nama mk;
                      jn_kelas_nama := kelas_nama k;
                      jn_hari := text_or_dash (option_map jadwal_hari j);
                      jn_jam := text_or_dash (option_map jadwal_jam j);
                      jn_nilai := nilai_or_dash (option_map nilai_angka n) |}
                 (jadwal_nilai_of db e)).
  { unfold jadwal_nilai_of. apply in_flat_map. exists k. split.
    - apply filter_In. split; [exact Hk |]. apply Z.eqb_eq. auto.
    - apply in_flat_map. exists (k, mata_kuliah_nama mk). split.
      + apply kelas_with_mk_In. split; [reflexivity |]. exists mk. auto.
      + apply in_flat_map. exists n. split; [exact Hn |].
        apply in_map_iff. exists j. split; [reflexivity | exact Hj]. }
  intros E. rewrite E in Hin. exact Hin.
Qed.

(** X20: the grade a lecturer saved is the grade the student sees.  A
    lecturer sets a grade on an enrollment of the lecturer's own; the
    student of that enrollment, who has a profile and no other enrollment,
    opens the dashboard on the file the request left: the page renders,
    has a row for the class when the class has its course, and every row
    shows the submitted number (a zero as a dash). *)
Theorem student_sees_the_saved_grade (w w2 : world) (uid mhs_id enr_id : Z)
    (request : Request) (row : enroll_row) (angka : float) :
  user_id (session w) = Some uid ->
  role (session w) = Some "dosen" ->
  faults w = [] ->
  hd_error (enroll_join_kelas enr_id (file w)) = Some (row, uid) ->
  submitted_grade request = Some angka ->
  is_number angka ->
  file w2 = file (snd (serve (to_dosen_set_nilai enr_id request) w)) ->
  user_id (session w2) = Some mhs_id ->
  role (session w2) = Some "mahasiswa" ->
  faults w2 = [] ->
  mahasiswa_by_id mhs_id (file w) <> [] ->
  filter (fun e => enroll_mahasiswa_id e =? mhs_id) (enroll (file w)) = [row] ->
  has_course (file w) (enroll_kelas_id row) ->
  exists full_name nim alamat phone rows,
    fst (serve to_mhs_dashboard w2)
    = Page (page_mhs_dashboard full_name nim alamat phone rows) (flashes w2)
    /\ rows <> []
    /\ forall r,
         In r rows ->
         jn_nilai r = if PrimFloat.eqb angka 0 then dash else shown angka.
Proof.
  intros Hu Hr Hf Hq Hg _ Hfile Hu2 Hr2 Hf2 Hprof Honly Hc.
  rewrite (set_nilai_served w uid enr_id request row angka) in Hfile
    by assumption.
  cbn [snd file] in Hfile.
  rewrite (mhs_dashboard_run w2 mhs_id) by assumption.
  rewrite Hfile, mahasiswa_by_id_after_upsert.
  destruct (mahasiswa_by_id mhs_id (file w)) as [| [u m] rest] eqn:E;
    [congruence |].
  cbn [hd_error].
  eexists _, _, _, _, _. split; [reflexivity |].
  unfold jadwal_nilai. rewrite enroll_after_upsert, Honly.
  cbn [flat_map]. rewrite app_nil_r.
  destruct (ownership_row _ _ _ _ Hq) as (_ & Hid & k & Hk & Hki & _).
  split.
  - destruct (Hc k Hk Hki) as (mk & Hmk & Hmi).
    destruct (upsert_same_but_nilai (file w) enr_id angka)
      as (_ & _ & _ & Emk & Ek & _ & _).
    apply (jadwal_nilai_of_inhabited _ row k mk); auto.
    + now rewrite Ek.
    + now rewrite Emk.
  - intros r Hin.
    apply (jadwal_nilai_of_cells (file w) enr_id angka row r Hid Hin).
Qed.

(** X21: a grade write changes no dashboard but that of the enrollment's
    student.  With primary keys in place, after a set-grade request that
    went through on an enrollment of another student, a student's
    dashboard on the new file is, answer for answer, the dashboard on the
    old one. *)
Theorem grade_write_leaves_other_dashboards (w w2 : world)
    (uid mhs_id enr_id : Z) (request : Request) (row : enroll_row)
    (angka : float) :
  user_id (session w) = Some uid ->
  role (session w) = Some "dosen" ->
  faults w = [] ->
  primary_keys (file w) ->
  hd_error (enroll_join_kelas enr_id (file w)) = Some (row, uid) ->
  submitted_grade request = Some angka ->
  enroll_mahasiswa_id row <> mhs_id ->
  user_id (session w2) = Some mhs_id ->
  role (session w2) = Some "mahasiswa" ->
  faults w2 = [] ->
  let w1 := snd (serve (to_dosen_set_nilai enr_id request) w) in
  fst (serve to_mhs_dashboard (with_file (file w1) w2))
  = fst (serve to_mhs_dashboard (with_file (file w) w2)).
Proof.
  intros Hu Hr Hf Hkeys Hq Hg Hother Hu2 Hr2 Hf2 w1. subst w1.
  rewrite (set_nilai_served w uid enr_id request row angka) by assumption.
  cbn [snd file].
  rewrite !(mhs_dashboard_run _ mhs_id) by (cbn; assumption).
  cbn [file with_file flashes].
  rewrite mahasiswa_by_id_after_upsert.
  assert (Hrows : jadwal_nilai mhs_id
                    (run_statements [upsert_nilai (file w) enr_id angka]
                       (file w))
                  = jadwal_nilai mhs_id (file w)).
  { unfold jadwal_nilai. rewrite enroll_after_upsert.
    apply flat_map_ext_In. intros e He.
    apply filter_In in He as [He Hm]. apply Z.eqb_eq in Hm.
    apply jadwal_nilai_of_after_upsert. intros Heq.
    destruct (ownership_row _ _ _ _ Hq) as (Hrow & Hid & _).
    assert (e = row).
    { apply (key_determines_row enroll_id (enroll (file w))); auto.
      - apply Hkeys.
      - congruence. }
    subst e. contradiction. }
  rewrite Hrows.
  destruct (hd_error (mahasiswa_by_id mhs_id (file w))) as [[u m] |];
    reflexivity.
Qed.

(** X22: deleting a student does not end the student's session.  After the
    administrator's delete went through, a session of the deleted student
    still passes the guard of the dashboard - the id and the role are in
    the cookie - and the dashboard, finding no account to show, fails
    with the TypeError of subscripting None: a 500, not a redirect to
    login. *)
Theorem deleted_student_session_breaks_dashboard (w w2 : world)
    (mhs_id : Z) :
  signed_in "admin" (session w) ->
  faults w = [] ->
  file w2 = file (snd (serve (to_delete_mahasiswa mhs_id) w)) ->
  user_id (session w2) = Some mhs_id ->
  role (session w2) = Some "mahasiswa" ->
  faults w2 = [] ->
  fst (serve to_mhs_dashboard w2) = Plain (InternalServerError TypeError).
Proof.
  intros Hs Hf Hfile Hu2 Hr2 Hf2.
  unfold serve in Hfile. simpl view_function in Hfile.
  rewrite dispatch_plain, delete_mahasiswa_run in Hfile by assumption.
  cbn [snd file] in Hfile.
  rewrite (mhs_dashboard_run w2 mhs_id) by assumption.
  assert (E : mahasiswa_by_id mhs_id (file w2) = []).
  { rewrite Hfile. unfold mahasiswa_by_id. apply filter_none.
    intros [u m] Hin. unfold users_join_mahasiswa in Hin.
    apply in_flat_map in Hin as (x & Hx & Hin).
    apply in_map_iff in Hin as (y & [= <- <-] & _).
    simpl in Hx. unfold delete_rowid in Hx.
    apply filter_In in Hx as [_ Hx]. simpl.
    now apply negb_true_iff in Hx. }
  rewrite E. reflexivity.
Qed.
End StudentGrades.

(** ** Classes, courses and schedules *)

Section AdminWrites.
  Context {RT : Runtime}.

Ltac read_form H :=
  unfold bind at 1, request_form; rewrite H; unfold ret at 1; cbv beta iota.






End AdminWrites.

(** ** The administrator's lists *)

Section Listings.
  Context {RT : Runtime}.

Ltac read_form H :=
  unfold bind at 1, request_form; rewrite H; unfold ret at 1; cbv beta iota.


Lemma add_dosen_run (w : world) (request : Request)
    (username full_name password nidn : string) :
  signed_in "admin" (session w) ->
  faults w = [] ->
  method request = POST ->
  form_field request "username" = Some username ->
  form_field request "full_name" = Some full_name ->
  form_field request "password" = Some password ->
  form_field request "nidn" = Some nidn ->
  existsb (fun u => (users_username u =? username)%string) (users (file w))
  = false ->
  has_rowid dosen_id
    (next_rowid users_id (seq_users (sequence (file w))) (users (file w)))
    (dosen (file w)) = false ->
  serve (to_add_dosen request) w =
    (RedirectTo ep_manage_dosen,
     {| file :=
          run_statements
            [ INSERT_users username (generate_password_hash password)
                "dosen" full_name;
              INSERT_dosen
                (next_rowid users_id (seq_users (sequence (file w)))
                   (users (file w)))
                nidn ] (file w);
        g_database := None; session := session w;
        flashes := flashes w ++ ["Dosen ditambahkan"]; faults := [];
        journal :=
          journal w ++
            [ INSERT_users username (generate_password_hash password)
                "dosen" full_name;
              INSERT_dosen
                (next_rowid users_id (seq_users (sequence (file w)))
                   (users (file w)))
                nidn ] |}).
Proof.
  intros Hs Hf Hm H1 H2 H3 H4 Hfresh Hfree.
  unfold serve, dispatch_request_as. simpl view_function. unfold add_dosen.
  rewrite login_required_as_passes by exact Hs.
  unfold bind at 1. rewrite Hm.
  read_form H1. read_form H2. read_form H3. read_form H4.
  cbv zeta. unfold try_except.
  unfold bind at 1.
  erewrite execute_db_goes_through;
    [| simpl; auto | exact Hf | simpl; rewrite Hfresh; reflexivity ].
  unfold bind at 1.
  erewrite execute_db_goes_through;
    [| simpl; auto | reflexivity | simpl; rewrite Hfree; reflexivity ].
  simpl. rewrite Hfresh. simpl. rewrite Hfree. simpl.
  rewrite <- !app_assoc. reflexivity.
Qed.

Lemma manage_dosen_run (w : world) :
  signed_in "admin" (session w) ->
  faults w = [] ->
  serve to_manage_dosen w =
    (Page (page_manage_dosen (dosen_listings (file w))) (flashes w),
     {| file := file w; g_database := None; session := session w;
        flashes := []; faults := []; journal := journal w |}).
Proof.
  intros Hs Hf. unfold serve, dispatch_request_as. simpl view_function.
  unfold manage_dosen. rewrite login_required_as_passes by exact Hs.
  unfold bind at 1.
  rewrite query_db_goes_through by (simpl; auto).
  reflexivity.
Qed.

(** X25: a lecturer the administrator adds is on the list of lecturers.
    For an administrator, a quiet engine, a POST with the four fields of
    the form, a username no account has and an id no lecturer profile
    has: add_dosen sends the INSERT of the account with role dosen and
    the digest of the password, then the INSERT of the profile under the
    id the account got, flashes "Dosen ditambahkan" and redirects to the
    list; and the list, served next, shows the flash and a row with that
    id, username, name and NIDN. *)
Theorem add_dosen_makes_a_listed_lecturer (w : world) (request : Request)
    (username full_name password nidn : string) :
  signed_in "admin" (session w) ->
  faults w = [] ->
  method request = POST ->
  form_field request "username" = Some username ->
  form_field request "full_name" = Some full_name ->
  form_field request "password" = Some password ->
  form_field request "nidn" = Some nidn ->
  existsb (fun u => (users_username u =? username)%string) (users (file w))
  = false ->
  has_rowid dosen_id
    (next_rowid users_id (seq_users (sequence (file w))) (users (file w)))
    (dosen (file w)) = false ->
  let uid :=
    next_rowid users_id (seq_users (sequence (file w))) (users (file w)) in
  let r := serve (to_add_dosen request) w in
  fst r = RedirectTo ep_manage_dosen
  /\ journal (snd r)
     = journal w
         ++ [ INSERT_users username (generate_password_hash password)
                "dosen" full_name;
              INSERT_dosen uid nidn ]
  /\ exists rows,
       fst (serve to_manage_dosen (snd r))
       = Page (page_manage_dosen rows) (flashes w ++ ["Dosen ditambahkan"])
       /\ In (uid, username, full_name, nidn) rows.
Proof.
  intros Hs Hf Hm H1 H2 H3 H4 Hfresh Hfree uid r. subst r.
  rewrite (add_dosen_run w request username full_name password nidn)
    by assumption.
  cbn [fst snd journal]. fold uid.
  split; [reflexivity |]. split; [reflexivity |].
  rewrite manage_dosen_run by (cbn; first [assumption | reflexivity]).
  cbn [fst file flashes].
  eexists. split; [reflexivity |].
  simpl run_statements. rewrite Hfresh. simpl. fold uid. fold uid in Hfree.
  rewrite Hfree.
  unfold dosen_listings. cbn [users dosen set_users set_dosen].
  apply in_flat_map.
  exists {| users_id := uid; users_username := username;
            users_password_hash := generate_password_hash password;
            users_role := "dosen"; users_full_name := full_name |}.
  split; [apply in_or_app; right; now left |].
  apply in_map_iff. exists {| dosen_id := uid; dosen_nidn := nidn |}.
  split; [reflexivity |].
  apply filter_In. split.
  - apply insert_row_mem. now left.
  - simpl. apply Z.eqb_refl.
Qed.




Lemma dosen_names_inhabited (db : database) (k : kelas_row) :
  exists name, In name (dosen_names db k).
Proof.
  unfold dosen_names.
  destruct (left_join_inhabited
              (filter (fun d => kelas_dosen_id k =? dosen_id d) (dosen db)))
    as ([d |] & Hd).
  - destruct (left_join_inhabited
                (filter (fun u => dosen_id d =? users_id u) (users db)))
      as (u & Hu).
    exists (option_map users_full_name u). apply in_flat_map.
    exists (Some d). split; [exact Hd |]. now apply in_map.
  - exists None. apply in_flat_map. exists None. split; [exact Hd |].
    now left.
Qed.

Lemma manage_mata_kuliah_run (w : world) :
  signed_in "admin" (session w) ->
  faults w = [] ->
  serve to_manage_mata_kuliah w =
    (Page
       (page_manage_mata_kuliah
          (map (fun r =>
                  (mata_kuliah_id (fst (fst r)), mata_kuliah_kode (fst (fst r)),
                   mata_kuliah_nama (fst (fst r)), mata_kuliah_sks (fst (fst r)),
                   text_or_dash (snd (fst r)), text_or_dash (snd r)))
             (mata_kuliah_listings (file w))))
       (flashes w),
     {| file := file w; g_database := None; session := session w;
        flashes := []; faults := []; journal := journal w |}).
Proof.
  intros Hs Hf. unfold serve, dispatch_request_as. simpl view_function.
  unfold manage_mata_kuliah. rewrite login_required_as_passes by exact Hs.
  unfold bind at 1.
  rewrite query_db_goes_through by (simpl; auto).
  reflexivity.
Qed.

Lemma manage_kelas_run (w : world) :
  signed_in "admin" (session w) ->
  faults w = [] ->
  serve to_manage_kelas w =
    (Page
       (page_manage_kelas
          (map (fun r =>
                  (kelas_id (fst (fst r)), kelas_nama (fst (fst r)),
                   snd (fst r), text_or_dash (snd r)))
             (kelas_listings (file w)))
          (dosen_options (file w))
          (map (fun m => (mata_kuliah_id m, mata_kuliah_nama m))
             (mata_kuliah (file w))))
       (flashes w),
     {| file := file w; g_database := None; session := session w;
        flashes := []; faults := []; journal := journal w |}).
Proof.
  intros Hs Hf. unfold serve, dispatch_request_as. simpl view_function.
  unfold manage_kelas. rewrite login_required_as_passes by exact Hs.
  unfold bind at 1.
  rewrite query_db_goes_through by (simpl; auto).
  unfold bind at 1.
  rewrite query_db_goes_through by (simpl; auto).
  unfold bind at 1.
  rewrite query_db_goes_through by (simpl; auto).
  reflexivity.
Qed.

(** X27: what the lists of courses and classes show.  For an administrator
    and a quiet engine: every course is on the list of courses, with or
    without a class (the joins are LEFT JOINs); a class is on the list of
    classes only with a course of its mata_kuliah_id, so a class made for
    a course that does not exist is never listed; and the form on that
    page offers the courses of the table and, as lecturers, the accounts
    that have a lecturer profile. *)
Theorem course_and_class_lists (w : world) :
  signed_in "admin" (session w) ->
  faults w = [] ->
  (exists rows,
      fst (serve to_manage_mata_kuliah w)
      = Page (page_manage_mata_kuliah rows) (flashes w)
      /\ forall mk,
           In mk (mata_kuliah (file w)) ->
           exists kelas_nama dosen_name,
             In (mata_kuliah_id mk, mata_kuliah_kode mk, mata_kuliah_nama mk,
                 mata_kuliah_sks mk, kelas_nama, dosen_name) rows)
  /\ (exists rows options_dosen options_mk,
         fst (serve to_manage_kelas w)
         = Page (page_manage_kelas rows options_dosen options_mk) (flashes w)
         /\ (forall id nama mk_nama dosen_name,
               In (id, nama, mk_nama, dosen_name) rows ->
               exists k mk,
                 In k (kelas (file w)) /\ kelas_id k = id
                 /\ In mk (mata_kuliah (file w))
                 /\ mata_kuliah_id mk = kelas_mata_kuliah_id k
                 /\ mata_kuliah_nama mk = mk_nama)
         /\ (forall id name,
               In (id, name) options_dosen <->
               exists u d,
                 In u (users (file w)) /\ In d (dosen (file w))
                 /\ users_id u = dosen_id d
                 /\ users_id u = id /\ users_full_name u = name)
         /\ options_mk
            = map (fun m => (mata_kuliah_id m, mata_kuliah_nama m))
                (mata_kuliah (file w))).
Proof.
  intros Hs Hf. split.
  - rewrite manage_mata_kuliah_run by assumption.
    eexists. split; [reflexivity |].
    intros mk Hmk.
    destruct (left_join_inhabited
                (filter (fun k => mata_kuliah_id mk =? kelas_mata_kuliah_id k)
                   (kelas (file w))))
      as ([k |] & Hk).
    + destruct (dosen_names_inhabited (file w) k) as (name & Hname).
      exists (text_or_dash (Some (kelas_nama k))), (text_or_dash name).
      apply in_map_iff. exists (mk, Some (kelas_nama k), name).
      split; [reflexivity |].
      unfold mata_kuliah_listings. apply in_flat_map.
      exists mk. split; [exact Hmk |].
      apply in_flat_map. exists (Some k). split; [exact Hk |].
      apply in_map_iff. exists name. auto.
    + exists (text_or_dash None), (text_or_dash None).
      apply in_map_iff. exists (mk, None, None).
      split; [reflexivity |].
      unfold mata_kuliah_listings. apply in_flat_map.
      exists mk. split; [exact Hmk |].
      apply in_flat_map. exists None. split; [exact Hk |]. now left.
  - rewrite manage_kelas_run by assumption.
    eexists _, _, _. split; [reflexivity |]. split; [| split].
    + intros id nama mk_nama dosen_name Hin.
      apply in_map_iff in Hin as ([[k n] dn] & [= <- <- <- <-] & Hin).
      unfold kelas_listings in Hin.
      apply in_flat_map in Hin as (k0 & Hk0 & Hin).
      apply in_flat_map in Hin as ([k1 n1] & Hk1 & Hin).
      apply in_map_iff in Hin as (name & [= <- <- <-] & _).
      apply kelas_with_mk_In in Hk1 as (-> & mk & Hmk & Hmi & Hmn).
      exists k0, mk. simpl. auto.
    + intros id name. unfold dosen_options. rewrite in_flat_map. split.
      * intros (u & Hu & Hin).
        apply in_map_iff in Hin as (d & [= <- <-] & Hd).
        apply filter_In in Hd as [Hd He]. apply Z.eqb_eq in He.
        exists u, d. auto.
      * intros (u & d & Hu & Hd & He & <- & <-).
        exists u. split; [exact Hu |].
        apply in_map_iff. exists d. split; [reflexivity |].
        apply filter_In. split; [exact Hd |]. now apply Z.eqb_eq.
    + reflexivity.
Qed.
End Listings.

(** ** The properties of this part, on the seeded database *)

(** X1 on the seeded database: the administrator adds the student siti. *)
Lemma every_request_keeps_primary_keys_witness :
  primary_keys (file (snd (serve (to_add_mahasiswa form_siti) world_admin))).
Proof.
  apply every_request_keeps_primary_keys.
  exact seeded_database_primary_keys.
Defined.

Lemma seeded_database_one_grade_per_enroll :
  one_grade_per_enroll seeded_database.
Proof.
  intros enr_id. unfold nilai_by_enroll, seeded_database.
  cbn [nilai filter nilai_enroll_id].
  destruct (1 =? enr_id); simpl; lia.
Qed.

(** X2 on the seeded database: dosen1 grades enrollment 1 with 90. *)
Lemma every_request_keeps_one_grade_per_enroll_witness :
  one_grade_per_enroll
    (file (snd (serve (to_dosen_set_nilai 1 grade_90) world_dosen1))).
Proof.
  apply every_request_keeps_one_grade_per_enroll.
  exact seeded_database_one_grade_per_enroll.
Defined.

(** X3 on the seeded database: mahasiswa1 asks for the deletion of
    mahasiswa1. *)
Lemma only_admin_and_dosen_write_witness :
  file (snd (serve (to_delete_mahasiswa 3) world_mahasiswa1))
  = seeded_database
  /\ journal (snd (serve (to_delete_mahasiswa 3) world_mahasiswa1)) = [].
Proof.
  apply (only_admin_and_dosen_write (to_delete_mahasiswa 3) world_mahasiswa1);
    discriminate.
Defined.

(** X4 on the seeded database: dosen1 grades enrollment 1 with 90. *)
Lemma dosen_writes_nilai_only_witness :
  same_but_nilai seeded_database
    (file (snd (serve (to_dosen_set_nilai 1 grade_90) world_dosen1))).
Proof.
  apply (dosen_writes_nilai_only (to_dosen_set_nilai 1 grade_90) world_dosen1).
  reflexivity.
Defined.

(** X5 on the seeded database: the administrator takes enrollment 1 out of
    class 1. *)
Lemma admin_sets_no_grade_witness :
  incl (nilai (file (snd (serve (to_unenroll 1 1) world_admin))))
    (nilai seeded_database).
Proof.
  exact (admin_sets_no_grade (to_unenroll 1 1) world_admin eq_refl).
Defined.

(** X6 on the seeded database: mahasiswa1 asks for the administrator's
    dashboard. *)
Lemma every_other_view_is_guarded_witness :
  serve to_admin_dashboard world_mahasiswa1
  = (Plain (Redirect ep_index),
     with_flashes ["Akses ditolak: hak akses diperlukan: admin"]
       world_mahasiswa1).
Proof.
  apply (every_other_view_is_guarded to_admin_dashboard "admin"
           world_mahasiswa1 eq_refl); discriminate.
Defined.

(** X7 on the seeded database: dosen1 signs in with dosen123. *)
Lemma login_opens_session_witness :
  fst (dispatch_request (login sign_in_dosen1) world_anonymous)
  = Redirect ep_index
  /\ session (snd (dispatch_request (login sign_in_dosen1) world_anonymous))
     = session_dosen1.
Proof.
  destruct (login_opens_session (RT := simple_runtime)
              world_anonymous sign_in_dosen1
              "dosen1" "dosen123"
              {| users_id := 2; users_username := "dosen1";
                 users_password_hash := "plain$dosen123";
                 users_role := "dosen";
                 users_full_name := "Dr. Dosen Satu" |}
              eq_refl eq_refl eq_refl eq_refl eq_refl eq_refl)
    as (H1 & H2 & _).
  split; [exact H1 | exact H2].
Defined.

(** X8 on the seeded database: a login form without its password. *)
Lemma login_without_a_field_witness :
  dispatch_request (login (post_form [("username", "admin")])) world_anonymous
  = (InternalServerError BadRequestKeyError, world_anonymous).
Proof.
  exact (login_without_a_field (RT := simple_runtime) world_anonymous
           (post_form [("username", "admin")]) eq_refl
           (or_intror eq_refl)).
Defined.

(** X10 on the seeded database: dosen1 asks for the front page. *)
Lemma index_sorts_by_role_witness :
  fst (serve to_index world_dosen1) = Plain (Redirect ep_dosen_dashboard).
Proof.
  assert (Hu : user_id (session world_dosen1) <> None) by discriminate.
  destruct (index_sorts_by_role world_dosen1 Hu) as (_ & _ & H & _).
  apply H. reflexivity.
Defined.

(** X11 on the seeded database: the administrator adds siti, who gets the
    id 4. *)
Lemma add_mahasiswa_makes_account_and_profile_witness :
  fst (serve (to_add_mahasiswa form_siti) world_admin)
  = Plain (Redirect ep_manage_mahasiswa)
  /\ In {| ml_id := 4; ml_username := "siti"; ml_full_name := "Siti Rahma";
           ml_nim := "20231002"; ml_alamat := "Jl. Melati 2";
           ml_phone := "081200000000" |}
        (mahasiswa_listings
           (file (snd (serve (to_add_mahasiswa form_siti) world_admin)))).
Proof.
  assert (Hform : mahasiswa_form form_siti "siti" "Siti Rahma" "rahasia"
                    "20231002" "Jl. Melati 2" "081200000000")
    by (repeat split).
  destruct (add_mahasiswa_makes_account_and_profile world_admin form_siti
              "siti" "Siti Rahma" "rahasia" "20231002" "Jl. Melati 2"
              "081200000000" signed_in_admin eq_refl Hform eq_refl eq_refl)
    as (H1 & _ & _ & _ & H2 & _).
  split; [exact H1 | exact H2].
Defined.

(** X12 on the seeded database: the administrator adds a second student
    under the username mahasiswa1. *)
Lemma add_mahasiswa_refuses_a_taken_username_witness :
  fst (serve (to_add_mahasiswa form_mahasiswa1_again) world_admin)
  = Page page_add_mahasiswa
      ["Gagal menambah: UNIQUE constraint failed: users.username"]
  /\ file (snd (serve (to_add_mahasiswa form_mahasiswa1_again) world_admin))
     = seeded_database.
Proof.
  assert (Hform : mahasiswa_form form_mahasiswa1_again "mahasiswa1" "Budi Dua"
                    "rahasia" "20231003" "Jl. Mawar 3" "081300000000")
    by (repeat split).
  assert (Hin : In "mahasiswa1"
                  (map users_username (users (file world_admin))))
    by (simpl; auto).
  destruct (add_mahasiswa_refuses_a_taken_username world_admin
              form_mahasiswa1_again "mahasiswa1" "Budi Dua" "rahasia"
              "20231003" "Jl. Mawar 3" "081300000000"
              signed_in_admin eq_refl Hform Hin)
    as (H1 & H2 & _).
  split; [exact H1 | exact H2].
Defined.

(** X13 on the seeded database: the engine runs the INSERT of siti's
    account and is locked at the INSERT of the profile. *)
Lemma add_mahasiswa_can_leave_an_account_without_profile_witness :
  fst (serve (to_add_mahasiswa form_siti) world_admin_locked)
  = Page page_add_mahasiswa ["Gagal menambah: database is locked"]
  /\ mahasiswa
       (file (snd (serve (to_add_mahasiswa form_siti) world_admin_locked)))
     = mahasiswa seeded_database
  /\ fst (serve (to_add_mahasiswa form_siti)
            (snd (serve (to_add_mahasiswa form_siti) world_admin_locked)))
     = Page page_add_mahasiswa
         ["Gagal menambah: UNIQUE constraint failed: users.username"].
Proof.
  assert (Hform : mahasiswa_form form_siti "siti" "Siti Rahma" "rahasia"
                    "20231002" "Jl. Melati 2" "081200000000")
    by (repeat split).
  destruct (add_mahasiswa_can_leave_an_account_without_profile
              world_admin_locked form_siti
              "siti" "Siti Rahma" "rahasia" "20231002" "Jl. Melati 2"
              "081200000000" "database is locked"
              signed_in_admin eq_refl Hform eq_refl eq_refl)
    as (H1 & _ & H2 & _ & H3 & _).
  split; [exact H1 |]. split; [exact H2 | exact H3].
Defined.

(** X14 on the seeded database: siti, once added, signs in and opens the
    dashboard. *)
Lemma added_student_signs_in_and_sees_the_profile_witness :
  exists rows messages,
    fst (serve to_mhs_dashboard
           (snd (dispatch_request (login sign_in_siti)
                   (snd (serve (to_add_mahasiswa form_siti) world_admin)))))
    = Page (page_mhs_dashboard "Siti Rahma" "20231002" "Jl. Melati 2"
              "081200000000" rows) messages.
Proof.
  assert (Hform : mahasiswa_form form_siti "siti" "Siti Rahma" "rahasia"
                    "20231002" "Jl. Melati 2" "081200000000")
    by (repeat split).
  assert (Hhash : forall p,
             check_password_hash (generate_password_hash p) p = true)
    by (intros p; apply String.eqb_refl).
  exact (proj2 (added_student_signs_in_and_sees_the_profile world_admin
                  form_siti sign_in_siti
                  "siti" "Siti Rahma" "rahasia" "20231002" "Jl. Melati 2"
                  "081200000000" Hhash signed_in_admin eq_refl Hform
                  eq_refl eq_refl eq_refl eq_refl eq_refl)).
Defined.

(** X15 on the seeded database: the administrator opens the page of
    class 1. *)
Lemma view_kelas_never_renders_witness :
  fst (serve (to_view_kelas 1) world_admin)
  = Plain (InternalServerError (OperationalError "ambiguous column name: id")).
Proof.
  exact (proj2 (view_kelas_never_renders 1 world_admin)
           signed_in_admin eq_refl (sqlite_integer_small 1 ltac:(lia))).
Defined.

(** X16 on the seeded database: the engine is locked at the second delete
    of student 3; the administrator is sent to the list with the cause
    flashed. *)
Lemma tried_views_catch_statement_errors_witness :
  fst (serve (to_delete_mahasiswa 3) world_admin_locked)
  = Plain (Redirect ep_manage_mahasiswa)
  /\ exists msg,
       flashes (snd (serve (to_delete_mahasiswa 3) world_admin_locked))
       = [msg]
       /\ (msg = "Mahasiswa dihapus"
           \/ exists detail, msg = ("Gagal hapus: " ++ detail)%string).
Proof.
  exact (proj2 (proj1 (tried_views_catch_statement_errors
                         (RT := simple_runtime) world_admin_locked) 3)
           signed_in_admin).
Defined.

(** X17 on the seeded database: the dashboard of dosen1 lists class 1,
    "Jarkom - Pagi", under its course. *)
Lemma dosen_dashboard_lists_own_classes_witness :
  exists rows,
    fst (serve to_dosen_dashboard world_dosen1)
    = Page (page_dosen_dashboard rows) []
    /\ In ({| kelas_id := 1; kelas_nama := "Jarkom - Pagi";
              kelas_mata_kuliah_id := 1; kelas_dosen_id := 2 |},
           "Jaringan Komputer") rows.
Proof.
  destruct (dosen_dashboard_lists_own_classes world_dosen1 2
              eq_refl eq_refl eq_refl)
    as (rows & H1 & H2).
  exists rows. split; [exact H1 |].
  apply H2. split; [left; reflexivity |]. split; [reflexivity |].
  eexists. split; [left; reflexivity |]. split; reflexivity.
Defined.

Lemma seeded_class_1_of_dosen1 :
  exists k mk,
    In k (kelas seeded_database) /\ kelas_id k = 1 /\ kelas_dosen_id k = 2
    /\ In mk (mata_kuliah seeded_database)
    /\ mata_kuliah_id mk = kelas_mata_kuliah_id k.
Proof.
  eexists _, _. split; [left; reflexivity |].
  split; [reflexivity |]. split; [reflexivity |].
  split; [left; reflexivity | reflexivity].
Qed.

(** X18 on the seeded database: dosen1 opens the page of class 1. *)
Lemma dosen_view_kelas_lists_own_enrollments_witness :
  exists nama mk_nama rows,
    fst (serve (to_dosen_view_kelas 1) world_dosen1)
    = Page (page_dosen_view_kelas nama mk_nama rows) []
    /\ forall row, In row rows -> owns seeded_database 2 (ps_enroll_id row).
Proof.
  exact (proj1 (dosen_view_kelas_lists_own_enrollments world_dosen1 2 1
                  eq_refl eq_refl eq_refl
                  (sqlite_integer_small 1 ltac:(lia)))
           seeded_class_1_of_dosen1).
Defined.

Lemma seeded_class_1_has_course : has_course seeded_database 1.
Proof.
  intros k Hk _. destruct Hk as [<- | []].
  eexists. split; [left; reflexivity | reflexivity].
Qed.

(** X19 on the seeded database: dosen1 grades enrollment 1 with 90 and
    follows the redirect to the page of class 1. *)
Lemma saved_grade_shows_on_class_page_witness :
  exists nama mk_nama rows,
    fst (serve (to_dosen_view_kelas 1)
           (snd (serve (to_dosen_set_nilai 1 grade_90) world_dosen1)))
    = Page (page_dosen_view_kelas nama mk_nama rows) ["Nilai tersimpan"]
    /\ forall r,
         In r rows -> ps_enroll_id r = 1 -> ps_nilai r = shown 90%float.
Proof.
  exact (saved_grade_shows_on_class_page (RT := simple_runtime)
           world_dosen1 2 1 grade_90
           {| enroll_id := 1; enroll_mahasiswa_id := 3; enroll_kelas_id := 1 |}
           90%float eq_refl eq_refl eq_refl eq_refl eq_refl eq_refl
           seeded_class_1_has_course).
Defined.

(** X20 on the seeded database: dosen1 grades enrollment 1 with 90;
    mahasiswa1 opens the dashboard. *)
Lemma student_sees_the_saved_grade_witness :
  exists full_name nim alamat phone rows,
    fst (serve to_mhs_dashboard
           (with_file
              (file (snd (serve (to_dosen_set_nilai 1 grade_90) world_dosen1)))
              world_mahasiswa1))
    = Page (page_mhs_dashboard full_name nim alamat phone rows) []
    /\ rows <> []
    /\ forall r, In r rows -> jn_nilai r = shown 90%float.
Proof.
  assert (Hprofile : mahasiswa_by_id 3 (file world_dosen1) <> [])
    by (vm_compute; discriminate).
  exact (student_sees_the_saved_grade (RT := simple_runtime)
           world_dosen1
           (with_file
              (file (snd (serve (to_dosen_set_nilai 1 grade_90) world_dosen1)))
              world_mahasiswa1)
           2 3 1 grade_90
           {| enroll_id := 1; enroll_mahasiswa_id := 3; enroll_kelas_id := 1 |}
           90%float eq_refl eq_refl eq_refl eq_refl eq_refl eq_refl
           eq_refl eq_refl eq_refl eq_refl Hprofile eq_refl
           seeded_class_1_has_course).
Defined.

Lemma two_students_primary_keys : primary_keys two_students.
Proof.
  unfold primary_keys. vm_compute.
  repeat split; repeat constructor; simpl; intuition discriminate.
Qed.

(** X21 with two students: dosen1 grades siti's enrollment 2 with 90; the
    dashboard of mahasiswa1 is what it was. *)
Lemma grade_write_leaves_other_dashboards_witness :
  fst (serve to_mhs_dashboard
         (with_file
            (file (snd (serve (to_dosen_set_nilai 2 grade_90)
                          (world_two_students session_dosen1))))
            (world_two_students session_mahasiswa1)))
  = fst (serve to_mhs_dashboard
           (with_file two_students (world_two_students session_mahasiswa1))).
Proof.
  assert (Hother : enroll_mahasiswa_id
                     {| enroll_id := 2; enroll_mahasiswa_id := 4;
                        enroll_kelas_id := 1 |} <> 3)
    by discriminate.
  exact (grade_write_leaves_other_dashboards (RT := simple_runtime)
           (world_two_students session_dosen1)
           (world_two_students session_mahasiswa1)
           2 3 2 grade_90
           {| enroll_id := 2; enroll_mahasiswa_id := 4; enroll_kelas_id := 1 |}
           90%float eq_refl eq_refl eq_refl two_students_primary_keys
           eq_refl eq_refl Hother eq_refl eq_refl eq_refl).
Defined.

(** X22 on the seeded database: the administrator deletes mahasiswa1,
    whose session then asks for the dashboard. *)
Lemma deleted_student_session_breaks_dashboard_witness :
  fst (serve to_mhs_dashboard
         (with_file
            (file (snd (serve (to_delete_mahasiswa 3) world_admin)))
            world_mahasiswa1))
  = Plain (InternalServerError TypeError).
Proof.
  exact (deleted_student_session_breaks_dashboard (RT := simple_runtime)
           world_admin
           (with_file
              (file (snd (serve (to_delete_mahasiswa 3) world_admin)))
              world_mahasiswa1)
           3 signed_in_admin eq_refl eq_refl eq_refl eq_refl eq_refl).
Defined.



(** X25 on the seeded database: the administrator adds dosen2, who gets
    the id 4 and is on the list. *)
Lemma add_dosen_makes_a_listed_lecturer_witness :
  exists rows,
    fst (serve to_manage_dosen
           (snd (serve (to_add_dosen form_dosen2) world_admin)))
    = Page (page_manage_dosen rows) ["Dosen ditambahkan"]
    /\ In (4, "dosen2", "Dr. Dosen Dua", "NIDN67890") rows.
Proof.
  exact (proj2 (proj2
           (add_dosen_makes_a_listed_lecturer (RT := simple_runtime)
              world_admin form_dosen2
              "dosen2" "Dr. Dosen Dua" "rahasia" "NIDN67890"
              signed_in_admin eq_refl eq_refl eq_refl eq_refl eq_refl
              eq_refl eq_refl eq_refl))).
Defined.


(** X27 on the seeded database: the lists of courses and of classes. *)
Lemma course_and_class_lists_witness :
  exists rows,
    fst (serve to_manage_mata_kuliah world_admin)
    = Page (page_manage_mata_kuliah rows) []
    /\ exists kelas_nama dosen_name,
         In (1, "JARKOM101", "Jaringan Komputer", 3, kelas_nama, dosen_name)
           rows.
Proof.
  destruct (proj1 (course_and_class_lists world_admin signed_in_admin eq_refl))
    as (rows & H1 & H2).
  exists rows. split; [exact H1 |].
  apply (H2 {| mata_kuliah_id := 1; mata_kuliah_kode := "JARKOM101";
               mata_kuliah_nama := "Jaringan Komputer";
               mata_kuliah_sks := 3 |}).
  left. reflexivity.
Defined.
